(** * Mapty (script.js): a shallow embedding and its specification

    The program is a browser workout tracker.  Its logic lives in three
    classes ([Workout], [Running], [Cycling]) and in the event handlers of
    [App].  This development embeds:

    - JavaScript Numbers as IEEE 754 binary64 values ([spec_float] with
      precision 53 and maximal exponent 1024), with [/], [>],
      [Number.isFinite] and [Number.prototype.toFixed];
    - the workout classes as records, built by functions that follow the
      constructors statement by statement;
    - the application as a state record threaded through the handlers
      [_newWorkout], [_moveToPopup], [_getLocalStorage], [_setLocalStorage],
      with thrown exceptions made explicit.

    The browser is outside the model: geolocation, the styling of the form
    and its timer, the markup of the list, and Leaflet, which is a recorder
    of the calls it receives.  Of the template literals the model keeps the
    values that are interpolated and the exception that their conversion to
    a string can throw, not the text.  The text fields reach [_newWorkout]
    as the Numbers that the unary [+] makes of them. *)

From Stdlib Require Import ZArith QArith Qabs Qpower Lia Lqa List String Ascii Bool.
From Stdlib Require Import Floats.SpecFloat.
Import ListNotations.

Set Warnings "-register-all".
Open Scope string_scope.
Open Scope Z_scope.

(** ** JavaScript Numbers *)

Module Num.

Definition prec : Z := 53.
Definition emax : Z := 1024.

(** A Number is a binary64 value: a signed zero, a signed infinity, NaN, or
    [S754_finite s m e], which denotes (-1)^s * m * 2^e. *)
Definition Number : Type := spec_float.

Definition valid (x : Number) : bool := valid_binary prec emax x.

(** The Number for an integer literal. *)
Definition of_Z (z : Z) : Number := binary_normalize prec emax z 0 false.

(** [x / y] *)
Definition div (x y : Number) : Number := SFdiv prec emax x y.

(** [x + y] *)
Definition add (x y : Number) : Number := SFadd prec emax x y.

(** [x > y] *)
Definition gt (x y : Number) : bool := SFltb y x.

(** [Number.isFinite(x)] for an argument that is a Number. *)
Definition isFinite (x : Number) : bool :=
  match x with
  | S754_zero _ | S754_finite _ _ _ => true
  | S754_infinity _ | S754_nan => false
  end.

(** The mathematical value of a finite Number (0 for the others, which the
    callers exclude). *)
Definition value (x : Number) : Q :=
  match x with
  | S754_finite s m (Zneg p) =>
      (if s then Z.neg m else Z.pos m) # (2 ^ p)%positive
  | S754_finite s m e =>
      inject_Z ((if s then Z.neg m else Z.pos m) * 2 ^ e)
  | _ => 0%Q
  end.

(** *** Decimal digits of non-negative integers *)

Definition digit (d : Z) : string :=
  String (ascii_of_nat (48 + Z.to_nat d)) EmptyString.

Fixpoint decimal_fuel (fuel : nat) (n : Z) : string :=
  match fuel with
  | O => ""
  | S fuel' =>
      if n <? 10 then digit n
      else decimal_fuel fuel' (n / 10) ++ digit (n mod 10)
  end.

(** The decimal representation of [n >= 0], most significant digit first.
    A number has no more decimal digits than binary digits. *)
Definition decimal (n : Z) : string :=
  decimal_fuel (S (Z.to_nat (Z.log2 n))) n.

(** The decimal representation of any integer ([String(n)] for an
    integral Number below 10^21 in magnitude). *)
Definition decimal_signed (n : Z) : string :=
  if n <? 0 then "-" ++ decimal (- n) else decimal n.

Fixpoint zeros (k : nat) : string :=
  match k with
  | O => ""
  | S k' => "0" ++ zeros k'
  end.

(** *** Number::toString for finite values of at least 10^21

    The shortest decimal [s * 10^e10] that rounds to [X = m * 2^e], printed
    in exponent notation.  The reals that round to [X] form the interval
    from [lo] to [hi], closed when [m] is even. *)

Definition round_interval (m : positive) (e : Z) : Z * Z * bool :=
  let X := Zpos m * 2 ^ e in
  let up := 2 ^ (e - 1) in
  let down :=
    if (Zpos m =? 2 ^ (prec - 1)) && (3 - emax - prec <? e)
    then 2 ^ (e - 2) else 2 ^ (e - 1) in
  (X - down, X + up, Z.even (Zpos m)).

(** The multiple of [10^e10] in the interval that is nearest to [X] (the
    even one of two), if there is any. *)
Definition candidate (X lo hi : Z) (closed : bool) (e10 : Z) : option Z :=
  let P := 10 ^ e10 in
  let s_lo := if closed then (lo + P - 1) / P else lo / P + 1 in
  let s_hi := if closed then hi / P else (hi - 1) / P in
  if s_lo <=? s_hi then
    let near := (2 * X + P) / (2 * P) in
    let near :=
      if (2 * X + P =? near * (2 * P)) && Z.odd near
      then near - 1 else near in
    Some (Z.max s_lo (Z.min s_hi near))
  else None.

(** The greatest [e10], from [e10] downwards, with a candidate. *)
Fixpoint shortest (fuel : nat) (X lo hi : Z) (closed : bool) (e10 : Z)
  : Z * Z :=
  match fuel with
  | O => (X, 0)
  | S fuel' =>
      match candidate X lo hi closed e10 with
      | Some s => (s, e10)
      | None => shortest fuel' X lo hi closed (e10 - 1)
      end
  end.

(** The search starts above the number of decimal digits of [hi]:
    log10 2 < 0.30103. *)
Definition toString_large (m : positive) (e : Z) : string :=
  let '(lo, hi, closed) := round_interval m e in
  let X := Zpos m * 2 ^ e in
  let start := (Z.log2 hi + 1) * 30103 / 100000 + 1 in
  let '(s, e10) := shortest (S (Z.to_nat start)) X lo hi closed start in
  let ds := decimal s in
  let k := String.length ds in
  let n := Z.of_nat k + e10 in
  match ds with
  | String d EmptyString => String d "e+" ++ decimal (n - 1)
  | String d rest => String d ("." ++ rest) ++ "e+" ++ decimal (n - 1)
  | EmptyString => ""
  end.

(** *** Number.prototype.toFixed

    [nearest_scaled m e f] is the integer [n] for which [n / 10^f - m * 2^e]
    is as close to zero as possible, the larger one when there are two. *)
Definition nearest_scaled (m : positive) (e : Z) (f : nat) : Z :=
  match e with
  | Zneg p => (2 * (Zpos m * 10 ^ Z.of_nat f) + 2 ^ Zpos p) / 2 ^ (Zpos p + 1)
  | _ => Zpos m * 2 ^ e * 10 ^ Z.of_nat f
  end.

(** [m * 2^e >= 10^21] *)
Definition at_least_1e21 (m : positive) (e : Z) : bool :=
  match e with
  | Zneg p => 10 ^ 21 * 2 ^ Zpos p <=? Zpos m
  | _ => 10 ^ 21 <=? Zpos m * 2 ^ e
  end.

(** The digits of [n] with a decimal point before the last [f] of them,
    padded with leading zeros to at least [f + 1] digits. *)
Definition place_point (n : Z) (f : nat) : string :=
  let m := decimal n in
  match f with
  | O => m
  | _ =>
      let k := String.length m in
      let m := if (k <=? f)%nat then zeros (f + 1 - k) ++ m else m in
      let k := String.length m in
      substring 0 (k - f) m ++ "." ++ substring (k - f) f m
  end.

(** [x.toFixed(f)], for [0 <= f <= 100] (the program calls it with 1). *)
Definition toFixed (x : Number) (f : nat) : string :=
  match x with
  | S754_nan => "NaN"
  | S754_infinity false => "Infinity"
  | S754_infinity true => "-Infinity"
  | S754_zero _ => place_point 0 f
  | S754_finite s m e =>
      (if s then "-" else "") ++
      (if at_least_1e21 m e then toString_large m e
       else place_point (nearest_scaled m e f) f)
  end.

End Num.

Import Num.

(** ** JavaScript values, property reads and JSON *)

(** What the program observes of a [Date] object. *)
Record Date := mkDate {
  getMonth : nat;          (* 0 .. 11 *)
  getDate : nat;           (* day of the month *)
  toISOString : string     (* what [toJSON] returns *)
}.

(** Plain values: primitives, [Date] objects, arrays, and objects with
    [Object.prototype], as ordered lists of own properties. *)
Inductive Value : Type :=
| Undefined
| Null
| Bool (b : bool)
| Num (x : Number)
| Str (s : string)
| DateObj (d : Date)
| Arr (elems : list Value)
| Obj (props : list (string * Value)).

Definition Props : Type := list (string * Value).

Fixpoint lookup (key : string) (ps : Props) : option Value :=
  match ps with
  | [] => None
  | (k, v) :: rest => if String.eqb k key then Some v else lookup key rest
  end.

(** The properties of an object are listed in the order in which the
    language enumerates them ([OrdinaryOwnPropertyKeys]): first the array
    indices, in ascending order, then the other names, in the order of
    their creation.  An array index is the decimal numeral, without
    leading zeros, of an integer from 0 to 2^32 - 2. *)
Definition digit_of (c : ascii) : option Z :=
  let n := Z.of_nat (nat_of_ascii c) in
  if (48 <=? n) && (n <=? 57) then Some (n - 48) else None.

Fixpoint numeral (s : string) (acc : Z) : option Z :=
  match s with
  | EmptyString => Some acc
  | String c rest =>
      match digit_of c with
      | Some d => numeral rest (10 * acc + d)
      | None => None
      end
  end.

Definition array_index (key : string) : option Z :=
  match key with
  | EmptyString => None
  | String c rest =>
      if Ascii.eqb c "0"%char
         && match rest with EmptyString => false | _ => true end
      then None
      else match numeral key 0 with
           | Some n => if n <=? 2 ^ 32 - 2 then Some n else None
           | None => None
           end
  end.

(** A new property [key] is enumerated before the existing [k]. *)
Definition comes_before (key k : string) : bool :=
  match array_index key, array_index k with
  | Some n, Some n' => n <? n'
  | Some _, None => true
  | None, _ => false
  end.

(** The property [key] gets the value [v] where it stands. *)
Fixpoint overwrite (ps : Props) (key : string) (v : Value) : Props :=
  match ps with
  | [] => []
  | (k, w) :: rest =>
      if String.eqb k key then (k, v) :: rest
      else (k, w) :: overwrite rest key v
  end.

(** The new property [key] goes before the first property that it is
    enumerated before, or to the end. *)
Fixpoint insert (ps : Props) (key : string) (v : Value) : Props :=
  match ps with
  | [] => [(key, v)]
  | (k, w) :: rest =>
      if comes_before key k then (key, v) :: (k, w) :: rest
      else (k, w) :: insert rest key v
  end.

(** [CreateDataProperty]: overwrite the property where it stands, or add
    it at its place in the enumeration. *)
Definition put (ps : Props) (key : string) (v : Value) : Props :=
  match lookup key ps with
  | Some _ => overwrite ps key v
  | None => insert ps key v
  end.

(** A JSON text, identified with its syntax tree: the spelling of the tree
    in characters, and reading it back, are not modelled. *)
Inductive json : Type :=
| JNull
| JBool (b : bool)
| JNumber (x : Number)
| JString (s : string)
| JArray (elems : list json)
| JObject (members : list (string * json)).

(** A finite Number is written in its shortest form that reads back as the
    same Number, except that -0 is written as 0. *)
Definition json_number (x : Number) : json :=
  match x with
  | S754_zero _ => JNumber (S754_zero false)
  | S754_finite _ _ _ => JNumber x
  | S754_infinity _ | S754_nan => JNull
  end.

(** [SerializeJSONProperty]: [None] stands for [undefined] (nothing is
    written). *)
Fixpoint stringify (v : Value) : option json :=
  match v with
  | Undefined => None
  | Null => Some JNull
  | Bool b => Some (JBool b)
  | Num x => Some (json_number x)
  | Str s => Some (JString s)
  | DateObj d => Some (JString (toISOString d))
  | Arr elems =>
      Some (JArray (List.map (fun x => match stringify x with
                                       | Some j => j
                                       | None => JNull
                                       end) elems))
  | Obj props =>
      Some (JObject (flat_map (fun kv => match stringify (snd kv) with
                                         | Some j => [(fst kv, j)]
                                         | None => []
                                         end) props))
  end.

(** [JSON.parse] *)
Fixpoint parse (j : json) : Value :=
  match j with
  | JNull => Null
  | JBool b => Bool b
  | JNumber x => Num x
  | JString s => Str s
  | JArray elems => Arr (List.map parse elems)
  | JObject members =>
      Obj (fold_left (fun ps kv => put ps (fst kv) (snd kv))
             (List.map (fun kj => (fst kj, parse (snd kj))) members) [])
  end.

(** ** The workout classes *)

Inductive Class := RunningClass | CyclingClass.

(** An instance of [Running] or [Cycling].  The fields are listed in the
    order in which the constructors define them; a property that an
    instance does not have is [None].  [clicks], a Number in the source, is
    the integer it counts (see [increment]). *)
Record Workout := mkWorkout {
  class : Class;
  date : Date;
  id : string;
  clicks : Z;
  coords : Number * Number;        (* [lat, lng] *)
  distance : Number;               (* in km *)
  duration : Number;               (* in min *)
  type : string;
  isRunning : bool;
  cadence : option Number;
  elevationGain : option Number;
  pace : option string;
  speed : option string;
  description : option string
}.

(** What the runtime supplies when an instance is created. *)
Record Env := mkEnv {
  env_date : Date;    (* [new Date()] *)
  env_now : Z;        (* [Date.now()] *)
  env_random : Z      (* [Math.trunc(Math.random() * 100_000)] *)
}.

(** [s.slice(-n)] *)
Definition slice_last (n : nat) (s : string) : string :=
  substring (String.length s - n) n s.

(** [(Date.now() + Math.trunc(Math.random() * 100_000) + "").slice(-10)];
    the sum is far below 2^53, hence exact. *)
Definition fresh_id (env : Env) : string :=
  slice_last 10 (decimal_signed (env_now env + env_random env)).

Definition months : list string :=
  ["January"; "February"; "March"; "April"; "May"; "June"; "July";
   "August"; "September"; "October"; "November"; "December"].

(** [c.toUpperCase()] on one ASCII character. *)
Definition toUpperCase (c : ascii) : ascii :=
  let n := nat_of_ascii c in
  if ((97 <=? n) && (n <=? 122))%nat then ascii_of_nat (n - 32) else c.

(** [Workout.prototype._setDescription].  Both classes define [type] as a
    non-empty literal; for an empty [type] the source throws at [type[0]]
    and the model leaves the description unset. *)
Definition _setDescription (this : Workout) : Workout :=
  match type this with
  | String c rest =>
      let text :=
        (String (toUpperCase c) rest ++ " on " ++
         nth (getMonth (date this)) months "undefined" ++ " " ++
         decimal (Z.of_nat (getDate (date this))))%string in
      {| class := class this; date := date this; id := id this;
         clicks := clicks this; coords := coords this;
         distance := distance this; duration := duration this;
         type := type this; isRunning := isRunning this;
         cadence := cadence this; elevationGain := elevationGain this;
         pace := pace this; speed := speed this;
         description := Some text |}
  | EmptyString => this
  end.

(** [n++] on a counter: Number addition is exact below 2^53, and
    2^53 + 1 rounds back to 2^53 (lemma [increment_is_addition]). *)
Definition increment (n : Z) : Z := if n <? 2 ^ 53 then n + 1 else n.

(** [Workout.prototype.click] *)
Definition click (this : Workout) : Workout :=
  {| class := class this; date := date this; id := id this;
     clicks := increment (clicks this); coords := coords this;
     distance := distance this; duration := duration this;
     type := type this; isRunning := isRunning this;
     cadence := cadence this; elevationGain := elevationGain this;
     pace := pace this; speed := speed this;
     description := description this |}.

(** [Running.prototype.calcPace]: pace in min/km *)
Definition calcPace (this : Workout) : Workout :=
  {| class := class this; date := date this; id := id this;
     clicks := clicks this; coords := coords this;
     distance := distance this; duration := duration this;
     type := type this; isRunning := isRunning this;
     cadence := cadence this; elevationGain := elevationGain this;
     pace := Some (toFixed (div (duration this) (distance this)) 1);
     speed := speed this; description := description this |}.

(** [Cycling.prototype.calcSpeed]: speed in km/h *)
Definition calcSpeed (this : Workout) : Workout :=
  {| class := class this; date := date this; id := id this;
     clicks := clicks this; coords := coords this;
     distance := distance this; duration := duration this;
     type := type this; isRunning := isRunning this;
     cadence := cadence this; elevationGain := elevationGain this;
     pace := pace this;
     speed := Some (toFixed (div (distance this)
                                 (div (duration this) (of_Z 60))) 1);
     description := description this |}.

(** [new Running(coords, distance, duration, cadence)] *)
Definition new_Running (env : Env) (coords : Number * Number)
    (distance duration cadence : Number) : Workout :=
  let this :=
    {| class := RunningClass;
       date := env_date env; id := fresh_id env; clicks := 0;
       coords := coords; distance := distance; duration := duration;
       type := "running"; isRunning := true;
       cadence := Some cadence; elevationGain := None;
       pace := None; speed := None; description := None |} in
  let this := calcPace this in
  _setDescription this.

(** [new Cycling(coords, distance, duration, elevationGain)] *)
Definition new_Cycling (env : Env) (coords : Number * Number)
    (distance duration elevationGain : Number) : Workout :=
  let this :=
    {| class := CyclingClass;
       date := env_date env; id := fresh_id env; clicks := 0;
       coords := coords; distance := distance; duration := duration;
       type := "cycling"; isRunning := false;
       cadence := None; elevationGain := Some elevationGain;
       pace := None; speed := None; description := None |} in
  let this := calcSpeed this in
  _setDescription this.

Definition opt_prop {A} (key : string) (f : A -> Value) (o : option A)
  : Props :=
  match o with
  | Some a => [(key, f a)]
  | None => []
  end.

(** The own properties of an instance, in creation order. *)
Definition own_props (w : Workout) : Props :=
  ([("date", DateObj (date w)); ("id", Str (id w));
   ("clicks", Num (of_Z (clicks w)));
   ("coords", Arr [Num (fst (coords w)); Num (snd (coords w))]);
   ("distance", Num (distance w)); ("duration", Num (duration w));
   ("type", Str (type w)); ("isRunning", Bool (isRunning w))]
  ++ opt_prop "cadence" Num (cadence w)
  ++ opt_prop "elevationGain" Num (elevationGain w)
  ++ opt_prop "pace" Str (pace w)
  ++ opt_prop "speed" Str (speed w)
  ++ opt_prop "description" Str (description w))%list.

(** ** The application *)

(** An element of [#workouts]: an instance of one of the classes, or any
    other value ([undefined], or what [JSON.parse] returned). *)
Inductive Entry :=
| Inst (w : Workout)
| Data (v : Value).

Inductive Error := TypeError.

Inductive Result (A : Type) :=
| Ok (a : A)
| Throws (e : Error).
Arguments Ok {A} a.
Arguments Throws {A} e.

Definition bind {A B} (r : Result A) (k : A -> Result B) : Result B :=
  match r with
  | Ok a => k a
  | Throws e => Throws e
  end.

Notation "x <- r ;; k" := (bind r (fun x => k))
  (at level 61, r at next level, right associativity).

(** [workout.key], for the property names the program reads ([id],
    [type], [coords], [description], ...): none of them is defined on
    [Object.prototype] or on a primitive, and reading from [undefined] or
    [null] throws. *)
Definition get (workout : Entry) (key : string) : Result Value :=
  match workout with
  | Inst w =>
      Ok (match lookup key (own_props w) with Some v => v | None => Undefined end)
  | Data (Obj props) =>
      Ok (match lookup key props with Some v => v | None => Undefined end)
  | Data Undefined | Data Null => Throws TypeError
  | Data _ => Ok Undefined
  end.

(** [workout.click()]: only instances inherit the method. *)
Definition call_click (workout : Entry) : Result Entry :=
  match workout with
  | Inst w => Ok (Inst (click w))
  | Data _ => Throws TypeError
  end.

(** [ToBoolean] *)
Definition truthy (v : Value) : bool :=
  match v with
  | Undefined | Null => false
  | Bool b => b
  | Num (S754_zero _) | Num S754_nan => false
  | Str EmptyString => false
  | _ => true
  end.

(** [v === s] for a string [s] *)
Definition strict_eq_string (v : Value) (s : string) : bool :=
  match v with
  | Str s' => String.eqb s' s
  | _ => false
  end.

(** [ToString(v)], as a template literal applies it, as far as it can
    throw.  Every value of the model converts to a string except an object
    without a primitive value: a plain object that has an own property
    [toString] (no value of the model is callable, so the inherited method
    is shadowed, and the inherited [valueOf] returns the object itself), and
    an array with such an element ([Array.prototype.join] converts the
    elements, [undefined] and [null] to the empty string). *)
Fixpoint converts (v : Value) : bool :=
  match v with
  | Obj props =>
      match lookup "toString" props with
      | Some _ => false
      | None => true
      end
  | Arr elems => forallb converts elems
  | _ => true
  end.

(** The value that goes into the text; the text itself is not modelled. *)
Definition ToString (v : Value) : Result Value :=
  if converts v then Ok v else Throws TypeError.

(** [`${workout.key}`] *)
Definition template (workout : Entry) (key : string) : Result Value :=
  v <- get workout key;;
  ToString v.

(** What [_renderWorkout] interpolates into the list item, before the
    conversion to text. *)
Record ListItem := mkListItem {
  item_type : Value;
  item_id : Value;
  item_title : Value;
  item_running : bool;
  item_distance : Value;
  item_duration : Value;
  item_metric : Value;
  item_detail : Value
}.

(** What [_renderWorkoutMarker] hands to Leaflet, call by call: the marker
    is put on the map; then its popup is made, with the class name built
    from the type; then the popup gets its content and is opened. *)
Inductive Popup :=
| NoPopup
| Bound (popup_type : Value)
| Opened (popup_type : Value) (popup_running : bool) (popup_text : Value).

Record Marker := mkMarker {
  marker_at : Value;
  popup : Popup
}.

(** The Leaflet map, as a recorder of the calls it receives. *)
Record LeafletMap := mkMap {
  view : Value * Z;
  markers : list Marker
}.

Record State := mkState {
  workouts : list Entry;                (* [#workouts] *)
  map : option LeafletMap;              (* [#map] *)
  mapEvnt : option (Number * Number);   (* [#mapEvnt.latlng] *)
  storage : option (list json);         (* the item "workouts": absent, or a JSON array *)
  items : list ListItem;                (* the elements after the form, newest first *)
  form_hidden : bool;
  alerts : list string
}.

Definition mapZoomLevel : Z := 13.

Inductive Completion :=
| Normal (st : State)
| Abrupt (e : Error) (st : State).

Definition then_ (c : Completion) (k : State -> Completion) : Completion :=
  match c with
  | Normal st => k st
  | Abrupt e st => Abrupt e st
  end.

Definition set_workouts (ws : list Entry) (st : State) : State :=
  {| workouts := ws; map := map st; mapEvnt := mapEvnt st;
     storage := storage st; items := items st;
     form_hidden := form_hidden st; alerts := alerts st |}.

Definition set_map (m : LeafletMap) (st : State) : State :=
  {| workouts := workouts st; map := Some m; mapEvnt := mapEvnt st;
     storage := storage st; items := items st;
     form_hidden := form_hidden st; alerts := alerts st |}.

Definition alert (msg : string) (st : State) : State :=
  {| workouts := workouts st; map := map st; mapEvnt := mapEvnt st;
     storage := storage st; items := items st;
     form_hidden := form_hidden st; alerts := (alerts st ++ [msg])%list |}.

(** [form.insertAdjacentHTML("afterend", html)] *)
Definition add_item (it : ListItem) (st : State) : State :=
  {| workouts := workouts st; map := map st; mapEvnt := mapEvnt st;
     storage := storage st; items := it :: items st;
     form_hidden := form_hidden st; alerts := alerts st |}.

(** [_showForm] *)
Definition _showForm (latlng : Number * Number) (st : State) : State :=
  {| workouts := workouts st; map := map st; mapEvnt := Some latlng;
     storage := storage st; items := items st;
     form_hidden := false; alerts := alerts st |}.

(** [_hideForm] (the inputs are cleared; the model passes their content
    to [_newWorkout] as an argument). *)
Definition _hideForm (st : State) : State :=
  {| workouts := workouts st; map := map st; mapEvnt := mapEvnt st;
     storage := storage st; items := items st;
     form_hidden := true; alerts := alerts st |}.

(** [_renderWorkout]: the markup is built first, and the new element goes
    right after the form. *)
Definition _renderWorkout (workout : Entry) (st : State) : Completion :=
  let item :=
    ty <- template workout "type";;
    i <- template workout "id";;
    title <- template workout "description";;
    running <- get workout "isRunning";;
    dist <- template workout "distance";;
    dur <- template workout "duration";;
    metric <- template workout (if truthy running then "pace" else "speed");;
    detail <- template workout
                (if truthy running then "cadence" else "elevationGain");;
    Ok {| item_type := ty; item_id := i; item_title := title;
          item_running := truthy running; item_distance := dist;
          item_duration := dur; item_metric := metric;
          item_detail := detail |} in
  match item with
  | Ok it => Normal (add_item it st)
  | Throws e => Abrupt e st
  end.

(** [_renderWorkoutMarker]: [addTo] comes before the two template literals
    are evaluated, [setView] comes last. *)
Definition _renderWorkoutMarker (workout : Entry) (st : State) : Completion :=
  match get workout "coords" with
  | Throws e => Abrupt e st
  | Ok at_ =>
      match map st with
      | None => Abrupt TypeError st
      | Some m =>
          let with_marker (v : Value * Z) (p : Popup) : State :=
            set_map {| view := v;
                       markers := (markers m
                                   ++ [{| marker_at := at_; popup := p |}])%list
                    |} st in
          match template workout "type" with
          | Throws e => Abrupt e (with_marker (view m) NoPopup)
          | Ok ty =>
              let content :=
                running <- get workout "isRunning";;
                text <- template workout "description";;
                Ok (truthy running, text) in
              match content with
              | Throws e => Abrupt e (with_marker (view m) (Bound ty))
              | Ok (running, text) =>
                  Normal (with_marker (at_, mapZoomLevel)
                            (Opened ty running text))
              end
          end
      end
  end.

(** [array.forEach(f)], stopping at the first exception. *)
Fixpoint forEach (f : Entry -> State -> Completion) (l : list Entry)
    (st : State) : Completion :=
  match l with
  | [] => Normal st
  | x :: rest => then_ (f x st) (forEach f rest)
  end.

(** [_loadMap] *)
Definition _loadMap (position : Number * Number) (st : State) : Completion :=
  let coords := Arr [Num (fst position); Num (snd position)] in
  let st := set_map {| view := (coords, mapZoomLevel); markers := [] |} st in
  forEach _renderWorkoutMarker (workouts st) st.

Definition entry_value (e : Entry) : Value :=
  match e with
  | Inst w => Obj (own_props w)
  | Data v => v
  end.

(** [JSON.stringify(this.#workouts)] *)
Definition stringify_workouts (ws : list Entry) : list json :=
  match stringify (Arr (List.map entry_value ws)) with
  | Some (JArray elems) => elems
  | _ => []
  end.

(** [_setLocalStorage] *)
Definition _setLocalStorage (st : State) : State :=
  {| workouts := workouts st; map := map st; mapEvnt := mapEvnt st;
     storage := Some (stringify_workouts (workouts st));
     items := items st; form_hidden := form_hidden st;
     alerts := alerts st |}.

(** [_getLocalStorage]: an array is truthy, so [data] is used whenever the
    item exists. *)
Definition _getLocalStorage (st : State) : Completion :=
  match storage st with
  | None => Normal st
  | Some elems =>
      let data := List.map (fun j => Data (parse j)) elems in
      let st := set_workouts data st in
      forEach _renderWorkout (workouts st) st
  end.

(** [App.reset] (without the page reload). *)
Definition reset (st : State) : State :=
  {| workouts := workouts st; map := map st; mapEvnt := mapEvnt st;
     storage := None; items := items st;
     form_hidden := form_hidden st; alerts := alerts st |}.

(** [this.#workouts.find(w => w.id === target)], with the position of the
    object that was found. *)
Fixpoint find_id (target : string) (l : list Entry) (pos : nat)
  : Result (option (nat * Entry)) :=
  match l with
  | [] => Ok None
  | w :: rest =>
      i <- get w "id";;
      if strict_eq_string i target then Ok (Some (pos, w))
      else find_id target rest (S pos)
  end.

Fixpoint replace_nth (n : nat) (x : Entry) (l : list Entry) : list Entry :=
  match l, n with
  | [], _ => []
  | _ :: rest, O => x :: rest
  | y :: rest, S n' => y :: replace_nth n' x rest
  end.

(** [_moveToPopup]; [target] is the [data-id] of the closest [.workout]
    element, if the click was inside one. *)
Definition _moveToPopup (target : option string) (st : State) : Completion :=
  match target with
  | None => Normal st
  | Some target =>
      match find_id target (workouts st) 0 with
      | Throws e => Abrupt e st
      | Ok found =>
          match map st with
          | None => Abrupt TypeError st
          | Some m =>
              match found with
              | None => Abrupt TypeError st       (* [workout.coords] *)
              | Some (pos, workout) =>
                  match get workout "coords" with
                  | Throws e => Abrupt e st
                  | Ok c =>
                      let st := set_map {| view := (c, mapZoomLevel);
                                           markers := markers m |} st in
                      match call_click workout with
                      | Throws e => Abrupt e st
                      | Ok clicked =>
                          Normal (set_workouts
                                    (replace_nth pos clicked (workouts st)) st)
                      end
                  end
              end
          end
      end
  end.

(** The content of the form at submission, after the unary [+] has turned
    the text fields into Numbers. *)
Record Form := mkForm {
  inputType : string;
  inputDistance : Number;
  inputDuration : Number;
  inputCadence : Number;
  inputElevation : Number
}.

Definition validInputs (inputs : list Number) : bool :=
  forallb isFinite inputs.

Definition allPositive (inputs : list Number) : bool :=
  forallb (fun i => gt i (of_Z 0)) inputs.

Definition rejection : string := "Inputs have to be positive numbers".

(** [_newWorkout].  An [inl] is the state in which the handler returns
    early; an [inr] is the value of [newWorkout] so far. *)
Definition _newWorkout (env : Env) (form : Form) (st : State) : Completion :=
  let type := inputType form in
  let distance := inputDistance form in
  let duration := inputDuration form in
  match mapEvnt st with
  | None => Abrupt TypeError st
  | Some coords =>
      let newWorkout := Data Undefined in
      let step1 :=
        if String.eqb type "running" then
          let cadence := inputCadence form in
          if negb (validInputs [distance; duration; cadence])
             || negb (allPositive [distance; duration; cadence])
          then inl (alert rejection st)
          else inr (Inst (new_Running env coords distance duration cadence))
        else inr newWorkout in
      match step1 with
      | inl st' => Normal st'
      | inr newWorkout =>
          let step2 :=
            if String.eqb type "cycling" then
              let elevation := inputElevation form in
              if negb (validInputs [distance; duration; elevation])
                 || negb (allPositive [distance; duration])
              then inl (alert rejection st)
              else inr (Inst (new_Cycling env coords distance duration elevation))
            else inr newWorkout in
          match step2 with
          | inl st' => Normal st'
          | inr newWorkout =>
              let st := set_workouts (workouts st ++ [newWorkout])%list st in
              then_ (_renderWorkout newWorkout st) (fun st =>
              then_ (_renderWorkoutMarker newWorkout st) (fun st =>
              Normal (_setLocalStorage (_hideForm st))))
          end
      end
  end.

(** The state in which the [App] constructor starts. *)
Definition initial (stored : option (list json)) : State :=
  {| workouts := []; map := None; mapEvnt := None; storage := stored;
     items := []; form_hidden := true; alerts := [] |}.

(** ** Vocabulary of the specification *)

(** A numeric input that validation refuses: not finite, or not positive. *)
Definition invalid_number (x : Number) : Prop :=
  isFinite x = false \/ gt x (of_Z 0) = false.

(** An element of the store that is an object: an instance, or a plain
    object that was loaded. *)
Definition is_record (e : Entry) : bool :=
  match e with
  | Inst _ | Data (Obj _) => true
  | Data _ => false
  end.

(** [e.id === target] *)
Definition has_id (target : string) (e : Entry) : bool :=
  match get e "id" with
  | Ok v => strict_eq_string v target
  | Throws _ => false
  end.

(** The state in which a handler ends, whether it returns or throws. *)
Definition final (c : Completion) : State :=
  match c with
  | Normal st | Abrupt _ st => st
  end.

(** The member of a JSON object that [JSON.parse] keeps for [key]: the last
    one with that name. *)
Fixpoint member (key : string) (members : list (string * json))
  : option json :=
  match members with
  | [] => None
  | (k, j) :: rest =>
      match member key rest with
      | Some j' => Some j'
      | None => if String.eqb k key then Some j else None
      end
  end.

(** [x] is finite and below 10^21 in magnitude. *)
Definition below_1e21 (x : Number) : bool :=
  match x with
  | S754_zero _ => true
  | S754_finite _ m e => negb (at_least_1e21 m e)
  | S754_infinity _ | S754_nan => false
  end.

Definition negative (x : Number) : bool :=
  match x with
  | S754_finite true _ _ => true
  | _ => false
  end.

(** The numeral with [tenths] tenths: integer part, point, one digit. *)
Definition one_decimal (neg : bool) (tenths : Z) : string :=
  (if neg then "-" else "")
  ++ decimal (tenths / 10) ++ "." ++ decimal (tenths mod 10).

(** [text] is [x] rounded to one decimal place: a numeral with one digit
    after the point whose value is within 0.05 of the value of [x]. *)
Definition rounds_to_one_decimal (x : Number) (text : string) : Prop :=
  exists tenths : Z,
    0 <= tenths /\
    text = one_decimal (negative x) tenths /\
    (Qabs (inject_Z tenths / 10 - Qabs (value x)) <= 1 # 20)%Q.

(** Numbers without a minus sign: +0, positive finite Numbers, +Infinity. *)
Definition unsigned (x : Number) : Prop :=
  match x with
  | S754_zero false | S754_finite false _ _ | S754_infinity false => True
  | _ => False
  end.

(** The weight of the last binary digit of [x]. *)
Definition ulp (x : Number) : Q :=
  match x with
  | S754_finite _ _ e => (2 ^ e)%Q
  | _ => (2 ^ (-1074))%Q
  end.

(** [a === b] for Numbers *)
Definition strict_eq_number (a b : Number) : bool := SFeqb a b.

(** Two values hold the same data: the same strings and booleans, Numbers
    that are [===], arrays and objects that agree element by element and
    property by property, in order. *)
Fixpoint same_data (a b : Value) {struct a} : bool :=
  match a, b with
  | Undefined, Undefined => true
  | Null, Null => true
  | Bool x, Bool y => Bool.eqb x y
  | Num x, Num y => strict_eq_number x y
  | Str x, Str y => String.eqb x y
  | DateObj x, DateObj y =>
      Nat.eqb (getMonth x) (getMonth y) && Nat.eqb (getDate x) (getDate y)
      && String.eqb (toISOString x) (toISOString y)
  | Arr xs, Arr ys =>
      (fix all2 (xs ys : list Value) {struct xs} : bool :=
         match xs, ys with
         | [], [] => true
         | x :: xs', y :: ys' => same_data x y && all2 xs' ys'
         | _, _ => false
         end) xs ys
  | Obj ps, Obj qs =>
      (fix all2 (ps qs : Props) {struct ps} : bool :=
         match ps, qs with
         | [], [] => true
         | (k, x) :: ps', (k', y) :: qs' =>
             String.eqb k k' && same_data x y && all2 ps' qs'
         | _, _ => false
         end) ps qs
  | _, _ => false
  end.

Fixpoint distinct (keys : list string) : bool :=
  match keys with
  | [] => true
  | k :: rest => negb (existsb (String.eqb k) rest) && distinct rest
  end.

(** No name is enumerated before a name that stands before it. *)
Fixpoint enumerated (keys : list string) : bool :=
  match keys with
  | [] => true
  | k :: rest =>
      forallb (fun k' => negb (comes_before k' k)) rest && enumerated rest
  end.

(** Data that a JSON text can hold: no [undefined], no [Date] object, only
    finite Numbers, and objects whose property names differ and stand in
    the order of enumeration. *)
Fixpoint json_like (v : Value) : bool :=
  match v with
  | Undefined | DateObj _ => false
  | Null | Bool _ | Str _ => true
  | Num x => isFinite x
  | Arr xs => forallb json_like xs
  | Obj ps =>
      forallb (fun kv => json_like (snd kv)) ps
      && distinct (List.map fst ps) && enumerated (List.map fst ps)
  end.

Definition finite_option (o : option Number) : bool :=
  match o with
  | Some x => isFinite x
  | None => true
  end.

(** A record that the store can hold: an instance whose Numbers are
    finite and whose counter is in the range where [n++] counts, or a plain
    object of JSON data whose properties convert to strings. *)
Definition storable (e : Entry) : bool :=
  match e with
  | Inst w =>
      isFinite (fst (coords w)) && isFinite (snd (coords w))
      && isFinite (distance w) && isFinite (duration w)
      && finite_option (cadence w) && finite_option (elevationGain w)
      && (0 <=? clicks w) && (clicks w <=? 2 ^ 53)
  | Data (Obj ps) =>
      json_like (Obj ps) && forallb (fun kv => converts (snd kv)) ps
  | Data _ => false
  end.

(** The properties that hold the data of a record; [date], a [Date]
    object in an instance, is saved as its ISO string. *)
Definition data_keys : list string :=
  ["id"; "type"; "coords"; "distance"; "duration"; "cadence";
   "elevationGain"; "clicks"; "isRunning"; "pace"; "speed"; "description"].

(** What a value is after [JSON.parse(JSON.stringify(v))]. *)
Definition revive (v : Value) : Value :=
  match stringify v with
  | Some j => parse j
  | None => Undefined
  end.

(** The property [key] of the entry [e] holds the data [v]. *)
Definition holds (e : Entry) (key : string) (v : Value) : Prop :=
  exists v', get e key = Ok v' /\ same_data v v' = true.

(** A property that an instance may lack. *)
Definition optional {A : Type} (f : A -> Value) (o : option A) : Value :=
  match o with
  | Some a => f a
  | None => Undefined
  end.

(** The handlers that render leave the store, the saved data and the click
    position alone. *)
Definition keeps (st st' : State) : Prop :=
  workouts st' = workouts st /\ storage st' = storage st /\
  mapEvnt st' = mapEvnt st.

(** The states the program goes through while the form offers its two
    kinds and Leaflet reports finite coordinates.  A handler that throws
    leaves the state it had reached. *)
Inductive reachable : State -> Prop :=
| reach_first_visit : reachable (initial None)
| reach_reload (st : State) :
    reachable st ->
    reachable (final (_getLocalStorage (initial (storage st))))
| reach_reset (st : State) :
    reachable st -> reachable (reset st)
| reach_map (st : State) (position : Number * Number) :
    reachable st -> reachable (final (_loadMap position st))
| reach_map_click (st : State) (latlng : Number * Number) :
    reachable st ->
    isFinite (fst latlng) && isFinite (snd latlng) = true ->
    reachable (_showForm latlng st)
| reach_submit (st : State) (env : Env) (form : Form) :
    reachable st ->
    inputType form = "running" \/ inputType form = "cycling" ->
    reachable (final (_newWorkout env form st))
| reach_list_click (st : State) (target : option string) :
    reachable st -> reachable (final (_moveToPopup target st)).

(** What holds of every reachable state: the store holds storable
    records, the saved data is the image of such a store, and the stored
    click position is finite. *)
Definition invariant (st : State) : Prop :=
  forallb storable (workouts st) = true /\
  match storage st with
  | None => True
  | Some elems =>
      exists ws, forallb storable ws = true /\ elems = stringify_workouts ws
  end /\
  match mapEvnt st with
  | None => True
  | Some latlng => isFinite (fst latlng) && isFinite (snd latlng) = true
  end.

(** ** Sample data *)

Module Sample.

(** 5.2, 38.7 and -9.1 are the binary64 values nearest to the decimals. *)
Definition n5_2 : Number := S754_finite false 5854679515581645 (-50).
Definition n38_7 : Number := S754_finite false 5446540799351194 (-47).
Definition n_9_1 : Number := S754_finite true 5122844576133939 (-49).
Definition half : Number := S754_finite false 4503599627370496 (-53).
Definition two_pow_1023 : Number := S754_finite false 4503599627370496 971.
Definition max_value : Number := S754_finite false 9007199254740991 971.
Definition NaN : Number := S754_nan.

Definition the_map : LeafletMap :=
  {| view := (Arr [Num n38_7; Num n_9_1], mapZoomLevel); markers := [] |}.

Definition today : Date :=
  {| getMonth := 10; getDate := 3;
     toISOString := "2026-11-03T09:30:00.000Z" |}.

Definition env : Env :=
  {| env_date := today; env_now := 1793698200123; env_random := 4567 |}.

Definition lisbon : Number * Number := (n38_7, n_9_1).

(** A session in which the map has loaded and the user has clicked it. *)
Definition ready : State :=
  {| workouts := [];
     map := Some the_map;
     mapEvnt := Some lisbon; storage := None; items := [];
     form_hidden := false; alerts := [] |}.

Definition run_form : Form :=
  {| inputType := "running"; inputDistance := n5_2;
     inputDuration := of_Z 24; inputCadence := of_Z 178;
     inputElevation := of_Z 0 |}.

Definition ride_form : Form :=
  {| inputType := "cycling"; inputDistance := of_Z 20;
     inputDuration := of_Z 60; inputCadence := of_Z 0;
     inputElevation := of_Z (-300) |}.

Definition swim_form : Form :=
  {| inputType := "swimming"; inputDistance := NaN;
     inputDuration := of_Z 30; inputCadence := of_Z 0;
     inputElevation := of_Z 0 |}.

Definition a_run : Workout :=
  new_Running env lisbon n5_2 (of_Z 24) (of_Z 178).

Definition a_ride : Workout :=
  new_Cycling env lisbon (of_Z 20) (of_Z 60) (of_Z (-300)).

(** A run of the day before. *)
Definition earlier_run : Workout :=
  new_Running
    {| env_date := {| getMonth := 10; getDate := 2;
                      toISOString := "2026-11-02T17:05:00.000Z" |};
       env_now := 1793639100456; env_random := 90210 |}
    lisbon (of_Z 5) (of_Z 30) (of_Z 170).

(** A later session: the store was saved with one run in it, the page was
    reloaded and the map has loaded. *)
Definition reloaded : Completion :=
  then_ (_getLocalStorage (initial (Some (stringify_workouts [Inst a_run]))))
        (_loadMap lisbon).

End Sample.

(** ** The rest of the program *)

(** The two rows of the form of which one is shown: [true] stands for the
    class [form__row--hidden]. *)
Record Rows := mkRows {
  elevation_hidden : bool;
  cadence_hidden : bool
}.

(** [_toggleElevationField] *)
Definition _toggleElevationField (rows : Rows) : Rows :=
  {| elevation_hidden := negb (elevation_hidden rows);
     cadence_hidden := negb (cadence_hidden rows) |}.

(** How the browser answers [getCurrentPosition]. *)
Inductive Geolocation :=
| Unsupported                            (* no [navigator.geolocation] *)
| Refused                                (* the error callback runs *)
| Located (position : Number * Number).  (* [_loadMap] runs *)

(** [_getPosition], together with the callback that the browser runs once
    the constructor has returned. *)
Definition _getPosition (geo : Geolocation) (st : State) : Completion :=
  match geo with
  | Unsupported => Normal st
  | Refused => Normal (alert "Could not get your location" st)
  | Located position => _loadMap position st
  end.

(** ** Vocabulary of the further properties *)

(** The decimal digit [d], for [0 <= d <= 9]. *)
Definition digit_char (d : Z) : ascii :=
  match d with
  | 0 => "0" | 1 => "1" | 2 => "2" | 3 => "3" | 4 => "4"
  | 5 => "5" | 6 => "6" | 7 => "7" | 8 => "8" | _ => "9"
  end%char.

(** The last [k] decimal digits of [n], leading zeros included. *)
Fixpoint last_digits (k : nat) (n : Z) : string :=
  match k with
  | O => EmptyString
  | S k' =>
      last_digits k' (n / 10) ++ String (digit_char (n mod 10)) EmptyString
  end.

(** The id and the coordinates of a record of the store. *)
Definition entry_id (e : Entry) : Value :=
  match e with
  | Inst w => Str (id w)
  | Data (Obj ps) => optional (fun v => v) (lookup "id" ps)
  | Data _ => Undefined
  end.

Definition entry_coords (e : Entry) : Value :=
  match e with
  | Inst w => Arr [Num (fst (coords w)); Num (snd (coords w))]
  | Data (Obj ps) => optional (fun v => v) (lookup "coords" ps)
  | Data _ => Undefined
  end.

(** A popup that has its content and was opened. *)
Definition opened (mk : Marker) : bool :=
  match popup mk with
  | Opened _ _ _ => true
  | _ => false
  end.

(** An entry of the store before and after a handler: the same entry, or
    the same instance with one more click. *)
Definition kept (e e' : Entry) : Prop :=
  e' = e \/
  exists w w',
    e = Inst w /\ e' = Inst w' /\ clicks w' = clicks w + 1 /\
    class w' = class w /\ date w' = date w /\ id w' = id w /\
    coords w' = coords w /\ distance w' = distance w /\
    duration w' = duration w /\ type w' = type w /\
    isRunning w' = isRunning w /\ cadence w' = cadence w /\
    elevationGain w' = elevationGain w /\ pace w' = pace w /\
    speed w' = speed w /\ description w' = description w.

(** A store after a handler: the entries it had, each one kept, followed
    by at most one new entry. *)
Definition extends (old new : list Entry) : Prop :=
  exists l added,
    new = (l ++ added)%list /\ Forall2 kept old l /\
    (List.length added <= 1)%nat.

(** A character that is a decimal digit. *)
Definition is_digit (c : ascii) : bool :=
  let n := nat_of_ascii c in ((48 <=? n) && (n <=? 57))%nat.

(** * Properties *)

(** ** Numbers: rounding in binary *)

(** [shr] drops low digits of a mantissa; what remains is the quotient by
    a power of two. *)

Lemma shr_1_m (mrs : shr_record) :
  0 <= shr_m mrs -> shr_m (shr_1 mrs) = shr_m mrs / 2.
Proof.
  destruct mrs as [m r s]. cbn [shr_m]. intros Hm.
  destruct m as [|p|p]; [reflexivity| |lia].
  destruct p as [p|p|]; cbn [shr_1 shr_m].
  - rewrite Pos2Z.inj_xI. apply Z.div_unique with 1; lia.
  - rewrite Pos2Z.inj_xO. apply Z.div_unique with 0; lia.
  - reflexivity.
Qed.

Lemma iter_shr_m (p : positive) (mrs : shr_record) :
  0 <= shr_m mrs ->
  shr_m (iter_pos shr_1 p mrs) = shr_m mrs / 2 ^ Zpos p.
Proof.
  assert (Hnn : forall m k, 0 <= m -> 0 <= m / 2 ^ Zpos k)
    by (intros; apply Z.div_pos; [lia|apply Z.pow_pos_nonneg; lia]).
  revert mrs. induction p as [p IH|p IH|]; intros mrs Hm; cbn [iter_pos];
    try (assert (Hpos : 0 < 2 ^ Zpos p) by (apply Z.pow_pos_nonneg; lia)).
  - assert (H1 : 0 <= shr_m (shr_1 mrs))
      by (rewrite shr_1_m by exact Hm; apply Z.div_pos; lia).
    rewrite IH; rewrite IH by exact H1; [|rewrite shr_1_m by exact Hm; apply Hnn; apply Z.div_pos; lia].
    rewrite shr_1_m by exact Hm.
    rewrite !Z.div_div by lia.
    f_equal.
    replace (Z.pos p~1) with (1 + Z.pos p + Z.pos p) by lia.
    rewrite !Z.pow_add_r by lia. change (2 ^ 1) with 2. ring.
  - rewrite IH; rewrite IH by exact Hm; [|apply Hnn, Hm].
    rewrite Z.div_div by lia.
    f_equal. 
    replace (Z.pos p~0) with (Z.pos p + Z.pos p) by lia.
    rewrite Z.pow_add_r by lia. ring.
  - rewrite shr_1_m by exact Hm. reflexivity.
Qed.

(** [shr] divides the mantissa by 2^n and adds n to the exponent. *)
Lemma shr_spec (mrs : shr_record) (e n : Z) :
  0 <= shr_m mrs ->
  shr_m (fst (shr mrs e n)) = shr_m mrs / 2 ^ Z.max n 0 /\
  snd (shr mrs e n) = e + Z.max n 0.
Proof.
  intros Hm. destruct n as [|p|p]; cbn [shr fst snd].
  - rewrite Z.div_1_r. split; [reflexivity|lia].
  - rewrite iter_shr_m by exact Hm. rewrite Z.max_l by lia. split; reflexivity.
  - rewrite Z.max_r by lia. rewrite Z.div_1_r. split; [reflexivity|lia].
Qed.

Lemma shr_fexp_spec (m e : Z) (l : location) :
  0 <= m ->
  let n := Z.max (fexp prec emax (Zdigits2 m + e) - e) 0 in
  shr_m (fst (shr_fexp prec emax m e l)) = m / 2 ^ n /\
  snd (shr_fexp prec emax m e l) = e + n.
Proof.
  intros Hm n. unfold shr_fexp.
  assert (Hrec : shr_m (shr_record_of_loc m l) = m)
    by (destruct l as [|[]]; reflexivity).
  pose proof (shr_spec (shr_record_of_loc m l) e
                (fexp prec emax (Zdigits2 m + e) - e)) as H.
  rewrite Hrec in H. apply H, Hm.
Qed.

Lemma round_nearest_even_range (m : Z) (l : location) :
  m <= round_nearest_even m l <= m + 1.
Proof.
  destruct l as [|[]]; cbn [round_nearest_even]; try lia.
  destruct (Z.even m); lia.
Qed.

Lemma digits2_bounds (p : positive) :
  2 ^ (Zpos (digits2_pos p) - 1) <= Zpos p < 2 ^ Zpos (digits2_pos p).
Proof.
  induction p as [p IH|p IH|]; cbn [digits2_pos].
  - rewrite Pos2Z.inj_succ.
    replace (Z.succ (Zpos (digits2_pos p)) - 1)
      with (Z.succ (Zpos (digits2_pos p) - 1)) by lia.
    rewrite !Z.pow_succ_r by lia. lia.
  - rewrite Pos2Z.inj_succ.
    replace (Z.succ (Zpos (digits2_pos p)) - 1)
      with (Z.succ (Zpos (digits2_pos p) - 1)) by lia.
    rewrite !Z.pow_succ_r by lia. lia.
  - cbn. lia.
Qed.

Lemma Zdigits2_nonneg (q : Z) : 0 <= Zdigits2 q.
Proof. destruct q; cbn; lia. Qed.

(** A shift that leaves nothing of the mantissa ends at the least
    exponent. *)
Lemma shift_to_zero (q e : Z) :
  0 <= q ->
  0 < fexp prec emax (Zdigits2 q + e) - e ->
  q / 2 ^ (fexp prec emax (Zdigits2 q + e) - e) = 0 ->
  fexp prec emax (Zdigits2 q + e) = -1074.
Proof.
  intros Hq Hn Hz. unfold fexp, emin, prec, emax in *.
  destruct (Z.max_spec (Zdigits2 q + e - 53) (3 - 1024 - 53))
    as [[Hlt Hmax]|[Hge Hmax]]; rewrite Hmax in *; [lia|].
  exfalso. destruct q as [|p|p]; [cbn in Hn; lia| |lia].
  cbn [Zdigits2] in *. pose proof (digits2_bounds p) as [Hlo _].
  set (d := Zpos (digits2_pos p)) in *.
  replace (d + e - 53 - e) with (d - 53) in * by lia.
  apply Z.div_small_iff in Hz; [|apply Z.pow_nonzero; lia].
  destruct Hz as [[_ Hz]|Hz];
    [|assert (0 < 2 ^ (d - 53)) by (apply Z.pow_pos_nonneg; lia); lia].
  assert (2 ^ (d - 53) <= 2 ^ (d - 1)) by (apply Z.pow_le_mono_r; lia).
  lia.
Qed.

(** Rounding a bracketed quotient: [q0 * M <= N < (q0 + 1) * M] says that
    the exact value is [N / M] units of [2^e0]. *)
Lemma round_aux_bracket (q0 e0 : Z) (l : location) (N M : Z) :
  0 <= q0 -> 0 < M -> q0 * M <= N < (q0 + 1) * M ->
  match binary_round_aux prec emax false q0 e0 l with
  | S754_finite false m e =>
      e0 <= e /\
      Zpos m * 2 ^ (e - e0) * M - N <= 2 ^ (e - e0) * M /\
      N - Zpos m * 2 ^ (e - e0) * M <= 2 ^ (e - e0) * M
  | S754_zero false =>
      exists e, e0 <= e /\ N < 2 ^ (e - e0) * M /\
                (e = -1074 \/ (q0 = 0 /\ e = e0 /\ -1074 <= e0))
  | S754_infinity false => True
  | _ => False
  end.
Proof.
  intros Hq0 HM HN. unfold binary_round_aux.
  pose proof (shr_fexp_spec q0 e0 l Hq0) as [H1m H1e].
  destruct (shr_fexp prec emax q0 e0 l) as [mrs1 er]. cbn [fst snd] in *.
  set (n1 := fexp prec emax (Zdigits2 q0 + e0) - e0) in *.
  set (a := Z.max n1 0) in *.
  set (q1 := shr_m mrs1) in *.
  pose proof (round_nearest_even_range q1 (loc_of_shr_record mrs1)) as Hq2.
  set (q2 := round_nearest_even q1 (loc_of_shr_record mrs1)) in *.
  assert (HA : 0 < 2 ^ a) by (apply Z.pow_pos_nonneg; lia).
  assert (Hq1 : 0 <= q1) by (rewrite H1m; apply Z.div_pos; lia).
  assert (Hq1lo : q1 * 2 ^ a <= q0)
    by (rewrite H1m, Z.mul_comm; apply Z.mul_div_le; lia).
  assert (Hq1hi : q0 < q1 * 2 ^ a + 2 ^ a).
  { rewrite H1m. pose proof (Z.mul_succ_div_gt q0 (2 ^ a) HA). lia. }
  pose proof (shr_fexp_spec q2 er loc_Exact ltac:(lia)) as [H2m H2e].
  destruct (shr_fexp prec emax q2 er loc_Exact) as [mrs2 e2].
  cbn [fst snd] in *.
  set (n2 := fexp prec emax (Zdigits2 q2 + er) - er) in *.
  set (b := Z.max n2 0) in *.
  set (q3 := shr_m mrs2) in *.
  assert (HB : 0 < 2 ^ b) by (apply Z.pow_pos_nonneg; lia).
  assert (Hq3 : 0 <= q3) by (rewrite H2m; apply Z.div_pos; lia).
  assert (Hq3lo : q3 * 2 ^ b <= q2)
    by (rewrite H2m, Z.mul_comm; apply Z.mul_div_le; lia).
  assert (Hq3hi : q2 < q3 * 2 ^ b + 2 ^ b).
  { rewrite H2m. pose proof (Z.mul_succ_div_gt q2 (2 ^ b) HB). lia. }
  assert (Hk : 2 ^ (e2 - e0) = 2 ^ a * 2 ^ b).
  { rewrite <- Z.pow_add_r by lia. f_equal. lia. }
  assert (Hup : q3 * (2 ^ a * 2 ^ b) * M - N <= 2 ^ a * 2 ^ b * M).
  { assert (q3 * 2 ^ b * 2 ^ a <= q0 + 2 ^ a) by nia.
    assert (q3 * 2 ^ b * 2 ^ a * M <= (q0 + 2 ^ a) * M)
      by (apply Z.mul_le_mono_nonneg_r; lia).
    assert (2 ^ a * M <= 2 ^ a * 2 ^ b * M) by nia.
    nia. }
  assert (Hdown : N - q3 * (2 ^ a * 2 ^ b) * M < 2 ^ a * 2 ^ b * M).
  { assert (q0 + 1 <= (q3 * 2 ^ b + 2 ^ b) * 2 ^ a) by nia.
    assert ((q0 + 1) * M <= (q3 * 2 ^ b + 2 ^ b) * 2 ^ a * M)
      by (apply Z.mul_le_mono_nonneg_r; lia).
    nia. }
  destruct q3 as [|m|m] eqn:Eq3; [| |lia].
  - exists e2. split; [lia|]. split; [rewrite Hk; lia|].
    destruct (Z.le_gt_cases n2 0) as [Hn2|Hn2].
    + assert (Hb : b = 0) by (unfold b; lia). rewrite Hb in *.
      change (2 ^ 0) with 1 in *.
      assert (q2 = 0) by lia. assert (q1 = 0) by lia.
      destruct (Z.le_gt_cases n1 0) as [Hn1|Hn1].
      * right. assert (Ha : a = 0) by (unfold a; lia). rewrite Ha in *.
        change (2 ^ 0) with 1 in *.
        assert (q0 = 0) by lia. subst q0.
        split; [reflexivity|]. split; [lia|].
        unfold n1, fexp, emin, prec, emax in Hn1. cbn [Zdigits2] in Hn1. lia.
      * left. assert (Ha : a = n1) by (unfold a; lia).
        assert (Hz : q0 / 2 ^ n1 = 0) by (rewrite <- Ha; lia).
        pose proof (shift_to_zero q0 e0 Hq0 Hn1 Hz) as Hf.
        unfold n1 in Ha. lia.
    + left. assert (Hb : b = n2) by (unfold b; lia). rewrite Hb in *.
      assert (Hz : q2 / 2 ^ n2 = 0) by lia.
      pose proof (shift_to_zero q2 er ltac:(lia) Hn2 Hz).
      unfold n2 in H2e. lia.
  - destruct (e2 <=? emax - prec); [|exact I].
    split; [lia|]. rewrite Hk. split; lia.
Qed.

Lemma div_bracket (m1 m2 : positive) (e1 e2 : Z) :
  let e0 := Z.min (fexp prec emax (Zpos (digits2_pos m1) + e1
                                   - (Zpos (digits2_pos m2) + e2)))
                  (e1 - e2) in
  let N := Zpos m1 * 2 ^ (e1 - e2 - e0) in
  match div (S754_finite false m1 e1) (S754_finite false m2 e2) with
  | S754_finite false m e =>
      e0 <= e /\
      Zpos m * 2 ^ (e - e0) * Zpos m2 - N <= 2 ^ (e - e0) * Zpos m2 /\
      N - Zpos m * 2 ^ (e - e0) * Zpos m2 <= 2 ^ (e - e0) * Zpos m2
  | S754_zero false =>
      exists e, e0 <= e /\ e <= -1074 /\ N < 2 ^ (e - e0) * Zpos m2
  | S754_infinity false => True
  | _ => False
  end.
Proof.
  intros e0 N. unfold div, SFdiv, SFdiv_core_binary. cbn [xorb Zdigits2].
  fold e0. set (s := e1 - e2 - e0).
  assert (Hs : 0 <= s) by (unfold s, e0; lia).
  assert (Hm' : match s with
                | Zpos _ => Z.shiftl (Zpos m1) s
                | Z0 => Zpos m1
                | Zneg _ => 0
                end = N).
  { unfold N. fold s. destruct s as [|p|p]; [cbn; lia| |lia].
    apply Z.shiftl_mul_pow2. lia. }
  rewrite Hm'.
  assert (HN : 0 < N) by (unfold N; apply Z.mul_pos_pos;
                          [lia|apply Z.pow_pos_nonneg; lia]).
  pose proof (Z_div_mod N (Zpos m2) ltac:(lia)) as Hdiv.
  destruct (Z.div_eucl N (Zpos m2)) as [q r]. destruct Hdiv as [Heq Hr].
  assert (Hq : 0 <= q) by nia.
  pose proof (round_aux_bracket q e0 (new_location (Zpos m2) r) N (Zpos m2)
                Hq ltac:(lia) ltac:(lia)) as H.
  destruct (binary_round_aux prec emax false q e0 _) as [[|]|[|]| |[|] m e];
    try exact H.
  destruct H as (e & He & Hlt & Hcase). exists e. split; [exact He|].
  split; [|exact Hlt].
  destruct Hcase as [->|(-> & -> & Hlow)]; [lia|].
  (* the quotient is 0 at exponent e0 *)
  replace (e0 - e0) with 0 in Hlt by lia. change (2 ^ 0) with 1 in Hlt.
  pose proof (digits2_bounds m1) as [Hlo1 _].
  pose proof (digits2_bounds m2) as [_ Hhi2].
  set (d1 := Zpos (digits2_pos m1)) in *.
  set (d2 := Zpos (digits2_pos m2)) in *.
  destruct (Z.le_gt_cases e0 (-1074)) as [Hle|Hgt]; [exact Hle|exfalso].
  assert (He0 : e0 <= d1 + e1 - (d2 + e2) - 53)
    by (unfold e0, fexp, emin, prec, emax in *; lia).
  assert (Hs' : d2 - d1 + 53 <= s) by (unfold s; lia).
  assert (H2s : 0 < 2 ^ s) by (apply Z.pow_pos_nonneg; lia).
  assert (HNlo : 2 ^ d2 <= N); [|lia].
  unfold N. fold s.
  destruct (Z.le_gt_cases 0 (d2 - d1 + 53)) as [Hd|Hd].
  - assert (2 ^ (d2 - d1 + 53) <= 2 ^ s) by (apply Z.pow_le_mono_r; lia).
    assert (2 ^ (d1 - 1) * 2 ^ (d2 - d1 + 53) = 2 ^ (d2 + 52)).
    { rewrite <- Z.pow_add_r by lia. f_equal. lia. }
    assert (2 ^ d2 <= 2 ^ (d2 + 52)) by (apply Z.pow_le_mono_r; lia).
    assert (2 ^ (d1 - 1) * 2 ^ (d2 - d1 + 53) <= Zpos m1 * 2 ^ s).
    { apply Z.mul_le_mono_nonneg; try lia; apply Z.pow_nonneg; lia. }
    lia.
  - assert (2 ^ d2 <= 2 ^ (d1 - 1)) by (apply Z.pow_le_mono_r; lia).
    nia.
Qed.

Lemma pow2_split (k e : Z) :
  (0 <= k)%Z -> (2 ^ (k + e) == inject_Z (2 ^ k) * 2 ^ e)%Q.
Proof.
  intros Hk. rewrite Qpower_plus by discriminate.
  rewrite Zpower_Qpower by exact Hk. reflexivity.
Qed.

Lemma pow2_pos (e : Z) : (0 < 2 ^ e)%Q.
Proof. apply Qpower_0_lt. reflexivity. Qed.

Lemma value_pow2 (s : bool) (m : positive) (e : Z) :
  (value (S754_finite s m e)
   == inject_Z (if s then Z.neg m else Z.pos m) * 2 ^ e)%Q.
Proof.
  destruct e as [|p|p]; cbn [value].
  - rewrite Z.mul_1_r. cbn [Qpower]. ring.
  - rewrite inject_Z_mult, Zpower_Qpower by lia. reflexivity.
  - rewrite Qmake_Qdiv, Pos2Z.inj_pow, Zpower_Qpower by lia.
    change (Z.neg p) with (- Z.pos p)%Z. rewrite Qpower_opp. reflexivity.
Qed.

(** The quotient of two positive finite Numbers is within one unit in
    the last place of the exact quotient (or it overflows). *)
Lemma div_error (m1 m2 : positive) (e1 e2 : Z) :
  let t := S754_finite false m1 e1 in
  let d := S754_finite false m2 e2 in
  match div t d with
  | S754_zero false | S754_finite false _ _ =>
      (Qabs (value (div t d) * value d - value t) <= value d * ulp (div t d))%Q
  | S754_infinity false => True
  | _ => False
  end.
Proof.
  intros t d. pose proof (div_bracket m1 m2 e1 e2) as H. cbv zeta in H.
  set (e0 := Z.min (fexp prec emax (Zpos (digits2_pos m1) + e1
                                    - (Zpos (digits2_pos m2) + e2)))
                   (e1 - e2)) in *.
  set (s := (e1 - e2 - e0)%Z) in *.
  assert (Hs : (0 <= s)%Z) by (unfold s, e0; lia).
  fold t d in H.
  assert (Ht : (value t == inject_Z (Zpos m1 * 2 ^ s) * (2 ^ e0 * 2 ^ e2))%Q).
  { unfold t. rewrite value_pow2, inject_Z_mult.
    replace e1 with (s + (e0 + e2))%Z at 1 by (unfold s; lia).
    rewrite pow2_split by exact Hs. rewrite Qpower_plus by discriminate.
    ring. }
  assert (Hd : (value d == inject_Z (Zpos m2) * 2 ^ e2)%Q)
    by (unfold d; apply value_pow2).
  assert (HP : (0 <= 2 ^ e0 * 2 ^ e2)%Q).
  { apply Qlt_le_weak. apply Qmult_lt_0_compat; apply pow2_pos. }
  destruct (div t d) as [[|]|[|]| |[|] m e]; try exact H.
  - (* the quotient underflows to 0 *)
    destruct H as (e & He0 & He & Hlt). cbn [value ulp].
    assert (Hvt : (0 <= value t)%Q).
    { rewrite Ht. apply Qmult_le_0_compat; [|exact HP].
      change 0%Q with (inject_Z 0). rewrite <- Zle_Qle.
      apply Z.mul_nonneg_nonneg; [lia|apply Z.pow_nonneg; lia]. }
    assert (Hvd : (0 <= inject_Z (Zpos m2) * 2 ^ e2)%Q).
    { apply Qmult_le_0_compat; [|apply Qlt_le_weak, pow2_pos].
      change 0%Q with (inject_Z 0). rewrite <- Zle_Qle. lia. }
    assert (Hmain : (value t <= value d * 2 ^ (-1074))%Q).
    { rewrite Ht, Hd.
      apply Qle_trans
        with (inject_Z (2 ^ (e - e0) * Zpos m2) * (2 ^ e0 * 2 ^ e2))%Q.
      - apply Qmult_le_compat_r; [|exact HP]. rewrite <- Zle_Qle. lia.
      - setoid_replace (inject_Z (2 ^ (e - e0) * Z.pos m2) * (2 ^ e0 * 2 ^ e2))%Q
          with (inject_Z (Z.pos m2) * 2 ^ e2 * 2 ^ e)%Q.
        + replace (-1074)%Z with ((-1074 - e) + e)%Z by lia.
          rewrite pow2_split by lia.
          assert (H1 : (1 <= inject_Z (2 ^ (-1074 - e)))%Q).
          { change 1%Q with (inject_Z 1). rewrite <- Zle_Qle.
            assert (0 < 2 ^ (-1074 - e))%Z by (apply Z.pow_pos_nonneg; lia).
            lia. }
          pose proof (pow2_pos e) as H2e.
          setoid_replace (inject_Z (Z.pos m2) * 2 ^ e2 * 2 ^ e)%Q
            with (inject_Z (Z.pos m2) * 2 ^ e2 * (1 * 2 ^ e))%Q by ring.
          apply Qmult_le_compat_nonneg.
          * split; [exact Hvd|apply Qle_refl].
          * split; [rewrite Qmult_1_l; apply Qlt_le_weak, H2e|].
            apply Qmult_le_compat_r; [exact H1|apply Qlt_le_weak, H2e].
        + replace e with ((e - e0) + e0)%Z at 2 by lia.
          rewrite pow2_split by lia. rewrite inject_Z_mult. ring. }
    assert (Hnn : (0 <= value d * 2 ^ (-1074))%Q).
    { rewrite Hd. apply Qmult_le_0_compat;
        [exact Hvd|apply Qlt_le_weak, pow2_pos]. }
    apply Qabs_Qle_condition. split; lra.
  - destruct H as (He0 & Hup & Hdown). cbn [ulp].
    assert (Hq : (value (S754_finite false m e)
                  == inject_Z (Zpos m * 2 ^ (e - e0)) * 2 ^ e0)%Q).
    { rewrite value_pow2, inject_Z_mult.
      replace e with ((e - e0) + e0)%Z at 1 by lia.
      rewrite pow2_split by lia. ring. }
    assert (He : (2 ^ e == inject_Z (2 ^ (e - e0)) * 2 ^ e0)%Q).
    { replace e with ((e - e0) + e0)%Z at 1 by lia.
      apply pow2_split. lia. }
    rewrite Hq, Hd, Ht, He.
    setoid_replace (inject_Z (Z.pos m * 2 ^ (e - e0)) * 2 ^ e0 *
                    (inject_Z (Z.pos m2) * 2 ^ e2) -
                    inject_Z (Z.pos m1 * 2 ^ s) * (2 ^ e0 * 2 ^ e2))%Q
      with (inject_Z (Z.pos m * 2 ^ (e - e0) * Z.pos m2 - Z.pos m1 * 2 ^ s)
            * (2 ^ e0 * 2 ^ e2))%Q
      by (unfold Zminus; rewrite inject_Z_plus, inject_Z_opp, !inject_Z_mult; ring).
    setoid_replace (inject_Z (Z.pos m2) * 2 ^ e2 *
                    (inject_Z (2 ^ (e - e0)) * 2 ^ e0))%Q
      with (inject_Z (2 ^ (e - e0) * Z.pos m2) * (2 ^ e0 * 2 ^ e2))%Q
      by (rewrite !inject_Z_mult; ring).
    apply Qabs_Qle_condition. split.
    + setoid_replace (- (inject_Z (2 ^ (e - e0) * Z.pos m2) * (2 ^ e0 * 2 ^ e2)))%Q
        with (inject_Z (- (2 ^ (e - e0) * Z.pos m2)) * (2 ^ e0 * 2 ^ e2))%Q
        by (rewrite inject_Z_opp; ring).
      apply Qmult_le_compat_r; [|exact HP]. rewrite <- Zle_Qle. lia.
    + apply Qmult_le_compat_r; [|exact HP]. rewrite <- Zle_Qle. lia.
Qed.

(** A finite Number that is [> 0] has a positive mantissa. *)
Lemma positive_finite (x : Number) :
  isFinite x = true -> gt x (of_Z 0) = true ->
  exists m e, x = S754_finite false m e.
Proof.
  destruct x as [s|s| |s m e]; cbn; intros H1 H2; try discriminate.
  destruct s; [discriminate|]. eauto.
Qed.

Lemma div_unsigned (m : positive) (e : Z) (y : Number) :
  unsigned y -> unsigned (div (S754_finite false m e) y).
Proof.
  destruct y as [[|]|[|]| |[|] m2 e2]; cbn [unsigned]; try contradiction;
    intros _; try exact I.
  pose proof (div_error m m2 e e2) as H. cbv zeta in H.
  destruct (div (S754_finite false m e) (S754_finite false m2 e2))
    as [[|]|[|]| |[|] m' e']; cbn [unsigned]; try exact I; exact H.
Qed.


Lemma Zdigits2_le (q k : Z) : 0 <= q < 2 ^ k -> 0 <= k -> Zdigits2 q <= k.
Proof.
  intros [Hq Hlt] Hk. destruct q as [|p|p]; [exact Hk| |lia].
  cbn [Zdigits2]. pose proof (digits2_bounds p) as [Hlo _].
  destruct (Z.le_gt_cases (Zpos (digits2_pos p)) k) as [H|H]; [exact H|].
  assert (2 ^ k <= 2 ^ (Zpos (digits2_pos p) - 1))
    by (apply Z.pow_le_mono_r; lia).
  lia.
Qed.

(** Rounding a mantissa below [2^k] at an exponent that leaves room does
    not overflow. *)
Lemma round_aux_finite (q0 e0 k : Z) (l : location) :
  0 <= q0 < 2 ^ k -> 0 <= k -> -1074 <= e0 -> e0 + 2 * k + 1 <= 971 ->
  isFinite (binary_round_aux prec emax false q0 e0 l) = true.
Proof.
  intros [Hq0 Hlt] Hk Hlo Hhi. unfold binary_round_aux.
  pose proof (shr_fexp_spec q0 e0 l Hq0) as [H1m H1e].
  destruct (shr_fexp prec emax q0 e0 l) as [mrs1 er]. cbn [fst snd] in *.
  pose proof (Zdigits2_le q0 k ltac:(lia) Hk) as Hd0.
  pose proof (Zdigits2_nonneg q0) as Hd0'.
  set (a := Z.max (fexp prec emax (Zdigits2 q0 + e0) - e0) 0) in *.
  assert (Ha : 0 <= a <= k) by (unfold a, fexp, emin, prec, emax; lia).
  set (q1 := shr_m mrs1) in *.
  assert (HA : 0 < 2 ^ a) by (apply Z.pow_pos_nonneg; lia).
  assert (Hq1 : 0 <= q1 <= q0).
  { rewrite H1m. split; [apply Z.div_pos; lia|].
    apply Z.div_le_upper_bound; [lia|]. nia. }
  pose proof (round_nearest_even_range q1 (loc_of_shr_record mrs1)) as Hq2.
  set (q2 := round_nearest_even q1 (loc_of_shr_record mrs1)) in *.
  pose proof (shr_fexp_spec q2 er loc_Exact ltac:(lia)) as [H2m H2e].
  destruct (shr_fexp prec emax q2 er loc_Exact) as [mrs2 e2].
  cbn [fst snd] in *.
  assert (Hq2k : 0 <= q2 < 2 ^ (k + 1)).
  { split; [lia|]. rewrite Z.pow_add_r by lia. change (2 ^ 1) with 2. lia. }
  pose proof (Zdigits2_le q2 (k + 1) Hq2k ltac:(lia)) as Hd2.
  pose proof (Zdigits2_nonneg q2) as Hd2'.
  assert (He2 : e2 <= 971) by (unfold fexp, emin, prec, emax in *; lia).
  assert (Hq3 : 0 <= shr_m mrs2)
    by (rewrite H2m; apply Z.div_pos; [lia|apply Z.pow_pos_nonneg; lia]).
  destruct (shr_m mrs2) as [|m|m]; [reflexivity| |lia].
  destruct (Z.leb_spec e2 (emax - prec)) as [_|H]; [reflexivity|].
  unfold emax, prec in H. lia.
Qed.

Lemma iter_xO (m d : positive) :
  Zpos (Pos.iter xO m d) = Zpos m * 2 ^ Zpos d.
Proof.
  induction d as [|d IH] using Pos.peano_ind.
  - cbn. lia.
  - rewrite Pos.iter_succ, Pos2Z.inj_xO, IH, Pos2Z.inj_succ.
    rewrite Z.pow_succ_r by lia. ring.
Qed.

(** Counters convert to finite Numbers. *)
Lemma of_Z_finite (n : Z) : 0 <= n <= 2 ^ 53 -> isFinite (of_Z n) = true.
Proof.
  intros [Hn Hle]. unfold of_Z, binary_normalize.
  destruct n as [|m|m]; [reflexivity| |lia].
  unfold binary_round, shl_align.
  pose proof (digits2_bounds m) as [Hlo Hhi].
  set (d := Zpos (digits2_pos m)) in *.
  assert (Hd : 1 <= d <= 54).
  { split; [unfold d; lia|].
    destruct (Z.le_gt_cases d 54) as [H|H]; [exact H|].
    assert (2 ^ 54 <= 2 ^ (d - 1)) by (apply Z.pow_le_mono_r; lia). lia. }
  replace (d + 0) with d by lia.
  assert (Hf : fexp prec emax d = d - 53)
    by (unfold fexp, emin, prec, emax; lia).
  rewrite Hf.
  destruct (d - 53 - 0) as [|p|p] eqn:Hs.
  - apply round_aux_finite with (k := 54); lia.
  - apply round_aux_finite with (k := 54); lia.
  - apply round_aux_finite with (k := 107); try lia.
    rewrite iter_xO. split; [lia|].
    assert (2 ^ Zpos p <= 2 ^ 52) by (apply Z.pow_le_mono_r; lia).
    assert (2 ^ d <= 2 ^ 54) by (apply Z.pow_le_mono_r; lia).
    change (2 ^ 107) with (2 ^ 54 * (2 ^ 52 * 2)).
    nia.
Qed.

(** Dropping [p] digits that are all 0 is exact. *)
Lemma shr_1_even (M : Z) :
  0 <= M -> M mod 2 = 0 ->
  shr_1 (Build_shr_record M false false) = Build_shr_record (M / 2) false false.
Proof.
  intros HM Hev. destruct M as [|p|p]; [reflexivity| |lia].
  destruct p as [p|p|]; cbn [shr_1 orb].
  - exfalso. rewrite Pos2Z.inj_xI in Hev.
    rewrite Z.add_comm, Z.mul_comm, Z.mod_add in Hev by lia. discriminate.
  - f_equal. rewrite Pos2Z.inj_xO. rewrite Z.mul_comm, Z.div_mul by lia.
    reflexivity.
  - discriminate.
Qed.

Lemma iter_shr_exact (p : positive) (M : Z) :
  0 <= M ->
  iter_pos shr_1 p (Build_shr_record (M * 2 ^ Zpos p) false false)
  = Build_shr_record M false false.
Proof.
  revert M. induction p as [p IH|p IH|]; intros M HM; cbn [iter_pos];
    try (assert (Hpos : 0 < 2 ^ Zpos p) by (apply Z.pow_pos_nonneg; lia)).
  - replace (M * 2 ^ Z.pos p~1) with ((M * 2 ^ Zpos p * 2 ^ Zpos p) * 2).
    + rewrite shr_1_even; [|nia|apply Z.mod_mul; lia].
      rewrite Z.div_mul by lia. rewrite IH by nia. apply IH, HM.
    + replace (Z.pos p~1) with (Zpos p + Zpos p + 1) by lia.
      rewrite !Z.pow_add_r by lia. change (2 ^ 1) with 2. ring.
  - replace (M * 2 ^ Z.pos p~0) with (M * 2 ^ Zpos p * 2 ^ Zpos p).
    + rewrite IH by nia. apply IH, HM.
    + replace (Z.pos p~0) with (Zpos p + Zpos p) by lia.
      rewrite !Z.pow_add_r by lia. ring.
  - change (2 ^ 1) with 2. rewrite shr_1_even; [|lia|apply Z.mod_mul; lia].
    rewrite Z.div_mul by lia. reflexivity.
Qed.

Lemma Zdigits2_log2 (M : Z) : 0 < M -> Zdigits2 M = Z.log2 M + 1.
Proof.
  intros HM. destruct M as [|p|p]; try lia. cbn [Zdigits2].
  pose proof (digits2_bounds p) as [Hlo Hhi].
  assert (Z.log2 (Zpos p) = Zpos (digits2_pos p) - 1); [|lia].
  apply Z.log2_unique; [lia|].
  replace (Z.succ (Zpos (digits2_pos p) - 1)) with (Zpos (digits2_pos p))
    by lia.
  lia.
Qed.

Lemma Zdigits2_shift (M s : Z) :
  0 < M -> 0 <= s -> Zdigits2 (M * 2 ^ s) = Zdigits2 M + s.
Proof.
  intros HM Hs.
  assert (0 < 2 ^ s) by (apply Z.pow_pos_nonneg; lia).
  rewrite !Zdigits2_log2 by nia. rewrite Z.log2_mul_pow2 by lia. lia.
Qed.

(** Rounding [Q = M * 2^s] at exponent [e] is exact when [M] is in place
    at exponent [e' = e + s]. *)
Lemma round_aux_exact (Q M e e' s : Z) :
  Q = M * 2 ^ s -> e' = e + s ->
  0 < M -> 0 <= s ->
  fexp prec emax (Zdigits2 M + e') = e' -> e' <= 971 ->
  binary_round_aux prec emax false Q e loc_Exact
  = S754_finite false (Z.to_pos M) e'.
Proof.
  intros -> -> HM Hs Hc He. unfold binary_round_aux, shr_fexp.
  rewrite Zdigits2_shift by assumption.
  replace (Zdigits2 M + s + e) with (Zdigits2 M + (e + s)) by lia.
  rewrite Hc. replace (e + s - e) with s by lia.
  cbn [shr_record_of_loc].
  assert (Hshr : shr (Build_shr_record (M * 2 ^ s) false false) e s
                 = (Build_shr_record M false false, e + s)).
  { destruct s as [|p|p]; cbn [shr]; [|rewrite iter_shr_exact by lia|lia].
    - rewrite Z.mul_1_r, Z.add_0_r. reflexivity.
    - reflexivity. }
  rewrite Hshr. cbn [shr_m loc_of_shr_record round_nearest_even].
  rewrite Hc, Z.sub_diag. cbn [shr shr_record_of_loc shr_m].
  destruct M as [|m|m]; try lia. cbn [Z.to_pos].
  destruct (Z.leb_spec (e + s) (emax - prec)) as [_|H]; [reflexivity|].
  unfold emax, prec in H. lia.
Qed.

(** The Number of [n * 2^k / 2^k], for [n] of at most 53 digits. *)
Lemma normalize_exact (n : positive) (k : Z) :
  let d := Zpos (digits2_pos n) in
  d <= 53 -> 0 <= k ->
  binary_normalize prec emax (Zpos n * 2 ^ k) (- k) false
  = S754_finite false (Z.to_pos (Zpos n * 2 ^ (53 - d))) (d - 53).
Proof.
  intros d Hd Hk.
  assert (H2k : 0 < 2 ^ k) by (apply Z.pow_pos_nonneg; lia).
  assert (Hdn : Zdigits2 (Zpos n) = d) by reflexivity.
  assert (HM : 0 < Zpos n * 2 ^ (53 - d))
    by (apply Z.mul_pos_pos; [lia|apply Z.pow_pos_nonneg; lia]).
  assert (HdM : Zdigits2 (Zpos n * 2 ^ (53 - d)) = 53)
    by (rewrite Zdigits2_shift by lia; lia).
  assert (Hf : fexp prec emax d = d - 53)
    by (unfold fexp, emin, prec, emax, d; lia).
  assert (Hc : fexp prec emax (Zdigits2 (Zpos n * 2 ^ (53 - d)) + (d - 53))
               = d - 53)
    by (rewrite HdM; unfold fexp, emin, prec, emax; lia).
  destruct (Zpos n * 2 ^ k) as [|q|q] eqn:Hq; try lia.
  unfold binary_normalize, binary_round, shl_align.
  assert (Hdq : Zpos (digits2_pos q) = d + k).
  { change (Zpos (digits2_pos q)) with (Zdigits2 (Zpos q)).
    rewrite <- Hq, Zdigits2_shift by lia. rewrite Hdn. reflexivity. }
  rewrite Hdq. replace (d + k + - k) with d by lia. rewrite Hf.
  destruct (d - 53 - - k) as [|j|j] eqn:Hj.
  - apply (round_aux_exact _ (Zpos n * 2 ^ (53 - d)) _ _ 0);
      [|lia|exact HM|lia|exact Hc|lia].
    rewrite <- Hq. change (2 ^ 0) with 1. rewrite Z.mul_1_r.
    do 2 f_equal. lia.
  - apply (round_aux_exact _ (Zpos n * 2 ^ (53 - d)) _ _ (Zpos j));
      [|lia|exact HM|lia|exact Hc|lia].
    rewrite <- Hq, <- Z.mul_assoc, <- Z.pow_add_r by lia.
    do 2 f_equal. lia.
  - apply (round_aux_exact _ (Zpos n * 2 ^ (53 - d)) _ _ 0);
      [|lia|exact HM|lia|exact Hc|lia].
    rewrite iter_xO, <- Hq, <- Z.mul_assoc, <- Z.pow_add_r by lia.
    change (2 ^ 0) with 1. rewrite Z.mul_1_r. do 2 f_equal. lia.
Qed.

Lemma digits_below_2_53 (n : positive) :
  Zpos n < 2 ^ 53 -> Zpos (digits2_pos n) <= 53.
Proof.
  intros Hn. pose proof (digits2_bounds n) as [Hlo _].
  destruct (Z.le_gt_cases (Zpos (digits2_pos n)) 53) as [H|H]; [exact H|].
  assert (2 ^ 53 <= 2 ^ (Zpos (digits2_pos n) - 1))
    by (apply Z.pow_le_mono_r; lia).
  lia.
Qed.

Lemma of_Z_canonical (n : positive) :
  Zpos n < 2 ^ 53 ->
  of_Z (Zpos n)
  = S754_finite false
      (Z.to_pos (Zpos n * 2 ^ (53 - Zpos (digits2_pos n))))
      (Zpos (digits2_pos n) - 53).
Proof.
  intros Hn. unfold of_Z.
  pose proof (normalize_exact n 0 (digits_below_2_53 n Hn) ltac:(lia)) as H.
  cbv zeta in H. change (2 ^ 0) with 1 in H. rewrite Z.mul_1_r in H.
  exact H.
Qed.

(** On a counter, [n + 1] in Number arithmetic is [increment]. *)
Lemma increment_is_addition (n : Z) :
  0 <= n <= 2 ^ 53 ->
  add (of_Z n) (of_Z 1) = of_Z (increment n).
Proof.
  intros [Hlo Hhi]. unfold increment.
  destruct (Z.ltb_spec n (2 ^ 53)) as [Hlt|Hge];
    [|replace n with (2 ^ 53) by lia; vm_compute; reflexivity].
  destruct (Z.eq_dec n 0) as [->|Hn0]; [vm_compute; reflexivity|].
  destruct (Z.eq_dec n (2 ^ 53 - 1)) as [->|Hn1]; [vm_compute; reflexivity|].
  destruct n as [|p|p]; try lia.
  assert (Hsucc : Zpos p + 1 = Zpos (p + 1)) by lia.
  rewrite Hsucc, (of_Z_canonical p Hlt), (of_Z_canonical (p + 1)) by lia.
  change (of_Z 1) with (S754_finite false 4503599627370496 (-52)).
  pose proof (digits_below_2_53 p Hlt) as Hd.
  pose proof (digits_below_2_53 (p + 1) ltac:(lia)) as Hd'.
  set (d := Zpos (digits2_pos p)) in *.
  assert (Hd1 : 1 <= d) by (unfold d; lia).
  assert (HM : 0 < Zpos p * 2 ^ (53 - d))
    by (apply Z.mul_pos_pos; [lia|apply Z.pow_pos_nonneg; lia]).
  unfold add, SFadd. cbn [cond_Zopp].
  replace (Z.min (d - 53) (-52)) with (-52) by lia.
  assert (Hx : Zpos (fst (shl_align (Z.to_pos (Zpos p * 2 ^ (53 - d)))
                            (d - 53) (-52)))
               = Zpos p * 2 ^ 52).
  { unfold shl_align. destruct (-52 - (d - 53)) as [|j|j] eqn:Hj;
      cbn [fst]; try lia.
    - rewrite Z2Pos.id by lia. do 2 f_equal. lia.
    - rewrite iter_xO, Z2Pos.id by lia.
      rewrite <- Z.mul_assoc, <- Z.pow_add_r by lia. do 2 f_equal. lia. }
  assert (Hy : Zpos (fst (shl_align 4503599627370496 (-52) (-52))) = 2 ^ 52)
    by reflexivity.
  rewrite Hx, Hy.
  replace (Zpos p * 2 ^ 52 + 2 ^ 52) with (Zpos (p + 1) * 2 ^ 52) by lia.
  exact (normalize_exact (p + 1) 52 Hd' ltac:(lia)).
Qed.

(** The Number of a counter has the value of the counter. *)
Lemma of_Z_value (n : Z) :
  0 <= n <= 2 ^ 53 -> (value (of_Z n) == inject_Z n)%Q.
Proof.
  intros [Hlo Hhi].
  destruct (Z.eq_dec n 0) as [->|Hn0]; [reflexivity|].
  destruct (Z.eq_dec n (2 ^ 53)) as [->|Hn1]; [reflexivity|].
  destruct n as [|p|p]; try lia.
  rewrite of_Z_canonical by lia.
  pose proof (digits_below_2_53 p ltac:(lia)) as Hd.
  set (d := Zpos (digits2_pos p)) in *.
  assert (HM : 0 < Zpos p * 2 ^ (53 - d))
    by (apply Z.mul_pos_pos; [lia|apply Z.pow_pos_nonneg; lia]).
  rewrite value_pow2, Z2Pos.id, inject_Z_mult by exact HM.
  rewrite <- Qmult_assoc, <- pow2_split by lia.
  replace (53 - d + (d - 53)) with 0 by lia. cbn [Qpower]. ring.
Qed.

(** ** Numbers: decimal numerals and [toFixed] *)

Lemma length_append (a b : string) :
  String.length (a ++ b) = (String.length a + String.length b)%nat.
Proof. induction a as [|c a IH]; cbn; [reflexivity|now rewrite IH]. Qed.

Lemma substring_all (b : string) : substring 0 (String.length b) b = b.
Proof. induction b as [|c b IH]; cbn; [reflexivity|now rewrite IH]. Qed.

Lemma substring_prefix (a b : string) :
  substring 0 (String.length a) (a ++ b) = a.
Proof.
  induction a as [|c a IH]; cbn; [destruct b; reflexivity|now rewrite IH].
Qed.

Lemma substring_suffix (a b : string) :
  substring (String.length a) (String.length b) (a ++ b) = b.
Proof. induction a as [|c a IH]; cbn; [apply substring_all|exact IH]. Qed.

Lemma decimal_fuel_enough (f1 f2 : nat) (n : Z) :
  0 <= n -> n < 10 ^ Z.of_nat (S f1) -> n < 10 ^ Z.of_nat (S f2) ->
  decimal_fuel (S f1) n = decimal_fuel (S f2) n.
Proof.
  revert f2 n. induction f1 as [|f1 IH]; intros f2 n Hn H1 H2;
    cbn [decimal_fuel]; destruct (Z.ltb_spec n 10) as [Hlt|Hge];
    try reflexivity.
  - change (10 ^ Z.of_nat 1) with 10 in H1. lia.
  - destruct f2 as [|f2].
    + change (10 ^ Z.of_nat 1) with 10 in H2. lia.
    + f_equal. apply IH.
      * apply Z.div_pos; lia.
      * apply Z.div_lt_upper_bound; [lia|].
        rewrite Nat2Z.inj_succ, Z.pow_succ_r in H1 by lia. exact H1.
      * apply Z.div_lt_upper_bound; [lia|].
        rewrite Nat2Z.inj_succ, Z.pow_succ_r in H2 by lia. exact H2.
Qed.

Lemma decimal_fuel_bound (n : Z) :
  0 <= n -> n < 10 ^ Z.of_nat (S (Z.to_nat (Z.log2 n))).
Proof.
  intros Hn. rewrite Nat2Z.inj_succ, Z2Nat.id by apply Z.log2_nonneg.
  destruct (Z.eq_dec n 0) as [->|Hne]; [reflexivity|].
  apply Z.lt_le_trans with (2 ^ Z.succ (Z.log2 n)).
  - apply Z.log2_spec. lia.
  - apply Z.pow_le_mono_l. pose proof (Z.log2_nonneg n). lia.
Qed.

Lemma decimal_unfold (n : Z) :
  0 <= n ->
  decimal n = if n <? 10 then digit n
              else decimal (n / 10) ++ digit (n mod 10).
Proof.
  intros Hn. unfold decimal at 1. cbn [decimal_fuel].
  destruct (Z.ltb_spec n 10) as [Hlt|Hge]; [reflexivity|]. f_equal.
  pose proof (decimal_fuel_bound n Hn) as Hb.
  assert (Hq : 0 <= n / 10) by (apply Z.div_pos; lia).
  pose proof (decimal_fuel_bound (n / 10) Hq) as Hbq.
  destruct (Z.to_nat (Z.log2 n)) as [|f] eqn:Hf.
  - change (10 ^ Z.of_nat 1) with 10 in Hb. lia.
  - unfold decimal. apply decimal_fuel_enough; [exact Hq| |exact Hbq].
    apply Z.div_lt_upper_bound; [lia|].
    rewrite (Nat2Z.inj_succ (S f)), Z.pow_succ_r in Hb by lia. exact Hb.
Qed.

Lemma decimal_nonempty (n : Z) :
  0 <= n -> (1 <= String.length (decimal n))%nat.
Proof.
  intros Hn. rewrite decimal_unfold by exact Hn.
  destruct (n <? 10); [cbn; lia|]. rewrite length_append. cbn. lia.
Qed.

(** With one fraction digit, the point goes before the last digit. *)
Lemma place_point_one (n : Z) :
  0 <= n -> place_point n 1 = one_decimal false n.
Proof.
  intros Hn. unfold place_point, one_decimal. cbn [append].
  assert (Hr : decimal (n mod 10) = digit (n mod 10)).
  { rewrite decimal_unfold by (apply Z.mod_pos_bound; lia).
    destruct (Z.ltb_spec (n mod 10) 10) as [_|H]; [reflexivity|].
    pose proof (Z.mod_pos_bound n 10). lia. }
  rewrite Hr, (decimal_unfold n Hn).
  destruct (Z.ltb_spec n 10) as [Hlt|Hge].
  - rewrite Z.div_small, Z.mod_small by lia. reflexivity.
  - pose proof (decimal_nonempty (n / 10) ltac:(apply Z.div_pos; lia)) as Hlen.
    set (a := decimal (n / 10)) in *. set (d := digit (n mod 10)).
    rewrite length_append.
    change (String.length d) with 1%nat.
    destruct (Nat.leb_spec (String.length a + 1) 1) as [H|_]; [lia|].
    rewrite length_append. change (String.length d) with 1%nat.
    replace (String.length a + 1 - 1)%nat with (String.length a) by lia.
    rewrite substring_prefix.
    change 1%nat with (String.length d) at 1. rewrite substring_suffix.
    reflexivity.
Qed.

Lemma abs_value (s : bool) (m : positive) (e : Z) :
  (Qabs (value (S754_finite s m e)) == value (S754_finite false m e))%Q.
Proof.
  assert (HP : 0 <= 2 ^ e) by (apply Z.pow_nonneg; lia).
  destruct s.
  - destruct e as [|p|p]; cbn [value];
      (rewrite Qabs_neg;
       [unfold Qeq|unfold Qle]; cbn [Qnum Qden Qopp inject_Z]; nia).
  - apply Qabs_pos.
    destruct e as [|p|p]; cbn [value]; unfold Qle;
      cbn [Qnum Qden Qopp inject_Z]; nia.
Qed.

(** [nearest_scaled m e 1] tenths are within 0.05 of [m * 2^e]. *)
Lemma nearest_tenths (m : positive) (e : Z) :
  0 <= nearest_scaled m e 1 /\
  (Qabs (inject_Z (nearest_scaled m e 1) / 10
         - value (S754_finite false m e)) <= 1 # 20)%Q.
Proof.
  destruct e as [|p|p]; unfold nearest_scaled; cbn [value].
  - change (10 ^ Z.of_nat 1) with 10. change (2 ^ 0) with 1.
    split; [lia|]. apply Qabs_Qle_condition.
    unfold Qle, Qminus, Qplus, Qopp, Qdiv, Qmult, Qinv, inject_Z.
    cbn [Qnum Qden]. split; lia.
  - assert (HP : 0 < 2 ^ Z.pos p) by (apply Z.pow_pos_nonneg; lia).
    change (10 ^ Z.of_nat 1) with 10.
    split; [nia|]. apply Qabs_Qle_condition.
    unfold Qle, Qminus, Qplus, Qopp, Qdiv, Qmult, Qinv, inject_Z.
    cbn [Qnum Qden]. set (P := 2 ^ Z.pos p) in *. split; nia.
  - assert (HP : 0 < 2 ^ Zpos p) by (apply Z.pow_pos_nonneg; lia).
    assert (Hpow : 2 ^ (Zpos p + 1) = 2 * 2 ^ Zpos p)
      by (rewrite Z.pow_add_r by lia; lia).
    change (10 ^ Z.of_nat 1) with 10. rewrite Hpow.
    pose proof (Z.div_mod (2 * (Zpos m * 10) + 2 ^ Zpos p)
                  (2 * 2 ^ Zpos p) ltac:(lia)) as Hdm.
    pose proof (Z.mod_pos_bound (2 * (Zpos m * 10) + 2 ^ Zpos p)
                  (2 * 2 ^ Zpos p) ltac:(lia)) as Hmod.
    set (n := (2 * (Zpos m * 10) + 2 ^ Zpos p) / (2 * 2 ^ Zpos p)) in *.
    set (r := (2 * (Zpos m * 10) + 2 ^ Zpos p) mod (2 * 2 ^ Zpos p)) in *.
    split; [apply Z.div_pos; lia|].
    apply Qabs_Qle_condition.
    unfold Qle, Qminus, Qplus, Qopp, Qdiv, Qmult, Qinv, inject_Z.
    cbn [Qnum Qden]. rewrite !Pos2Z.inj_mul, Pos2Z.inj_pow.
    set (P := 2 ^ Z.pos p) in *. split; nia.
Qed.

(** Below 10^21, [toFixed(1)] rounds to one decimal place. *)
Lemma toFixed_rounds (x : Number) :
  below_1e21 x = true -> rounds_to_one_decimal x (toFixed x 1).
Proof.
  destruct x as [s|s| |s m e]; cbn [below_1e21]; try discriminate; intros Hx.
  - exists 0. split; [lia|]. split; [reflexivity|].
    cbn. unfold Qle. cbn. lia.
  - apply negb_true_iff in Hx. unfold toFixed. rewrite Hx.
    destruct (nearest_tenths m e) as [Hn Hq].
    exists (nearest_scaled m e 1). split; [exact Hn|]. split.
    + rewrite place_point_one by exact Hn. unfold one_decimal.
      destruct s; reflexivity.
    + rewrite abs_value. exact Hq.
Qed.

(** The model of [toFixed] on values whose results are known. *)
Lemma toFixed_samples :
  toFixed (div (of_Z 5) (of_Z 4)) 1 = "1.3" /\
  toFixed (div (of_Z 15) (of_Z 100)) 1 = "0.1" /\
  toFixed (div (of_Z 1005) (of_Z 1000)) 2 = "1.00" /\
  toFixed (div (of_Z (-1)) (of_Z 100)) 1 = "-0.0" /\
  toFixed (S754_zero true) 1 = "0.0" /\
  toFixed (of_Z 20) 1 = "20.0" /\
  toFixed (of_Z (10 ^ 21 - 100000)) 1 = "999999999999999868928.0" /\
  toFixed (of_Z (10 ^ 21)) 1 = "1e+21" /\
  toFixed (of_Z (10 ^ 23)) 1 = "1e+23" /\
  toFixed (of_Z (2 ^ 70)) 1 = "1.1805916207174113e+21" /\
  toFixed (of_Z 123456789012345678901234567890) 1
    = "1.2345678901234568e+29" /\
  toFixed Sample.max_value 1 = "1.7976931348623157e+308" /\
  toFixed (div (of_Z 1) (of_Z 0)) 1 = "Infinity" /\
  toFixed (div (of_Z 0) (of_Z 0)) 1 = "NaN".
Proof. vm_compute. repeat split. Qed.

Lemma one_decimal_has_point (neg : bool) (tenths : Z) :
  In "."%char (list_ascii_of_string (one_decimal neg tenths)).
Proof.
  unfold one_decimal.
  assert (Happ : forall a b c,
             In c (list_ascii_of_string b) ->
             In c (list_ascii_of_string (a ++ b))).
  { intros a b c Hb. induction a as [|x a IH]; [exact Hb|]. right. exact IH. }
  apply Happ, Happ. left. reflexivity.
Qed.

Lemma Infinity_not_rounded (x : Number) :
  ~ rounds_to_one_decimal x "Infinity".
Proof.
  intros (n & _ & Htext & _).
  pose proof (one_decimal_has_point (negative x) n) as Hin.
  rewrite <- Htext in Hin. cbn in Hin.
  repeat (destruct Hin as [Hin|Hin]; [discriminate|]). exact Hin.
Qed.

(** ** The handlers *)

Lemma sample_numbers :
  Sample.n5_2 = div (of_Z 52) (of_Z 10) /\
  Sample.n38_7 = div (of_Z 387) (of_Z 10) /\
  Sample.n_9_1 = div (of_Z (-91)) (of_Z 10) /\
  Sample.half = div (of_Z 1) (of_Z 2) /\
  Sample.two_pow_1023 = of_Z (2 ^ 1023) /\
  valid Sample.max_value = true.
Proof. vm_compute. auto 10. Qed.

Lemma lookup_in (key : string) (ps : Props) (v : Value) :
  lookup key ps = Some v -> In (key, v) ps.
Proof.
  induction ps as [|[k w] ps IH]; cbn [lookup]; [discriminate|].
  destruct (String.eqb_spec k key) as [->|Hne]; intros H.
  - inversion H; subst. now left.
  - right. exact (IH H).
Qed.

(** The properties of an instance are strings, Numbers, booleans, a date
    and an array of Numbers: each converts to a string. *)
Lemma own_props_convert (w : Workout) :
  Forall (fun kv => converts (snd kv) = true) (own_props w).
Proof.
  destruct w as [cls dt i n ll dist dur ty run cad elev pc sp descr].
  destruct cad, elev, pc, sp, descr; repeat constructor.
Qed.

Lemma template_inst (w : Workout) (key : string) :
  template (Inst w) key = get (Inst w) key.
Proof.
  unfold template, get. cbn [bind]. unfold ToString.
  destruct (lookup key (own_props w)) as [v|] eqn:Hv; [|reflexivity].
  pose proof (own_props_convert w) as H. rewrite Forall_forall in H.
  pose proof (H _ (lookup_in _ _ _ Hv)) as Hc. cbn [snd] in Hc.
  rewrite Hc. reflexivity.
Qed.

Lemma render_inst (w : Workout) (st : State) :
  exists it, _renderWorkout (Inst w) st = Normal (add_item it st).
Proof.
  unfold _renderWorkout.
  repeat (rewrite template_inst; unfold get at 1; cbn [bind]).
  unfold get. cbn [bind].
  repeat (rewrite template_inst; unfold get at 1; cbn [bind]).
  eexists. reflexivity.
Qed.

Lemma render_marker_inst (w : Workout) (st : State) (m : LeafletMap) :
  map st = Some m ->
  exists m', _renderWorkoutMarker (Inst w) st = Normal (set_map m' st).
Proof.
  intros Hm. unfold _renderWorkoutMarker. rewrite Hm.
  rewrite !template_inst. unfold get. cbn [bind].
  eexists. reflexivity.
Qed.

(** A submission that passes validation appends the new instance, renders
    it, hides the form and saves the store. *)
Lemma accepted_submission (w : Workout) (st : State) (m : LeafletMap) :
  map st = Some m ->
  let st0 := set_workouts (workouts st ++ [Inst w])%list st in
  exists it m',
    then_ (_renderWorkout (Inst w) st0) (fun st =>
    then_ (_renderWorkoutMarker (Inst w) st) (fun st =>
    Normal (_setLocalStorage (_hideForm st))))
    = Normal (_setLocalStorage (_hideForm (set_map m' (add_item it st0)))).
Proof.
  intros Hm st0.
  destruct (render_inst w st0) as [it Hit].
  destruct (render_marker_inst w (add_item it st0) m Hm) as [m' Hm'].
  exists it, m'. rewrite Hit. cbn [then_]. rewrite Hm'. reflexivity.
Qed.

Lemma find_id_absent (target : string) (l : list Entry) (pos : nat) :
  Forall (fun e => is_record e = true) l ->
  Forall (fun e => has_id target e = false) l ->
  find_id target l pos = Ok None.
Proof.
  revert pos. induction l as [|e l IH]; intros pos Hrec Hno; [reflexivity|].
  inversion Hrec as [|? ? He Hl]; subst.
  inversion Hno as [|? ? Hne Hnl]; subst.
  cbn [find_id]. unfold has_id in Hne.
  destruct (get e "id") as [v|err] eqn:Hget.
  - cbn [bind]. rewrite Hne. apply IH; assumption.
  - destruct e as [w|[]]; cbn in Hget, He; discriminate.
Qed.

Lemma get_inst_coords (w : Workout) :
  get (Inst w) "coords"
  = Ok (Arr [Num (fst (coords w)); Num (snd (coords w))]).
Proof. reflexivity. Qed.

Lemma replace_nth_middle (x y : Entry) (l1 l2 : list Entry) :
  replace_nth (List.length l1) x (l1 ++ y :: l2)%list = (l1 ++ x :: l2)%list.
Proof.
  induction l1 as [|e l1 IH]; cbn; [reflexivity|]. now rewrite IH.
Qed.

Lemma render_keeps_store (e : Entry) (st : State) :
  workouts (final (_renderWorkout e st)) = workouts st.
Proof.
  unfold _renderWorkout.
  match goal with |- context [match ?r with Ok _ => _ | Throws _ => _ end] =>
    destruct r end; reflexivity.
Qed.

Lemma forEach_render_keeps_store (l : list Entry) (st : State) :
  workouts (final (forEach _renderWorkout l st)) = workouts st.
Proof.
  revert st. induction l as [|e l IH]; intros st; [reflexivity|].
  cbn [forEach]. pose proof (render_keeps_store e st) as H.
  destruct (_renderWorkout e st) as [st1|err st1]; cbn [then_ final] in *.
  - rewrite IH. exact H.
  - exact H.
Qed.

Lemma lookup_overwrite (ps : Props) (k key : string) (v : Value) :
  lookup key (overwrite ps k v)
  = match lookup k ps with
    | Some _ => if String.eqb k key then Some v else lookup key ps
    | None => lookup key ps
    end.
Proof.
  induction ps as [|[k' w] ps IH]; cbn [overwrite lookup]; [reflexivity|].
  destruct (String.eqb_spec k' k) as [->|Hne]; cbn [lookup].
  - destruct (String.eqb k key); reflexivity.
  - rewrite IH. destruct (String.eqb_spec k' key) as [->|Hne'];
      [|reflexivity].
    destruct (lookup k ps); [|reflexivity].
    destruct (String.eqb_spec k key); [congruence|reflexivity].
Qed.

Lemma lookup_insert (ps : Props) (k key : string) (v : Value) :
  lookup k ps = None ->
  lookup key (insert ps k v)
  = if String.eqb k key then Some v else lookup key ps.
Proof.
  induction ps as [|[k' w] ps IH]; cbn [insert lookup]; intros Hk;
    [reflexivity|].
  destruct (String.eqb_spec k' k) as [->|Hne]; [discriminate|].
  destruct (comes_before k k'); cbn [lookup]; [reflexivity|].
  rewrite (IH Hk). destruct (String.eqb_spec k' key) as [->|Hne'];
    [|reflexivity].
  destruct (String.eqb_spec k key); [congruence|reflexivity].
Qed.

Lemma lookup_put (ps : Props) (k key : string) (v : Value) :
  lookup key (put ps k v)
  = if String.eqb k key then Some v else lookup key ps.
Proof.
  unfold put. destruct (lookup k ps) as [w|] eqn:Hk.
  - rewrite lookup_overwrite, Hk. reflexivity.
  - apply lookup_insert, Hk.
Qed.

Lemma lookup_parsed_members (key : string) (members : list (string * json))
    (acc : Props) :
  lookup key
    (fold_left (fun ps kv => put ps (fst kv) (snd kv))
       (List.map (fun kj => (fst kj, parse (snd kj))) members) acc)
  = match member key members with
    | Some j => Some (parse j)
    | None => lookup key acc
    end.
Proof.
  revert acc. induction members as [|[k j] ms IH]; intros acc; [reflexivity|].
  cbn [List.map fold_left fst snd member]. rewrite IH.
  destruct (member key ms); [reflexivity|].
  rewrite lookup_put. destruct (String.eqb k key); reflexivity.
Qed.

Lemma find_id_in (target : string) (l : list Entry) (pos p : nat)
    (e : Entry) :
  find_id target l pos = Ok (Some (p, e)) -> In e l.
Proof.
  revert pos. induction l as [|x l IH]; intros pos H; [discriminate|].
  cbn [find_id] in H. destruct (get x "id"); [|discriminate].
  cbn [bind] in H. destruct (strict_eq_string a target).
  - inversion H; subst. now left.
  - right. eapply IH, H.
Qed.

(** Activating anything in a store that holds no instance throws, and the
    store is left as it was. *)
Lemma activate_without_instances (st : State) (target : string) :
  (forall e, In e (workouts st) -> call_click e = Throws TypeError) ->
  exists err st',
    _moveToPopup (Some target) st = Abrupt err st' /\
    workouts st' = workouts st.
Proof.
  intros Hplain. unfold _moveToPopup.
  destruct (find_id target (workouts st) 0) as [found|err] eqn:Hfind;
    [|eauto].
  destruct (map st) as [m|]; [|eauto].
  destruct found as [[pos e]|]; [|eauto].
  destruct (get e "coords"); [|eauto].
  rewrite (Hplain e (find_id_in _ _ _ _ _ Hfind)). eauto.
Qed.

(** ** JSON *)

Section ValueInduction.
Variable P : Value -> Prop.
Hypothesis P_undefined : P Undefined.
Hypothesis P_null : P Null.
Hypothesis P_bool : forall b, P (Bool b).
Hypothesis P_num : forall x, P (Num x).
Hypothesis P_str : forall s, P (Str s).
Hypothesis P_date : forall d, P (DateObj d).
Hypothesis P_arr : forall xs, Forall P xs -> P (Arr xs).
Hypothesis P_obj : forall ps, Forall (fun kv => P (snd kv)) ps -> P (Obj ps).

Fixpoint Value_nested_ind (v : Value) : P v :=
  match v with
  | Undefined => P_undefined
  | Null => P_null
  | Bool b => P_bool b
  | Num x => P_num x
  | Str s => P_str s
  | DateObj d => P_date d
  | Arr xs =>
      P_arr xs
        ((fix go (l : list Value) : Forall P l :=
            match l with
            | [] => Forall_nil _
            | x :: l' => Forall_cons x (Value_nested_ind x) (go l')
            end) xs)
  | Obj ps =>
      P_obj ps
        ((fix go (l : Props) : Forall (fun kv => P (snd kv)) l :=
            match l with
            | [] => Forall_nil _
            | kv :: l' =>
                Forall_cons kv (Value_nested_ind (snd kv)) (go l')
            end) ps)
  end.
End ValueInduction.

Lemma strict_eq_number_saved (x : Number) :
  isFinite x = true ->
  exists y, json_number x = JNumber y /\ strict_eq_number x y = true.
Proof.
  destruct x as [s|s| |s m e]; cbn; try discriminate; intros _.
  - exists (S754_zero false). split; reflexivity.
  - exists (S754_finite s m e). split; [reflexivity|].
    unfold strict_eq_number, SFeqb, SFcompare.
    rewrite Z.compare_refl, Pos.compare_cont_refl. destruct s; reflexivity.
Qed.

Lemma stringify_defined (v : Value) :
  v <> Undefined -> exists j, stringify v = Some j.
Proof. destruct v; cbn; intros H; try congruence; eauto. Qed.

Lemma fold_put_distinct (l acc : Props) :
  distinct (List.map fst (acc ++ l)%list) = true ->
  enumerated (List.map fst (acc ++ l)%list) = true ->
  fold_left (fun ps kv => put ps (fst kv) (snd kv)) l acc = (acc ++ l)%list.
Proof.
  revert acc. induction l as [|[k v] l IH]; intros acc Hd He.
  - cbn. now rewrite app_nil_r.
  - cbn [fold_left fst snd].
    assert (Hput : lookup k acc = None /\
                   insert acc k v = (acc ++ [(k, v)])%list).
    { clear IH. induction acc as [|[k' w] acc IHa]; [split; reflexivity|].
      cbn [app List.map fst distinct enumerated] in Hd, He.
      apply andb_prop in Hd. destruct Hd as [Hk Hd].
      apply andb_prop in He. destruct He as [Hb He].
      destruct (IHa Hd He) as [Hlook Hins].
      assert (Hin : In k (List.map fst (acc ++ (k, v) :: l)%list)).
      { apply in_map_iff. exists (k, v). split; [reflexivity|].
        apply in_or_app. right. now left. }
      cbn [lookup insert app]. split.
      - destruct (String.eqb_spec k' k) as [->|Hne]; [|exact Hlook].
        exfalso. apply negb_true_iff in Hk.
        assert (Hex : existsb (String.eqb k)
                        (List.map fst (acc ++ (k, v) :: l)%list) = true).
        { apply existsb_exists. exists k. split; [exact Hin|].
          apply String.eqb_refl. }
        congruence.
      - rewrite forallb_forall in Hb. pose proof (Hb k Hin) as Hkb.
        apply negb_true_iff in Hkb. rewrite Hkb, Hins. reflexivity. }
    destruct Hput as [Hlook Hins]. unfold put. rewrite Hlook, Hins.
    rewrite IH; rewrite <- app_assoc; [reflexivity|exact Hd|exact He].
Qed.

(** Saving and parsing an object whose properties are defined and have
    distinct names, in the order of enumeration, revives each property
    where it stands. *)
Lemma revive_object (ps : Props) :
  distinct (List.map fst ps) = true ->
  enumerated (List.map fst ps) = true ->
  Forall (fun kv => snd kv <> Undefined) ps ->
  revive (Obj ps) = Obj (List.map (fun kv => (fst kv, revive (snd kv))) ps).
Proof.
  intros Hd He Hdef. unfold revive at 1. cbn [stringify parse].
  assert (Hflat :
    List.map (fun kj : string * json => (fst kj, parse (snd kj)))
      (flat_map (fun kv : string * Value =>
                   match stringify (snd kv) with
                   | Some j => [(fst kv, j)]
                   | None => []
                   end) ps)
    = List.map (fun kv => (fst kv, revive (snd kv))) ps).
  { clear Hd He. induction Hdef as [|[k v] ps Hv _ IH]; [reflexivity|].
    cbn [flat_map List.map fst snd] in *.
    destruct (stringify_defined v Hv) as [j Hj]. unfold revive at 1.
    rewrite Hj. cbn [app List.map fst snd]. now rewrite IH. }
  rewrite Hflat. rewrite fold_put_distinct; [reflexivity| |];
    cbn [app]; rewrite List.map_map; cbn [fst]; assumption.
Qed.

Lemma json_like_defined (v : Value) : json_like v = true -> v <> Undefined.
Proof. destruct v; cbn; congruence. Qed.

Lemma revive_array (xs : list Value) :
  Forall (fun x => x <> Undefined) xs ->
  revive (Arr xs) = Arr (List.map revive xs).
Proof.
  intros Hdef. unfold revive at 1. cbn [stringify parse]. f_equal.
  rewrite List.map_map. apply map_ext_in. intros x Hx.
  rewrite Forall_forall in Hdef.
  destruct (stringify_defined x (Hdef x Hx)) as [j Hj].
  unfold revive. now rewrite Hj.
Qed.

(** JSON data comes back as the same data. *)
Lemma revive_same_data (v : Value) :
  json_like v = true -> same_data v (revive v) = true.
Proof.
  induction v as [| |b|x|s|d|xs IH|ps IH] using Value_nested_ind;
    cbn [json_like]; intros Hj; try discriminate; try reflexivity.
  - destruct b; reflexivity.
  - destruct (strict_eq_number_saved x Hj) as (y & Hy & Heq).
    unfold revive. cbn [stringify]. rewrite Hy. exact Heq.
  - unfold revive. cbn. apply String.eqb_refl.
  - rewrite revive_array.
    + cbn [same_data]. induction IH as [|x xs Hx _ IHxs]; [reflexivity|].
      cbn [forallb] in Hj. apply andb_prop in Hj. destruct Hj as [Hjx Hjxs].
      cbn [List.map]. rewrite (Hx Hjx). cbn [andb]. exact (IHxs Hjxs).
    + rewrite forallb_forall in Hj. apply Forall_forall. intros x Hx.
      apply json_like_defined, Hj, Hx.
  - apply andb_prop in Hj. destruct Hj as [Hj He].
    apply andb_prop in Hj. destruct Hj as [Hvals Hd].
    rewrite revive_object.
    + cbn [same_data]. clear Hd He.
      induction IH as [|[k x] ps Hx _ IHps]; [reflexivity|].
      cbn [forallb snd] in Hvals. apply andb_prop in Hvals.
      destruct Hvals as [Hjx Hjps].
      cbn [List.map fst snd] in *. rewrite String.eqb_refl, (Hx Hjx).
      cbn [andb]. exact (IHps Hjps).
    + exact Hd.
    + exact He.
    + rewrite forallb_forall in Hvals. apply Forall_forall. intros kv Hkv.
      apply json_like_defined, Hvals, Hkv.
Qed.

Lemma lookup_map_values (f : Value -> Value) (key : string) (ps : Props) :
  lookup key (List.map (fun kv => (fst kv, f (snd kv))) ps)
  = option_map f (lookup key ps).
Proof.
  induction ps as [|[k v] ps IH]; [reflexivity|].
  cbn [List.map lookup fst snd]. destruct (String.eqb k key); [reflexivity|].
  exact IH.
Qed.

(** The properties of a storable record: they have distinct names, in the
    order of enumeration; none is [undefined]; those that hold its data are
    JSON data; and each converts to a string. *)
Lemma storable_props (e : Entry) :
  storable e = true ->
  exists ps,
    entry_value e = Obj ps /\
    distinct (List.map fst ps) = true /\
    enumerated (List.map fst ps) = true /\
    Forall (fun kv => snd kv <> Undefined) ps /\
    (forall key v, In key data_keys -> lookup key ps = Some v ->
                   json_like v = true) /\
    (forall key, get e key = Ok match lookup key ps with
                                | Some v => v
                                | None => Undefined
                                end) /\
    Forall (fun kv => json_like (snd kv) = true \/
                      exists d, snd kv = DateObj d) ps /\
    Forall (fun kv => converts (snd kv) = true) ps.
Proof.
  destruct e as [w|v].
  - cbn [storable]. intros H.
    repeat (apply andb_prop in H; destruct H as [H ?]).
    exists (own_props w). split; [reflexivity|].
    pose proof (own_props_convert w) as Hconv.
    destruct w as [cls dt i n [lat lng] dist dur ty run cad elev pc sp descr].
    cbn [coords fst snd distance duration cadence elevationGain clicks] in *.
    assert (Hn : isFinite (of_Z n) = true) by (apply of_Z_finite; lia).
    split; [|split; [|split; [|split; [|split; [|split]]]]].
    + destruct cad, elev, pc, sp, descr; reflexivity.
    + destruct cad, elev, pc, sp, descr; reflexivity.
    + destruct cad, elev, pc, sp, descr; cbn;
        repeat (constructor; [discriminate|]); constructor.
    + intros key v Hkey Hv. cbn in Hkey.
      repeat (destruct Hkey as [<-|Hkey]; [|]); try contradiction;
        destruct cad, elev, pc, sp, descr; cbn in Hv;
        try discriminate; inversion Hv; subst;
        cbn [finite_option] in *; cbn [json_like forallb];
        rewrite ?H, ?H1, ?H2, ?H3, ?H4, ?H5, ?H6, ?Hn; reflexivity.
    + intros key. reflexivity.
    + destruct cad, elev, pc, sp, descr; cbn [finite_option] in *;
        unfold own_props, opt_prop; cbn [app];
        repeat (constructor;
                [first [right; eexists; reflexivity
                       |left;
                        cbn [snd fst json_like forallb clicks coords
                             distance duration];
                        rewrite ?H, ?H1, ?H2, ?H3, ?H4, ?H5, ?H6, ?Hn;
                        reflexivity]|]);
        constructor.
    + exact Hconv.
  - destruct v; try discriminate. cbn [storable json_like]. intros H.
    apply andb_prop in H. destruct H as [H Hconv].
    apply andb_prop in H. destruct H as [H He].
    apply andb_prop in H. destruct H as [Hvals Hd].
    rewrite forallb_forall in Hvals. rewrite forallb_forall in Hconv.
    exists props. split; [reflexivity|]. split; [exact Hd|].
    split; [exact He|]. split; [|split; [|split; [|split]]].
    + apply Forall_forall. intros kv Hkv.
      apply json_like_defined, Hvals, Hkv.
    + intros key v _ Hv. exact (Hvals _ (lookup_in _ _ _ Hv)).
    + intros key. reflexivity.
    + apply Forall_forall. intros kv Hkv. left. apply Hvals, Hkv.
    + apply Forall_forall. exact Hconv.
Qed.

Lemma stringify_workouts_map (ws : list Entry) :
  stringify_workouts ws
  = List.map (fun e => match stringify (entry_value e) with
                       | Some j => j
                       | None => JNull
                       end) ws.
Proof. unfold stringify_workouts. cbn [stringify]. apply List.map_map. Qed.

Lemma template_object (ps : Props) (key : string) :
  Forall (fun kv => converts (snd kv) = true) ps ->
  template (Data (Obj ps)) key = get (Data (Obj ps)) key.
Proof.
  intros H. unfold template, get. cbn [bind]. unfold ToString.
  destruct (lookup key ps) as [v|] eqn:Hv; [|reflexivity].
  rewrite Forall_forall in H.
  pose proof (H _ (lookup_in _ _ _ Hv)) as Hc. cbn [snd] in Hc.
  rewrite Hc. reflexivity.
Qed.

(** A plain object whose properties convert to strings is rendered. *)
Lemma render_object (ps : Props) (st : State) :
  Forall (fun kv => converts (snd kv) = true) ps ->
  exists it, _renderWorkout (Data (Obj ps)) st = Normal (add_item it st).
Proof.
  intros H. unfold _renderWorkout.
  repeat (rewrite (template_object ps _ H); unfold get at 1; cbn [bind]).
  unfold get. cbn [bind].
  repeat (rewrite (template_object ps _ H); unfold get at 1; cbn [bind]).
  eexists. reflexivity.
Qed.

Lemma forEach_render_objects (l : list Entry) (st : State) :
  Forall (fun e => exists ps,
            e = Data (Obj ps) /\
            Forall (fun kv => converts (snd kv) = true) ps) l ->
  exists st', forEach _renderWorkout l st = Normal st' /\
              workouts st' = workouts st.
Proof.
  intros Hl. revert st. induction Hl as [|e l (ps & -> & Hps) _ IH]; intros st.
  - exists st. split; reflexivity.
  - cbn [forEach]. destruct (render_object ps st Hps) as [it Hit].
    rewrite Hit. cbn [then_].
    destruct (IH (add_item it st)) as (st' & Hrun & Hws).
    exists st'. split; [exact Hrun|]. rewrite Hws. reflexivity.
Qed.

(** What a storable record is after it was saved and loaded. *)
Lemma reload_storable (e : Entry) :
  storable e = true ->
  exists ps,
    entry_value e = Obj ps /\
    Data (parse match stringify (entry_value e) with
                | Some j => j
                | None => JNull
                end)
    = Data (Obj (List.map (fun kv => (fst kv, revive (snd kv))) ps)).
Proof.
  intros H. destruct (storable_props e H) as (ps & Hv & Hd & He & Hdef & _).
  exists ps. split; [exact Hv|]. rewrite Hv.
  rewrite <- (revive_object ps Hd He Hdef). reflexivity.
Qed.

(** ** The store invariant *)

Lemma json_number_finite (x : Number) :
  isFinite x = true ->
  exists y, json_number x = JNumber y /\ isFinite y = true.
Proof.
  destruct x as [s|s| |s m e]; cbn; try discriminate; intros _; eauto.
Qed.

Lemma keys_of_revived (f : Value -> Value) (ps : Props) :
  List.map fst (List.map (fun kv => (fst kv, f (snd kv))) ps)
  = List.map fst ps.
Proof. rewrite List.map_map. apply map_ext. reflexivity. Qed.

Lemma revive_json_like (v : Value) :
  json_like v = true -> json_like (revive v) = true.
Proof.
  induction v as [| |b|x|s|d|xs IH|ps IH] using Value_nested_ind;
    cbn [json_like]; intros Hj; try discriminate; try reflexivity.
  - destruct (json_number_finite x Hj) as (y & Hy & Hfin).
    unfold revive. cbn [stringify]. rewrite Hy. exact Hfin.
  - rewrite revive_array.
    + cbn [json_like]. induction IH as [|x xs Hx _ IHxs]; [reflexivity|].
      cbn [forallb] in Hj. apply andb_prop in Hj. destruct Hj as [Hjx Hjxs].
      cbn [List.map forallb]. rewrite (Hx Hjx). exact (IHxs Hjxs).
    + rewrite forallb_forall in Hj. apply Forall_forall. intros x Hx.
      apply json_like_defined, Hj, Hx.
  - apply andb_prop in Hj. destruct Hj as [Hj He].
    apply andb_prop in Hj. destruct Hj as [Hvals Hd].
    rewrite revive_object.
    + cbn [json_like]. rewrite keys_of_revived, Hd, He.
      rewrite !andb_true_r. clear Hd He.
      induction IH as [|[k x] ps Hx _ IHps]; [reflexivity|].
      cbn [forallb snd] in Hvals. apply andb_prop in Hvals.
      destruct Hvals as [Hjx Hjps].
      cbn [List.map forallb fst snd] in *. rewrite (Hx Hjx).
      exact (IHps Hjps).
    + exact Hd.
    + exact He.
    + rewrite forallb_forall in Hvals. apply Forall_forall. intros kv Hkv.
      apply json_like_defined, Hvals, Hkv.
Qed.

(** What converts to a string still does after it was saved and loaded. *)
Lemma revive_converts (v : Value) :
  json_like v = true \/ (exists d, v = DateObj d) ->
  converts v = true -> converts (revive v) = true.
Proof.
  intros [Hj|[d ->]]; [|reflexivity]. revert Hj.
  induction v as [| |b|x|s|d|xs IH|ps IH] using Value_nested_ind;
    cbn [json_like]; intros Hj Hc; try discriminate; try reflexivity.
  - destruct (json_number_finite x Hj) as (y & Hy & _).
    unfold revive. cbn [stringify]. rewrite Hy. reflexivity.
  - rewrite revive_array.
    + cbn [converts] in *. induction IH as [|x xs Hx _ IHxs]; [reflexivity|].
      cbn [forallb] in Hj, Hc. apply andb_prop in Hj. destruct Hj as [Hjx Hjxs].
      apply andb_prop in Hc. destruct Hc as [Hcx Hcxs].
      cbn [List.map forallb]. rewrite (Hx Hjx Hcx). exact (IHxs Hjxs Hcxs).
    + rewrite forallb_forall in Hj. apply Forall_forall. intros x Hx.
      apply json_like_defined, Hj, Hx.
  - apply andb_prop in Hj. destruct Hj as [Hj He].
    apply andb_prop in Hj. destruct Hj as [Hvals Hd].
    rewrite revive_object.
    + cbn [converts] in *. rewrite lookup_map_values.
      destruct (lookup "toString" ps); [discriminate|reflexivity].
    + exact Hd.
    + exact He.
    + rewrite forallb_forall in Hvals. apply Forall_forall. intros kv Hkv.
      apply json_like_defined, Hvals, Hkv.
Qed.

(** A storable record is storable again after it was saved and loaded. *)
Lemma reload_is_storable (e : Entry) :
  storable e = true ->
  storable (Data (parse match stringify (entry_value e) with
                         | Some j => j
                         | None => JNull
                         end)) = true.
Proof.
  intros H. destruct (reload_storable e H) as (ps & Hv & Heq).
  destruct (storable_props e H)
    as (ps' & Hv' & Hd & He & _ & _ & _ & Hvals & Hconv).
  rewrite Hv in Hv'. inversion Hv'; subst ps'. clear Hv'.
  inversion Heq as [Heq']. rewrite Heq'.
  cbn [storable json_like]. rewrite keys_of_revived, Hd, He.
  rewrite !andb_true_r. clear Hd He Heq Heq' Hv. apply andb_true_intro.
  split.
  - induction Hvals as [|[k v] ps Hkv _ IH]; [reflexivity|].
    inversion Hconv; subst.
    cbn [List.map forallb fst snd] in *. rewrite IH by assumption.
    rewrite andb_true_r.
    destruct Hkv as [Hj|[d ->]]; [apply revive_json_like, Hj|reflexivity].
  - induction Hvals as [|[k v] ps Hkv _ IH]; [reflexivity|].
    inversion Hconv as [|? ? Hc Hcs]; subst.
    cbn [List.map forallb fst snd] in *. rewrite (IH Hcs).
    rewrite andb_true_r. apply revive_converts; assumption.
Qed.

Lemma render_keeps (e : Entry) (st : State) :
  keeps st (final (_renderWorkout e st)).
Proof.
  unfold _renderWorkout.
  match goal with |- context [match ?r with Ok _ => _ | Throws _ => _ end] =>
    destruct r end; repeat split.
Qed.

Lemma render_marker_keeps (e : Entry) (st : State) :
  keeps st (final (_renderWorkoutMarker e st)).
Proof.
  unfold _renderWorkoutMarker.
  destruct (get e "coords"); [|repeat split].
  destruct (map st); [|repeat split].
  destruct (template e "type"); [|repeat split].
  destruct (get e "isRunning"); cbn [bind]; [|repeat split].
  destruct (template e "description"); cbn [bind]; repeat split.
Qed.

Lemma forEach_keeps (f : Entry -> State -> Completion) (l : list Entry) :
  (forall e st, keeps st (final (f e st))) ->
  forall st, keeps st (final (forEach f l st)).
Proof.
  intros Hf. induction l as [|e l IH]; intros st; [repeat split|].
  cbn [forEach]. pose proof (Hf e st) as (H1 & H2 & H3).
  destruct (f e st) as [st1|err st1]; cbn [then_ final] in *.
  - destruct (IH st1) as (K1 & K2 & K3). repeat split; congruence.
  - repeat split; assumption.
Qed.

Lemma invariant_keeps (st st' : State) :
  invariant st -> keeps st st' -> invariant st'.
Proof.
  intros (I1 & I2 & I3) (K1 & K2 & K3). unfold invariant.
  rewrite K1, K2, K3. auto.
Qed.

Lemma forallb_replace_nth (n : nat) (x : Entry) (l : list Entry) :
  storable x = true -> forallb storable l = true ->
  forallb storable (replace_nth n x l) = true.
Proof.
  intros Hx. revert n. induction l as [|y l IH]; intros n Hl;
    [destruct n; reflexivity|].
  cbn [forallb] in Hl. apply andb_prop in Hl. destruct Hl as [Hy Hl].
  destruct n as [|n]; cbn [replace_nth forallb].
  - now rewrite Hx, Hl.
  - now rewrite Hy, IH.
Qed.

Lemma click_storable (w : Workout) :
  storable (Inst w) = true -> storable (Inst (click w)) = true.
Proof.
  cbn [storable click coords distance duration cadence elevationGain clicks].
  unfold increment. rewrite !andb_true_iff, !Z.leb_le.
  intros ((Hnum & Hlo) & Hhi). split; [split; [exact Hnum|]|];
    destruct (Z.ltb_spec (clicks w) (2 ^ 53)); lia.
Qed.

Lemma new_Running_storable (env : Env) (latlng : Number * Number)
    (d t c : Number) :
  isFinite (fst latlng) && isFinite (snd latlng) = true ->
  validInputs [d; t; c] = true ->
  storable (Inst (new_Running env latlng d t c)) = true.
Proof.
  unfold validInputs. cbn [forallb]. intros Hll Hv.
  rewrite !andb_true_iff in Hv. destruct Hv as (Hd & Ht & Hk & _).
  apply andb_prop in Hll. destruct Hll as [Hlat Hlng].
  cbn. now rewrite Hlat, Hlng, Hd, Ht, Hk.
Qed.

Lemma new_Cycling_storable (env : Env) (latlng : Number * Number)
    (d t e : Number) :
  isFinite (fst latlng) && isFinite (snd latlng) = true ->
  validInputs [d; t; e] = true ->
  storable (Inst (new_Cycling env latlng d t e)) = true.
Proof.
  unfold validInputs. cbn [forallb]. intros Hll Hv.
  rewrite !andb_true_iff in Hv. destruct Hv as (Hd & Ht & Hk & _).
  apply andb_prop in Hll. destruct Hll as [Hlat Hlng].
  cbn. now rewrite Hlat, Hlng, Hd, Ht, Hk.
Qed.

(** Appending a storable instance, rendering it and saving keeps the
    invariant, wherever the handler stops. *)
Lemma append_keeps_invariant (w : Workout) (st : State) :
  invariant st -> storable (Inst w) = true ->
  invariant
    (final
       (then_ (_renderWorkout (Inst w)
                 (set_workouts (workouts st ++ [Inst w])%list st))
          (fun st => then_ (_renderWorkoutMarker (Inst w) st)
             (fun st => Normal (_setLocalStorage (_hideForm st)))))).
Proof.
  intros (I1 & I2 & I3) Hw.
  set (st0 := set_workouts (workouts st ++ [Inst w])%list st).
  assert (I0 : invariant st0).
  { split; [|split; assumption]. cbn [st0 set_workouts workouts].
    rewrite forallb_app, I1. cbn [forallb]. now rewrite Hw. }
  pose proof (render_keeps (Inst w) st0) as K1.
  destruct (_renderWorkout (Inst w) st0) as [st1|err st1];
    cbn [then_ final] in *; [|exact (invariant_keeps _ _ I0 K1)].
  pose proof (invariant_keeps _ _ I0 K1) as Inv1.
  pose proof (render_marker_keeps (Inst w) st1) as K2.
  destruct (_renderWorkoutMarker (Inst w) st1) as [st2|err st2];
    cbn [then_ final] in *; [|exact (invariant_keeps _ _ Inv1 K2)].
  destruct (invariant_keeps _ _ Inv1 K2) as (J1 & J2 & J3).
  split; [exact J1|]. split; [|exact J3].
  cbn [_setLocalStorage _hideForm storage workouts].
  exists (workouts st2). split; [exact J1|reflexivity].
Qed.

(** Every reachable state satisfies the invariant; in particular every
    reachable store holds storable records. *)
Lemma reachable_invariant (st : State) : reachable st -> invariant st.
Proof.
  induction 1 as [|st _ IH|st _ IH|st position _ IH|st latlng _ IH Hll
                  |st env form _ IH Hty|st target _ IH].
  - repeat split.
  - destruct IH as (I1 & I2 & I3). unfold _getLocalStorage.
    cbn [initial storage].
    destruct (storage st) as [elems|] eqn:Hst; [|repeat split].
    destruct I2 as (ws & Hws & ->).
    set (st0 := set_workouts _ _).
    apply (invariant_keeps st0);
      [|apply (forEach_keeps _ _ render_keeps)].
    split; [|split].
    + cbn [st0 set_workouts workouts]. rewrite stringify_workouts_map.
      rewrite List.map_map, forallb_forall. intros e' He'.
      apply in_map_iff in He'. destruct He' as (e & <- & He).
      apply reload_is_storable. rewrite forallb_forall in Hws.
      apply Hws, He.
    + cbn [st0 set_workouts storage initial]. eauto.
    + exact I.
  - destruct IH as (I1 & I2 & I3). split; [exact I1|]. split; [exact I|].
    exact I3.
  - unfold _loadMap. set (st0 := set_map _ st).
    apply (invariant_keeps st0);
      [exact IH|apply (forEach_keeps _ _ render_marker_keeps)].
  - destruct IH as (I1 & I2 & I3). split; [exact I1|]. split; [exact I2|].
    exact Hll.
  - unfold _newWorkout. pose proof IH as (I1 & I2 & I3).
    destruct (mapEvnt st) as [latlng|] eqn:Hev; [|exact IH].
    destruct Hty as [Hty|Hty]; rewrite Hty;
      cbn [String.eqb Ascii.eqb Bool.eqb].
    + destruct (validInputs _) eqn:Hv; cbn [negb orb];
        [|apply (invariant_keeps st); [exact IH|repeat split]].
      destruct (negb (allPositive _));
        [apply (invariant_keeps st); [exact IH|repeat split]|].
      apply append_keeps_invariant; [exact IH|].
      apply new_Running_storable; assumption.
    + destruct (validInputs _) eqn:Hv; cbn [negb orb];
        [|apply (invariant_keeps st); [exact IH|repeat split]].
      destruct (negb (allPositive _));
        [apply (invariant_keeps st); [exact IH|repeat split]|].
      apply append_keeps_invariant; [exact IH|].
      apply new_Cycling_storable; assumption.
  - unfold _moveToPopup. destruct target as [target|]; [|exact IH].
    destruct (find_id target (workouts st) 0) as [found|err] eqn:Hfind;
      [|exact IH].
    destruct (map st) as [m|]; [|exact IH].
    destruct found as [[pos e]|]; [|exact IH].
    destruct (get e "coords") as [c|err]; [|exact IH].
    set (st1 := set_map _ st).
    assert (Inv1 : invariant st1) by exact IH.
    pose proof (find_id_in _ _ _ _ _ Hfind) as Hin.
    destruct e as [w|v]; cbn [call_click final]; [|exact Inv1].
    destruct IH as (I1 & I2 & I3). split; [|split; assumption].
    cbn [set_workouts workouts st1 set_map].
    apply forallb_replace_nth; [|exact I1].
    apply click_storable. rewrite forallb_forall in I1. apply I1, Hin.
Qed.

(** ** C1: the derived metric *)




(** ** C2: rejected submissions *)

(** C2, as stated, fails when the type is not one of the two kinds: with a
    NaN distance and type "swimming" nothing is validated, no message is
    shown, [undefined] is appended to the store, and rendering throws. *)
Lemma invalid_submission_unknown_type :
  invalid_number (inputDistance Sample.swim_form) /\
  _newWorkout Sample.env Sample.swim_form Sample.ready
    = Abrupt TypeError (set_workouts [Data Undefined] Sample.ready) /\
  _newWorkout Sample.env Sample.swim_form Sample.ready
    <> Normal (alert rejection Sample.ready).
Proof.
  split; [left; reflexivity|]. split; [reflexivity|]. discriminate.
Qed.

Lemma running_check_fails (d t c : Number) :
  invalid_number d \/ invalid_number t \/ invalid_number c ->
  negb (validInputs [d; t; c]) || negb (allPositive [d; t; c]) = true.
Proof.
  unfold invalid_number, validInputs, allPositive. cbn [forallb].
  destruct (isFinite d), (gt d (of_Z 0)), (isFinite t), (gt t (of_Z 0)),
    (isFinite c), (gt c (of_Z 0)); cbn; intuition discriminate.
Qed.

Lemma cycling_check_fails (d t e : Number) :
  invalid_number d \/ invalid_number t ->
  negb (validInputs [d; t; e]) || negb (allPositive [d; t]) = true.
Proof.
  unfold invalid_number, validInputs, allPositive. cbn [forallb].
  destruct (isFinite d), (gt d (of_Z 0)), (isFinite t), (gt t (of_Z 0)),
    (isFinite e); cbn; intuition discriminate.
Qed.

(** C2 (amended). For a submission of type "running" or "cycling", made
    after a click on the map: if the distance, the duration or (for
    running) the cadence is not finite or not positive, the handler shows
    the message and returns; the store, the saved data, the list and the
    map are unchanged. *)
Theorem invalid_submission_rejected
    (env : Env) (form : Form) (st : State) (latlng : Number * Number) :
  mapEvnt st = Some latlng ->
  (inputType form = "running" /\
     (invalid_number (inputDistance form) \/
      invalid_number (inputDuration form) \/
      invalid_number (inputCadence form)))
  \/
  (inputType form = "cycling" /\
     (invalid_number (inputDistance form) \/
      invalid_number (inputDuration form))) ->
  _newWorkout env form st = Normal (alert rejection st) /\
  workouts (alert rejection st) = workouts st /\
  storage (alert rejection st) = storage st /\
  items (alert rejection st) = items st /\
  map (alert rejection st) = map st /\
  alerts (alert rejection st) = (alerts st ++ [rejection])%list.
Proof.
  intros Hev Hbad. split; [|cbn; auto 6].
  unfold _newWorkout. rewrite Hev.
  destruct Hbad as [[Hty Hbad]|[Hty Hbad]]; rewrite Hty;
    cbn [String.eqb Ascii.eqb Bool.eqb].
  - rewrite (running_check_fails _ _ _ Hbad). reflexivity.
  - rewrite (cycling_check_fails _ _ (inputElevation form) Hbad). reflexivity.
Qed.

Lemma invalid_submission_rejected_witness :
  _newWorkout Sample.env
    {| inputType := "running"; inputDistance := Sample.n5_2;
       inputDuration := of_Z 24; inputCadence := of_Z (-178);
       inputElevation := of_Z 0 |} Sample.ready
  = Normal (alert rejection Sample.ready).
Proof.
  apply (invalid_submission_rejected Sample.env
           {| inputType := "running"; inputDistance := Sample.n5_2;
              inputDuration := of_Z 24; inputCadence := of_Z (-178);
              inputElevation := of_Z 0 |} Sample.ready Sample.lisbon).
  - reflexivity.
  - left. split; [reflexivity|]. right. right. right. reflexivity.
Defined.

(** ** C3: saving and loading *)

(** C3, as stated, fails for a store that holds [undefined], which a
    submission of an unknown type leaves there (C9).  The next accepted
    submission saves the store; [undefined] is saved as [null]; and the next
    page load throws a TypeError at the first entry, which is [null] and
    not [undefined], before anything is listed. *)
Lemma undefined_entry_not_restored :
  exists st1 st2 st3 e,
    _newWorkout Sample.env Sample.swim_form Sample.ready
      = Abrupt TypeError st1 /\
    _newWorkout Sample.env Sample.run_form st1 = Normal st2 /\
    workouts st2 = [Data Undefined; Inst Sample.a_run] /\
    _getLocalStorage (initial (storage st2)) = Abrupt TypeError st3 /\
    workouts st3 = [Data Null; e] /\ items st3 = [].
Proof.
  eexists. eexists. eexists. eexists.
  split; [reflexivity|]. split; [reflexivity|]. split; [reflexivity|].
  split; [reflexivity|]. split; reflexivity.
Qed.

Lemma get_inst_fields (w : Workout) :
  get (Inst w) "id" = Ok (Str (id w)) /\
  get (Inst w) "type" = Ok (Str (type w)) /\
  get (Inst w) "isRunning" = Ok (Bool (isRunning w)) /\
  get (Inst w) "coords"
    = Ok (Arr [Num (fst (coords w)); Num (snd (coords w))]) /\
  get (Inst w) "distance" = Ok (Num (distance w)) /\
  get (Inst w) "duration" = Ok (Num (duration w)) /\
  get (Inst w) "clicks" = Ok (Num (of_Z (clicks w))) /\
  get (Inst w) "cadence" = Ok (optional Num (cadence w)) /\
  get (Inst w) "elevationGain" = Ok (optional Num (elevationGain w)) /\
  get (Inst w) "pace" = Ok (optional Str (pace w)) /\
  get (Inst w) "speed" = Ok (optional Str (speed w)) /\
  get (Inst w) "description" = Ok (optional Str (description w)).
Proof.
  destruct w as [cls dt i n ll dist dur ty run cad elev pc sp descr].
  destruct cad, elev, pc, sp, descr; repeat split.
Qed.

(** A property that holds the data of a storable record holds the same
    data after the record was saved and loaded. *)
Lemma holds_after_reload (e : Entry) (key : string) (v : Value) :
  storable e = true -> In key data_keys -> get e key = Ok v ->
  holds (Data (parse match stringify (entry_value e) with
                     | Some j => j
                     | None => JNull
                     end)) key v.
Proof.
  intros He Hkey Hv.
  destruct (storable_props e He) as (ps & Hval & _ & _ & _ & Hjson & Hget & _).
  destruct (reload_storable e He) as (ps' & Hval' & Heq).
  rewrite Hval in Hval'. inversion Hval'; subst ps'.
  rewrite Heq. rewrite Hget in Hv. inversion Hv as [Hv'].
  unfold holds. cbn [get]. rewrite lookup_map_values.
  destruct (lookup key ps) as [x|] eqn:Hlook; cbn [option_map].
  - exists (revive x). split; [reflexivity|].
    apply revive_same_data. eapply Hjson; eassumption.
  - exists Undefined. split; reflexivity.
Qed.

(** C3 (amended). Take a store whose entries are records: instances with
    finite Numbers, or plain objects of JSON data as a load returns them.
    Save it, and load what was saved, in this session or a later one.
    Loading returns without an exception, and the loaded store has as many
    entries, in the same order.  Where the store held an instance, the
    loaded entry holds its id, type, coordinates, distance, duration, click
    count, cadence or elevation gain, pace or speed and description, and
    the date as its ISO string; where it held a plain object, the loaded
    entry holds the same data under every name.  Numbers are compared
    with [===]: -0 is saved as 0. *)
Theorem save_load_round_trip (st later : State) :
  storage later = storage (_setLocalStorage st) ->
  forallb storable (workouts st) = true ->
  exists st',
    _getLocalStorage later = Normal st' /\
    List.length (workouts st') = List.length (workouts st) /\
    (forall i w,
       nth_error (workouts st) i = Some (Inst w) ->
       exists e',
         nth_error (workouts st') i = Some e' /\
         get e' "id" = Ok (Str (id w)) /\
         get e' "type" = Ok (Str (type w)) /\
         get e' "isRunning" = Ok (Bool (isRunning w)) /\
         get e' "date" = Ok (Str (toISOString (date w))) /\
         holds e' "coords" (Arr [Num (fst (coords w)); Num (snd (coords w))])
         /\
         holds e' "distance" (Num (distance w)) /\
         holds e' "duration" (Num (duration w)) /\
         holds e' "clicks" (Num (of_Z (clicks w))) /\
         holds e' "cadence" (optional Num (cadence w)) /\
         holds e' "elevationGain" (optional Num (elevationGain w)) /\
         get e' "pace" = Ok (optional Str (pace w)) /\
         get e' "speed" = Ok (optional Str (speed w)) /\
         get e' "description" = Ok (optional Str (description w))) /\
    (forall i ps,
       nth_error (workouts st) i = Some (Data (Obj ps)) ->
       exists ps',
         nth_error (workouts st') i = Some (Data (Obj ps')) /\
         same_data (Obj ps) (Obj ps') = true /\
         forall key,
           holds (Data (Obj ps')) key
             match lookup key ps with
             | Some v => v
             | None => Undefined
             end).
Proof.
  intros Hlater Hst.
  cbn [_setLocalStorage storage] in Hlater.
  set (load := fun e => Data (parse match stringify (entry_value e) with
                                    | Some j => j
                                    | None => JNull
                                    end)).
  assert (Hrun : _getLocalStorage later
                 = forEach _renderWorkout (List.map load (workouts st))
                     (set_workouts (List.map load (workouts st)) later)).
  { unfold _getLocalStorage. rewrite Hlater.
    rewrite stringify_workouts_map, List.map_map. reflexivity. }
  rewrite forallb_forall in Hst.
  destruct (forEach_render_objects (List.map load (workouts st))
              (set_workouts (List.map load (workouts st)) later))
    as (st1 & Hst1 & Hws).
  { apply Forall_forall. intros e' He'. apply in_map_iff in He'.
    destruct He' as (e & <- & He).
    pose proof (reload_is_storable e (Hst e He)) as Hre.
    destruct (reload_storable e (Hst e He)) as (ps & _ & Heq).
    fold (load e) in Hre, Heq. rewrite Heq in *.
    eexists. split; [reflexivity|].
    cbn [storable] in Hre. apply andb_prop in Hre.
    destruct Hre as [_ Hconv]. apply Forall_forall.
    rewrite forallb_forall in Hconv. exact Hconv. }
  cbn [set_workouts workouts] in Hws.
  exists st1. split; [rewrite Hrun; exact Hst1|].
  split; [rewrite Hws; apply length_map|]. split.
  - intros i w Hi. exists (load (Inst w)).
    assert (Hw : storable (Inst w) = true)
      by (apply Hst; eapply nth_error_In; eassumption).
    split; [rewrite Hws, nth_error_map, Hi; reflexivity|].
    destruct (get_inst_fields w)
      as (G1 & G2 & G3 & G4 & G5 & G6 & G7 & G8 & G9 & G10 & G11 & G12).
    assert (Hstr : forall key s,
               In key data_keys -> get (Inst w) key = Ok (optional Str s) ->
               get (load (Inst w)) key = Ok (optional Str s)).
    { intros key s Hkey Hget.
      destruct (holds_after_reload _ _ _ Hw Hkey Hget) as (v' & Hv' & Hsame).
      fold (load (Inst w)) in Hv'. rewrite Hv'. f_equal.
      destruct s as [s|]; destruct v'; cbn in Hsame; try discriminate;
        [|reflexivity].
      apply String.eqb_eq in Hsame. now subst. }
    split; [apply (Hstr "id" (Some (id w))); [cbn; auto 20|exact G1]|].
    split; [apply (Hstr "type" (Some (type w))); [cbn; auto 20|exact G2]|].
    split.
    { destruct (holds_after_reload _ "isRunning" _ Hw ltac:(cbn; auto 20) G3)
        as (v' & Hv' & Hsame).
      fold (load (Inst w)) in Hv'. rewrite Hv'. f_equal.
      destruct v'; cbn in Hsame; try discriminate.
      apply Bool.eqb_prop in Hsame. now subst. }
    split.
    { destruct (reload_storable _ Hw) as (ps & Hval & Heq).
      fold (load (Inst w)) in Heq. rewrite Heq.
      cbn [entry_value] in Hval. inversion Hval; subst ps.
      cbn [get]. rewrite lookup_map_values. reflexivity. }
    repeat split;
      first [apply (holds_after_reload (Inst w)); [exact Hw|cbn; auto 20|];
             assumption
            |apply Hstr; [cbn; auto 20|assumption]].
  - intros i ps Hi.
    assert (Hp : storable (Data (Obj ps)) = true)
      by (apply Hst; eapply nth_error_In; eassumption).
    destruct (storable_props _ Hp)
      as (ps0 & Hval & Hd & He & Hdef & _ & _ & Hvals & _).
    cbn [entry_value] in Hval. inversion Hval; subst ps0.
    exists (List.map (fun kv => (fst kv, revive (snd kv))) ps).
    assert (Hrev : revive (Obj ps)
                   = Obj (List.map (fun kv => (fst kv, revive (snd kv))) ps))
      by (apply revive_object; assumption).
    assert (Hjl : json_like (Obj ps) = true).
    { cbn [storable] in Hp. apply andb_prop in Hp. apply Hp. }
    split; [|split].
    + rewrite Hws, nth_error_map, Hi. cbn [option_map]. f_equal.
      destruct (reload_storable _ Hp) as (ps1 & Hval1 & Heq).
      cbn [entry_value] in Hval1. inversion Hval1; subst ps1. exact Heq.
    + rewrite <- Hrev. apply revive_same_data, Hjl.
    + intros key. unfold holds. cbn [get]. rewrite lookup_map_values.
      destruct (lookup key ps) as [x|] eqn:Hlook; cbn [option_map].
      * exists (revive x). split; [reflexivity|].
        apply revive_same_data.
        rewrite Forall_forall in Hvals.
        destruct (Hvals _ (lookup_in _ _ _ Hlook)) as [Hj|[d Hdt]];
          [exact Hj|].
        exfalso. cbn [json_like] in Hjl.
        apply andb_prop in Hjl. destruct Hjl as [Hjl _].
        apply andb_prop in Hjl. destruct Hjl as [Hjl _].
        rewrite forallb_forall in Hjl.
        pose proof (Hjl _ (lookup_in _ _ _ Hlook)) as Hx.
        cbn [snd] in Hx, Hdt. rewrite Hdt in Hx. discriminate.
      * exists Undefined. split; reflexivity.
Qed.

Lemma save_load_round_trip_witness :
  exists st' e1 e2,
    _getLocalStorage
      (initial (storage (_setLocalStorage
         (set_workouts [Inst Sample.a_run; Inst Sample.a_ride] Sample.ready))))
    = Normal st' /\
    List.length (workouts st') = 2%nat /\
    nth_error (workouts st') 0 = Some e1 /\
    nth_error (workouts st') 1 = Some e2 /\
    get e1 "pace" = Ok (Str "4.6") /\
    holds e2 "elevationGain" (Num (of_Z (-300))).
Proof.
  destruct (save_load_round_trip
              (set_workouts [Inst Sample.a_run; Inst Sample.a_ride]
                 Sample.ready)
              (initial (storage (_setLocalStorage
                 (set_workouts [Inst Sample.a_run; Inst Sample.a_ride]
                    Sample.ready))))
              eq_refl eq_refl) as (st' & Hrun & Hlen & Hinst & _).
  destruct (Hinst 0%nat Sample.a_run eq_refl)
    as (e1 & H1 & _ & _ & _ & _ & _ & _ & _ & _ & _ & _ & Hpace & _).
  destruct (Hinst 1%nat Sample.a_ride eq_refl)
    as (e2 & H2 & _ & _ & _ & _ & _ & _ & _ & _ & _ & Helev & _).
  exists st', e1, e2. split; [exact Hrun|]. split; [exact Hlen|].
  split; [exact H1|]. split; [exact H2|]. split; [exact Hpace|exact Helev].
Defined.

(** ** C4: activating an id that is not in the store *)

(** C4, as stated, fails: activating an id that is not in the (here empty)
    store throws a TypeError. *)
Lemma activate_absent_id_throws :
  workouts Sample.ready = [] /\
  _moveToPopup (Some "0000000000") Sample.ready
  = Abrupt TypeError Sample.ready.
Proof. split; reflexivity. Qed.

(** C4 (amended). In a store of records (the empty store included), the
    lookup of an id that no record has finds nothing and does not throw;
    activating that id changes nothing, but it is not silent: reading the
    coordinates of the missing record throws a TypeError. *)
Theorem activate_absent_id (st : State) (target : string) :
  Forall (fun e => is_record e = true) (workouts st) ->
  Forall (fun e => has_id target e = false) (workouts st) ->
  find_id target (workouts st) 0 = Ok None /\
  _moveToPopup (Some target) st = Abrupt TypeError st.
Proof.
  intros Hrec Hno.
  pose proof (find_id_absent target (workouts st) 0 Hrec Hno) as Hfind.
  split; [exact Hfind|].
  unfold _moveToPopup. rewrite Hfind. destruct (map st); reflexivity.
Qed.

Lemma activate_absent_id_witness :
  find_id "0000000000" [Inst Sample.a_run] 0 = Ok None /\
  _moveToPopup (Some "0000000000")
    (set_workouts [Inst Sample.a_run] Sample.ready)
  = Abrupt TypeError (set_workouts [Inst Sample.a_run] Sample.ready).
Proof.
  apply (activate_absent_id (set_workouts [Inst Sample.a_run] Sample.ready)
           "0000000000").
  - repeat constructor.
  - repeat constructor.
Defined.

(** ** C5: ids are not checked *)

(** C5, as stated, fails: two submissions in the same millisecond with the
    same random number produce the same id, and both records are kept. *)
Lemma duplicate_id_kept :
  exists st1 st2,
    _newWorkout Sample.env Sample.run_form Sample.ready = Normal st1 /\
    _newWorkout Sample.env Sample.ride_form (_showForm Sample.lisbon st1)
      = Normal st2 /\
    workouts st2 = [Inst Sample.a_run; Inst Sample.a_ride] /\
    id Sample.a_run = id Sample.a_ride.
Proof.
  eexists. eexists. split; [reflexivity|]. split; [reflexivity|].
  split; reflexivity.
Qed.

(** C5 (amended). Adding never fails: a submission that passes validation
    appends its record at the end of the store, whether or not a record
    with the same id is already there. *)
Theorem add_appends_without_id_check
    (env : Env) (form : Form) (st : State)
    (latlng : Number * Number) (m : LeafletMap) (w : Workout) :
  mapEvnt st = Some latlng ->
  map st = Some m ->
  (inputType form = "running" /\
     validInputs [inputDistance form; inputDuration form; inputCadence form]
       = true /\
     allPositive [inputDistance form; inputDuration form; inputCadence form]
       = true /\
     w = new_Running env latlng (inputDistance form) (inputDuration form)
           (inputCadence form))
  \/
  (inputType form = "cycling" /\
     validInputs [inputDistance form; inputDuration form; inputElevation form]
       = true /\
     allPositive [inputDistance form; inputDuration form] = true /\
     w = new_Cycling env latlng (inputDistance form) (inputDuration form)
           (inputElevation form)) ->
  exists st',
    _newWorkout env form st = Normal st' /\
    workouts st' = (workouts st ++ [Inst w])%list.
Proof.
  intros Hev Hm Hok.
  destruct (accepted_submission w st m Hm) as (it & m' & Heq).
  unfold _newWorkout. rewrite Hev.
  destruct Hok as [(Hty & Hv & Hp & Hw)|(Hty & Hv & Hp & Hw)];
    rewrite Hty; cbn [String.eqb Ascii.eqb Bool.eqb];
    rewrite Hv, Hp; cbn [negb orb]; rewrite <- Hw, Heq;
    eexists; split; reflexivity.
Qed.

Lemma add_appends_without_id_check_witness :
  exists st',
    _newWorkout Sample.env Sample.ride_form
      (_showForm Sample.lisbon
         (set_workouts [Inst Sample.a_run] Sample.ready)) = Normal st' /\
    workouts st' = [Inst Sample.a_run; Inst Sample.a_ride].
Proof.
  apply (add_appends_without_id_check Sample.env Sample.ride_form
           (_showForm Sample.lisbon
              (set_workouts [Inst Sample.a_run] Sample.ready))
           Sample.lisbon Sample.the_map Sample.a_ride).
  - reflexivity.
  - reflexivity.
  - right. repeat split; reflexivity.
Defined.

(** ** C6: elevation is only checked for finiteness *)

(** C6, as stated, fails for a submission that is made before any click on
    the map, even when the map has loaded: the handler throws a TypeError
    when it reads the position of the click, and nothing is accepted. *)
Lemma cycling_submission_before_click :
  inputType Sample.ride_form = "cycling" /\
  isFinite (inputDistance Sample.ride_form) = true /\
  gt (inputDistance Sample.ride_form) (of_Z 0) = true /\
  isFinite (inputDuration Sample.ride_form) = true /\
  gt (inputDuration Sample.ride_form) (of_Z 0) = true /\
  isFinite (inputElevation Sample.ride_form) = true /\
  _newWorkout Sample.env Sample.ride_form
    (set_map Sample.the_map (initial None))
  = Abrupt TypeError (set_map Sample.the_map (initial None)) /\
  workouts (set_map Sample.the_map (initial None)) = [].
Proof. repeat split. Qed.

(** C6 (amended). Take a cycling submission made once the map has loaded
    and has been clicked.  With positive finite distance and duration it is
    accepted whenever the elevation gain is finite, whatever its sign: the
    new [Cycling] instance, carrying that elevation, is appended to the
    store and no message is shown.  Positivity is checked for distance and
    duration: when one of them is not positive the submission is rejected,
    whatever the elevation.  For the elevation only finiteness is checked:
    a value that is not finite is rejected. *)
Theorem cycling_elevation_sign_unchecked
    (env : Env) (form : Form) (st : State)
    (latlng : Number * Number) (m : LeafletMap) :
  mapEvnt st = Some latlng ->
  map st = Some m ->
  inputType form = "cycling" ->
  (isFinite (inputDistance form) = true ->
   gt (inputDistance form) (of_Z 0) = true ->
   isFinite (inputDuration form) = true ->
   gt (inputDuration form) (of_Z 0) = true ->
   isFinite (inputElevation form) = true ->
   let w := new_Cycling env latlng (inputDistance form) (inputDuration form)
              (inputElevation form) in
   exists st',
     _newWorkout env form st = Normal st' /\
     workouts st' = (workouts st ++ [Inst w])%list /\
     elevationGain w = Some (inputElevation form) /\
     alerts st' = alerts st) /\
  (gt (inputDistance form) (of_Z 0) = false \/
   gt (inputDuration form) (of_Z 0) = false ->
   _newWorkout env form st = Normal (alert rejection st) /\
   workouts (alert rejection st) = workouts st /\
   alerts (alert rejection st) = (alerts st ++ [rejection])%list) /\
  (isFinite (inputElevation form) = false ->
   _newWorkout env form st = Normal (alert rejection st)).
Proof.
  intros Hev Hm Hty. split; [|split].
  - intros Hd Hdp Ht Htp He w.
    unfold _newWorkout. rewrite Hev, Hty.
    cbn [String.eqb Ascii.eqb Bool.eqb].
    unfold validInputs, allPositive. cbn [forallb].
    rewrite Hd, Hdp, Ht, Htp, He. cbn [andb orb negb].
    destruct (accepted_submission w st m Hm) as (it & m' & Heq).
    fold w. rewrite Heq.
    eexists. split; [reflexivity|]. cbn. auto.
  - intros Hbad. split; [|split; reflexivity].
    unfold _newWorkout. rewrite Hev, Hty.
    cbn [String.eqb Ascii.eqb Bool.eqb].
    unfold validInputs, allPositive. cbn [forallb].
    destruct Hbad as [->| ->]; rewrite ?andb_false_r; cbn [andb negb];
      rewrite ?orb_true_r; reflexivity.
  - intros Hbad. unfold _newWorkout. rewrite Hev, Hty.
    cbn [String.eqb Ascii.eqb Bool.eqb].
    unfold validInputs. cbn [forallb]. rewrite Hbad.
    rewrite !andb_false_r. reflexivity.
Qed.

Lemma cycling_elevation_sign_unchecked_witness :
  exists st',
    _newWorkout Sample.env Sample.ride_form Sample.ready = Normal st' /\
    workouts st' = [Inst Sample.a_ride] /\
    elevationGain Sample.a_ride = Some (of_Z (-300)) /\
    alerts st' = [].
Proof.
  apply (proj1 (cycling_elevation_sign_unchecked Sample.env Sample.ride_form
                  Sample.ready Sample.lisbon Sample.the_map
                  eq_refl eq_refl eq_refl));
    reflexivity.
Defined.

(** ** C7: pace times distance *)

(** C7, as stated, fails when the quotient overflows: for half a
    kilometre in 1.7976931348623157e308 minutes the pace is "Infinity",
    not a number with one decimal, and no multiple of the distance. *)
Lemma pace_product_overflows :
  isFinite Sample.half = true /\ gt Sample.half (of_Z 0) = true /\
  isFinite Sample.max_value = true /\
  gt Sample.max_value (of_Z 0) = true /\
  pace (new_Running Sample.env Sample.lisbon Sample.half
          Sample.max_value (of_Z 160)) = Some "Infinity" /\
  ~ rounds_to_one_decimal (div Sample.max_value Sample.half) "Infinity".
Proof.
  repeat (split; [reflexivity|]). apply Infinity_not_rounded.
Qed.

(** C7 (amended). For positive finite distance and duration, pace and
    speed depend on nothing but these two inputs.  Whenever the quotient,
    a Number, is below 10^21, the result is the quotient rounded to one
    decimal place; and the pace, in tenths, multiplied by the distance
    differs from the duration by at most the distance times 0.05 plus one
    unit in the last place of the quotient: the tolerance of the rounding
    to one decimal and of the rounding of the division. *)
Theorem pace_times_distance
    (env env' : Env) (latlng latlng' : Number * Number) (d t k k' : Number) :
  isFinite d = true -> gt d (of_Z 0) = true ->
  isFinite t = true -> gt t (of_Z 0) = true ->
  pace (new_Running env latlng d t k) = pace (new_Running env' latlng' d t k')
  /\
  speed (new_Cycling env latlng d t k)
  = speed (new_Cycling env' latlng' d t k') /\
  (below_1e21 (div t d) = true ->
     exists tenths : Z,
       0 <= tenths /\
       pace (new_Running env latlng d t k) = Some (one_decimal false tenths)
       /\
       (Qabs (inject_Z tenths / 10 * value d - value t)
        <= value d * ((1 # 20) + ulp (div t d)))%Q) /\
  (below_1e21 (div d (div t (of_Z 60))) = true ->
     exists text,
       speed (new_Cycling env latlng d t k) = Some text /\
       rounds_to_one_decimal (div d (div t (of_Z 60))) text).
Proof.
  intros Hd Hdp Ht Htp.
  destruct (positive_finite d Hd Hdp) as (md & ed & ->).
  destruct (positive_finite t Ht Htp) as (mt & et & ->).
  split; [reflexivity|]. split; [reflexivity|]. split.
  - intros Hbelow.
    destruct (toFixed_rounds _ Hbelow) as (tenths & Hn & Htext & Hq).
    pose proof (div_error mt md et ed) as Herr. cbv zeta in Herr.
    set (vd := value (S754_finite false md ed)) in *.
    set (vt := value (S754_finite false mt et)) in *.
    set (q := div (S754_finite false mt et) (S754_finite false md ed)) in *.
    assert (Hvd : (0 <= vd)%Q).
    { unfold vd. rewrite value_pow2. apply Qmult_le_0_compat;
        [|apply Qlt_le_weak, pow2_pos].
      change 0%Q with (inject_Z 0). rewrite <- Zle_Qle. lia. }
    assert (Hq' : negative q = false /\ (0 <= value q)%Q /\
                  (Qabs (value q * vd - vt) <= vd * ulp q)%Q).
    { destruct q as [[|]|[|]| |[|] m e]; try discriminate; try contradiction.
      - split; [reflexivity|]. split; [apply Qle_refl|exact Herr].
      - split; [reflexivity|]. split; [|exact Herr].
        rewrite value_pow2. apply Qmult_le_0_compat;
          [|apply Qlt_le_weak, pow2_pos].
        change 0%Q with (inject_Z 0). rewrite <- Zle_Qle. lia. }
    destruct Hq' as (Hsign & Hvq & Hdiv).
    exists tenths. split; [exact Hn|]. split.
    + cbn [new_Running calcPace _setDescription pace type duration distance].
      fold q. rewrite Htext, Hsign. reflexivity.
    + rewrite (Qabs_pos _ Hvq) in Hq.
      apply Qabs_Qle_condition in Hq. destruct Hq as [Hq1 Hq2].
      apply Qabs_Qle_condition in Hdiv. destruct Hdiv as [Hd1 Hd2].
      set (x := (inject_Z tenths / 10)%Q) in *.
      assert (H1 : ((x - value q) * vd <= (1 # 20) * vd)%Q)
        by (apply Qmult_le_compat_r; assumption).
      assert (H2 : (- (1 # 20) * vd <= (x - value q) * vd)%Q)
        by (apply Qmult_le_compat_r; assumption).
      apply Qabs_Qle_condition. split; lra.
  - intros Hbelow. eexists. split; [reflexivity|].
    apply toFixed_rounds, Hbelow.
Qed.

Lemma pace_times_distance_witness :
  exists tenths : Z,
    0 <= tenths /\
    pace Sample.a_run = Some (one_decimal false tenths) /\
    (Qabs (inject_Z tenths / 10 * value Sample.n5_2 - value (of_Z 24))
     <= value Sample.n5_2 * ((1 # 20) + ulp (div (of_Z 24) Sample.n5_2)))%Q.
Proof.
  refine (proj1 (proj2 (proj2
            (pace_times_distance Sample.env Sample.env Sample.lisbon
               Sample.lisbon Sample.n5_2 (of_Z 24) (of_Z 178) (of_Z 178)
               eq_refl eq_refl eq_refl eq_refl))) eq_refl).
Defined.

(** ** C8: what a reload brings back *)

(** The member that [JSON.parse] keeps is the property that is read. *)
Lemma get_parsed_member (members : list (string * json)) (key : string) :
  get (Data (parse (JObject members))) key
  = Ok match member key members with
       | Some j => parse j
       | None => Undefined
       end.
Proof.
  cbn [parse get]. rewrite lookup_parsed_members.
  destruct (member key members); reflexivity.
Qed.

(** C8. A load that finds no saved data leaves the state as it is.  After
    a load that finds saved data, the store has one entry for each saved
    element, in order, and every entry is plain data, not an instance.
    Where the element is a JSON object, reading a property of the entry
    gives what was saved under that name: the same string for a string (so
    [pace], [speed] and [description] are the saved strings, whatever the
    saved distance and duration), the same Number, the same boolean, and
    [undefined] for a name that was not saved.  Nothing is derived again.
    Activating a loaded entry never counts: whatever the id, the handler
    throws and the store is as it was. *)
Theorem loaded_records_are_plain_data (st : State) :
  let st' := final (_getLocalStorage st) in
  match storage st with
  | None => _getLocalStorage st = Normal st
  | Some elems =>
      List.length (workouts st') = List.length elems /\
      (forall e, In e (workouts st') -> exists v, e = Data v) /\
      (forall i members,
         nth_error elems i = Some (JObject members) ->
         exists e,
           nth_error (workouts st') i = Some e /\
           (forall key s, member key members = Some (JString s) ->
                          get e key = Ok (Str s)) /\
           (forall key x, member key members = Some (JNumber x) ->
                          get e key = Ok (Num x)) /\
           (forall key b, member key members = Some (JBool b) ->
                          get e key = Ok (Bool b)) /\
           (forall key, member key members = None ->
                        get e key = Ok Undefined)) /\
      (forall target, exists err st'',
         _moveToPopup (Some target) st' = Abrupt err st'' /\
         workouts st'' = workouts st')
  end.
Proof.
  intros st'. destruct (storage st) as [elems|] eqn:Hst;
    [|unfold _getLocalStorage; now rewrite Hst].
  assert (Hws : workouts st' = List.map (fun j => Data (parse j)) elems).
  { unfold st', _getLocalStorage. rewrite Hst.
    rewrite forEach_render_keeps_store. reflexivity. }
  assert (Hplain : forall e, In e (workouts st') ->
                             call_click e = Throws TypeError).
  { intros e He. rewrite Hws in He. apply in_map_iff in He.
    destruct He as (j & <- & _). reflexivity. }
  split; [rewrite Hws; apply length_map|]. split; [|split].
  - intros e He. rewrite Hws in He. apply in_map_iff in He.
    destruct He as (j & <- & _). eauto.
  - intros i members Hi. exists (Data (parse (JObject members))).
    split; [rewrite Hws, nth_error_map, Hi; reflexivity|].
    repeat split; intros; rewrite get_parsed_member;
      match goal with H : member _ _ = _ |- _ => rewrite H end;
      reflexivity.
  - intros target. apply activate_without_instances, Hplain.
Qed.

(** A saved run of 10 km in 60 min whose saved pace is "1.0" comes back
    with that pace, while the constructor derives "6.0" from the same
    distance and duration. *)
Lemma loaded_records_are_plain_data_witness :
  exists e,
    nth_error
      (workouts
         (final (_getLocalStorage
                   (initial
                      (Some [JObject [("distance", JNumber (of_Z 10));
                                      ("duration", JNumber (of_Z 60));
                                      ("pace", JString "1.0")]]))))) 0
    = Some e /\
    get e "pace" = Ok (Str "1.0") /\
    get e "distance" = Ok (Num (of_Z 10)) /\
    get e "click" = Ok Undefined /\
    pace (new_Running Sample.env Sample.lisbon (of_Z 10) (of_Z 60) (of_Z 170))
    = Some "6.0".
Proof.
  pose proof (loaded_records_are_plain_data
                (initial
                   (Some [JObject [("distance", JNumber (of_Z 10));
                                   ("duration", JNumber (of_Z 60));
                                   ("pace", JString "1.0")]]))) as H.
  cbv zeta in H. cbn [initial storage] in H.
  destruct H as (_ & _ & Hget & _).
  destruct (Hget 0%nat _ eq_refl) as (e & He & Hs & Hn & _ & Hu).
  exists e. split; [exact He|].
  split; [apply Hs; reflexivity|]. split; [apply Hn; reflexivity|].
  split; [apply Hu; reflexivity|reflexivity].
Defined.

(** ** C9: a type that is neither "running" nor "cycling" *)

(** C9, as stated, fails for a submission that is made before any click on
    the map: the handler throws a TypeError when it reads the position of
    the click, and nothing is appended to the store. *)
Lemma unknown_type_before_click :
  inputType Sample.swim_form <> "running" /\
  inputType Sample.swim_form <> "cycling" /\
  _newWorkout Sample.env Sample.swim_form
    (set_map Sample.the_map (initial None))
  = Abrupt TypeError (set_map Sample.the_map (initial None)) /\
  workouts (set_map Sample.the_map (initial None)) = [].
Proof. repeat split; discriminate. Qed.

(** C9 (amended). After a click on the map, a submission whose type is
    neither "running" nor "cycling" is not validated: whatever the numeric
    inputs, no message is shown and [undefined] is appended to the store;
    rendering that entry then throws a TypeError, so that nothing is
    listed, put on the map or saved.  For the two known kinds, once the map
    has loaded, the handler returns normally. *)
Theorem unknown_type_appends_undefined
    (env : Env) (form : Form) (st : State) (latlng : Number * Number) :
  mapEvnt st = Some latlng ->
  (inputType form <> "running" -> inputType form <> "cycling" ->
   exists st',
     _newWorkout env form st = Abrupt TypeError st' /\
     workouts st' = (workouts st ++ [Data Undefined])%list /\
     _renderWorkout (Data Undefined) st' = Abrupt TypeError st' /\
     alerts st' = alerts st /\ items st' = items st /\
     map st' = map st /\ storage st' = storage st)
  /\
  (inputType form = "running" \/ inputType form = "cycling" ->
   map st <> None ->
   exists st', _newWorkout env form st = Normal st').
Proof.
  intros Hev. split.
  - intros Hr Hc. apply String.eqb_neq in Hr, Hc.
    unfold _newWorkout. rewrite Hev, Hr, Hc.
    eexists. split; [reflexivity|]. cbn. auto 10.
  - intros Hty Hmap. destruct (map st) as [m|] eqn:Hm; [|congruence].
    unfold _newWorkout. rewrite Hev.
    destruct Hty as [Hty|Hty]; rewrite Hty;
      cbn [String.eqb Ascii.eqb Bool.eqb].
    + destruct (negb _ || negb _); [eexists; reflexivity|].
      match goal with |- context [Inst ?w] =>
        destruct (accepted_submission w st m Hm) as (it & m' & Heq) end.
      rewrite Heq. eexists; reflexivity.
    + destruct (negb _ || negb _); [eexists; reflexivity|].
      match goal with |- context [Inst ?w] =>
        destruct (accepted_submission w st m Hm) as (it & m' & Heq) end.
      rewrite Heq. eexists; reflexivity.
Qed.

Lemma unknown_type_appends_undefined_witness :
  exists st',
    _newWorkout Sample.env Sample.swim_form
      (set_workouts [Inst Sample.a_run] Sample.ready)
    = Abrupt TypeError st' /\
    workouts st' = [Inst Sample.a_run; Data Undefined].
Proof.
  destruct (proj1 (unknown_type_appends_undefined Sample.env
                     Sample.swim_form
                     (set_workouts [Inst Sample.a_run] Sample.ready)
                     Sample.lisbon eq_refl))
    as (st' & Hrun & Hws & _); [discriminate|discriminate|].
  exists st'. split; [exact Hrun|exact Hws].
Defined.

(** ** C10: activating a record *)

(** C10, as stated, fails for a record that was loaded from storage: it is
    a plain object without [click], so activating it moves the map and then
    throws; its counter stays what it was. *)
Lemma activate_loaded_record_throws :
  exists st st',
    Sample.reloaded = Normal st /\
    (exists e, workouts st = [e] /\ has_id (id Sample.a_run) e = true /\
               get e "clicks" = Ok (Num (of_Z 0))) /\
    _moveToPopup (Some (id Sample.a_run)) st = Abrupt TypeError st' /\
    workouts st' = workouts st.
Proof.
  exists (final Sample.reloaded). eexists.
  split; [vm_compute; reflexivity|].
  split; [eexists; split; [vm_compute; reflexivity
                          |split; vm_compute; reflexivity]|].
  split; vm_compute; reflexivity.
Qed.

Lemma find_id_first_record (target : string) (e : Entry)
    (l1 l2 : list Entry) (pos : nat) :
  Forall (fun x => is_record x = true) l1 ->
  Forall (fun x => has_id target x = false) l1 ->
  has_id target e = true ->
  find_id target (l1 ++ e :: l2)%list pos
  = Ok (Some ((pos + List.length l1)%nat, e)).
Proof.
  revert pos. induction l1 as [|x l1 IH]; intros pos Hrec Hno He.
  - cbn [app find_id List.length]. unfold has_id in He.
    destruct (get e "id") as [v|]; [|discriminate].
    cbn [bind]. rewrite He, Nat.add_0_r. reflexivity.
  - inversion Hrec as [|? ? Hx Hl]; subst.
    inversion Hno as [|? ? Hne Hnl]; subst.
    cbn [app find_id List.length]. unfold has_id in Hne.
    destruct (get x "id") as [v|err] eqn:Hget.
    + cbn [bind]. rewrite Hne. rewrite IH by assumption.
      rewrite Nat.add_succ_r. reflexivity.
    + destruct x as [w'|[]]; cbn in Hget, Hx; discriminate.
Qed.

(** C10 (amended). Take a record of the store that is the first with its
    id, every entry before it being a record.  If the map has not loaded,
    activating it throws a TypeError and changes nothing.  Once the map has
    loaded: if the record is an instance created in this session, clicked
    fewer than 2^53 times, activating it moves the view to its
    coordinates and increments its [clicks] by exactly one, which is what
    [+ 1] gives on the Number of the counter, and leaves its other fields,
    the other records, the markers, the list and the saved data as they
    were; if the record is a plain object loaded from storage, with its
    coordinates, activating it moves the view to them and then throws a
    TypeError, and the store, the list and the saved data are as they
    were: its counter is not incremented. *)
Theorem activate_increments_clicks
    (st : State) (target : string) (e : Entry) (l1 l2 : list Entry) :
  workouts st = (l1 ++ e :: l2)%list ->
  Forall (fun x => is_record x = true) l1 ->
  Forall (fun x => has_id target x = false) l1 ->
  has_id target e = true ->
  (map st = None ->
   _moveToPopup (Some target) st = Abrupt TypeError st) /\
  (forall m w,
     map st = Some m -> e = Inst w -> 0 <= clicks w < 2 ^ 53 ->
     exists st' w',
       _moveToPopup (Some target) st = Normal st' /\
       workouts st' = (l1 ++ Inst w' :: l2)%list /\
       clicks w' = clicks w + 1 /\
       of_Z (clicks w') = add (of_Z (clicks w)) (of_Z 1) /\
       (class w' = class w /\ date w' = date w /\ id w' = id w /\
        coords w' = coords w /\ distance w' = distance w /\
        duration w' = duration w /\ type w' = type w /\
        isRunning w' = isRunning w /\ cadence w' = cadence w /\
        elevationGain w' = elevationGain w /\ pace w' = pace w /\
        speed w' = speed w /\ description w' = description w) /\
       map st'
       = Some {| view := (Arr [Num (fst (coords w)); Num (snd (coords w))],
                          mapZoomLevel);
                 markers := markers m |} /\
       storage st' = storage st /\ items st' = items st) /\
  (forall m ps lat lng,
     map st = Some m -> e = Data (Obj ps) ->
     lookup "coords" ps = Some (Arr [Num lat; Num lng]) ->
     exists st',
       _moveToPopup (Some target) st = Abrupt TypeError st' /\
       workouts st' = workouts st /\
       map st'
       = Some {| view := (Arr [Num lat; Num lng], mapZoomLevel);
                 markers := markers m |} /\
       storage st' = storage st /\ items st' = items st).
Proof.
  intros Hws Hrec Hno He.
  pose proof (find_id_first_record target e l1 l2 0 Hrec Hno He) as Hfind.
  split; [|split].
  - intros Hm. unfold _moveToPopup. rewrite Hws, Hfind, Hm. reflexivity.
  - intros m w Hm -> Hlt.
    exists (set_workouts (l1 ++ Inst (click w) :: l2)%list
              (set_map {| view := (Arr [Num (fst (coords w));
                                        Num (snd (coords w))], mapZoomLevel);
                          markers := markers m |} st)), (click w).
    split.
    + unfold _moveToPopup. rewrite Hws, Hfind, Hm.
      rewrite get_inst_coords. cbn [call_click Nat.add].
      cbn [set_map workouts]. rewrite Hws, replace_nth_middle. reflexivity.
    + split; [reflexivity|]. split; [|split].
      * cbn [click clicks]. unfold increment.
        destruct (Z.ltb_spec (clicks w) (2 ^ 53)); [reflexivity|lia].
      * cbn [click clicks]. symmetry. apply increment_is_addition. lia.
      * cbn. auto 20.
  - intros m ps lat lng Hm -> Hc.
    exists (set_map {| view := (Arr [Num lat; Num lng], mapZoomLevel);
                       markers := markers m |} st).
    split; [|cbn; auto].
    unfold _moveToPopup. rewrite Hws, Hfind, Hm. cbn [get]. rewrite Hc.
    reflexivity.
Qed.

Lemma activate_increments_clicks_witness :
  exists st' w',
    _moveToPopup (Some (id Sample.a_ride))
      (set_workouts [Inst Sample.earlier_run; Inst Sample.a_ride]
         Sample.ready)
    = Normal st' /\
    workouts st' = [Inst Sample.earlier_run; Inst w'] /\ clicks w' = 1.
Proof.
  destruct (activate_increments_clicks
              (set_workouts [Inst Sample.earlier_run; Inst Sample.a_ride]
                 Sample.ready)
              (id Sample.a_ride) (Inst Sample.a_ride)
              [Inst Sample.earlier_run] [] eq_refl)
    as (_ & Hinst & _).
  - repeat constructor.
  - repeat constructor.
  - reflexivity.
  - destruct (Hinst Sample.the_map Sample.a_ride eq_refl eq_refl
                (conj (Z.le_refl 0) eq_refl))
      as (st' & w' & H1 & H2 & H3 & _).
    exists st', w'. auto.
Defined.

(** * Further properties *)

(** ** The id of a workout *)

Lemma digit_is_digit_char (d : Z) :
  0 <= d <= 9 -> digit d = String (digit_char d) EmptyString.
Proof.
  intros H.
  assert (Hd : d = 0 \/ d = 1 \/ d = 2 \/ d = 3 \/ d = 4 \/ d = 5 \/ d = 6
               \/ d = 7 \/ d = 8 \/ d = 9) by lia.
  repeat (destruct Hd as [->|Hd]; [reflexivity|]). subst. reflexivity.
Qed.

Lemma length_last_digits (k : nat) (n : Z) :
  String.length (last_digits k n) = k.
Proof.
  revert n. induction k as [|k IH]; intros n; [reflexivity|].
  cbn [last_digits]. rewrite length_append, IH. cbn. lia.
Qed.

Lemma append_assoc (a b c : string) : (a ++ b) ++ c = a ++ (b ++ c).
Proof. induction a as [|x a IH]; cbn; [reflexivity|]. now rewrite IH. Qed.

Lemma append_empty_r (a : string) : a ++ EmptyString = a.
Proof. induction a as [|x a IH]; cbn; [reflexivity|]. now rewrite IH. Qed.

(** A number of [k] digits is its last [k] digits. *)
Lemma decimal_exact_digits (k : nat) (n : Z) :
  10 ^ Z.of_nat k <= n < 10 ^ Z.of_nat (S k) ->
  decimal n = last_digits (S k) n.
Proof.
  revert n. induction k as [|k IH]; intros n Hn.
  - change (10 ^ Z.of_nat 0) with 1 in Hn.
    change (10 ^ Z.of_nat 1) with 10 in Hn.
    rewrite decimal_unfold by lia.
    destruct (Z.ltb_spec n 10) as [_|H]; [|lia].
    cbn [last_digits append]. rewrite Z.mod_small by lia.
    apply digit_is_digit_char. lia.
  - rewrite !Nat2Z.inj_succ, !Z.pow_succ_r in Hn by lia.
    assert (H10 : 0 < 10 ^ Z.of_nat k) by (apply Z.pow_pos_nonneg; lia).
    rewrite decimal_unfold by lia.
    destruct (Z.ltb_spec n 10) as [H|_]; [lia|].
    change (last_digits (S (S k)) n)
      with (last_digits (S k) (n / 10)
            ++ String (digit_char (n mod 10)) EmptyString).
    rewrite IH.
    + f_equal. apply digit_is_digit_char.
      pose proof (Z.mod_pos_bound n 10). lia.
    + rewrite Nat2Z.inj_succ, Z.pow_succ_r by lia. split.
      * apply Z.div_le_lower_bound; lia.
      * apply Z.div_lt_upper_bound; lia.
Qed.

(** A longer number ends in its last [k] digits. *)
Lemma decimal_ends_in_last_digits (k : nat) (n : Z) :
  10 ^ Z.of_nat k <= n ->
  decimal n = decimal (n / 10 ^ Z.of_nat k) ++ last_digits k n.
Proof.
  revert n. induction k as [|k IH]; intros n Hn.
  - change (10 ^ Z.of_nat 0) with 1. rewrite Z.div_1_r.
    cbn [last_digits]. now rewrite append_empty_r.
  - rewrite Nat2Z.inj_succ, Z.pow_succ_r in * by lia.
    assert (H10 : 0 < 10 ^ Z.of_nat k) by (apply Z.pow_pos_nonneg; lia).
    rewrite (decimal_unfold n) by lia.
    destruct (Z.ltb_spec n 10) as [H|_]; [lia|].
    rewrite IH by (apply Z.div_le_lower_bound; lia).
    rewrite Z.div_div by lia.
    cbn [last_digits]. rewrite append_assoc. f_equal. f_equal.
    apply digit_is_digit_char. pose proof (Z.mod_pos_bound n 10). lia.
Qed.

Lemma slice_last_suffix (a b : string) :
  slice_last (String.length b) (a ++ b) = b.
Proof.
  unfold slice_last. rewrite length_append.
  replace (String.length a + String.length b - String.length b)%nat
    with (String.length a) by lia.
  apply substring_suffix.
Qed.

Lemma fresh_id_last_digits (env : Env) :
  10 ^ 9 <= env_now env + env_random env ->
  fresh_id env = last_digits 10 (env_now env + env_random env).
Proof.
  intros H. unfold fresh_id, decimal_signed.
  set (n := env_now env + env_random env) in *.
  destruct (Z.ltb_spec n 0) as [Hneg|_]; [lia|].
  destruct (Z.lt_ge_cases n (10 ^ 10)) as [Hlt|Hge].
  - rewrite (decimal_exact_digits 9 n) by (cbn; lia).
    unfold slice_last. rewrite length_last_digits.
    replace (10 - 10)%nat with 0%nat by lia.
    rewrite <- (length_last_digits 10 n) at 1. apply substring_all.
  - rewrite (decimal_ends_in_last_digits 10 n) by (cbn; lia).
    rewrite <- (length_last_digits 10 n) at 1. apply slice_last_suffix.
Qed.

Lemma digit_char_injective (a b : Z) :
  0 <= a <= 9 -> 0 <= b <= 9 -> digit_char a = digit_char b -> a = b.
Proof.
  intros Ha Hb.
  assert (Ha' : a = 0 \/ a = 1 \/ a = 2 \/ a = 3 \/ a = 4 \/ a = 5 \/ a = 6
                \/ a = 7 \/ a = 8 \/ a = 9) by lia.
  assert (Hb' : b = 0 \/ b = 1 \/ b = 2 \/ b = 3 \/ b = 4 \/ b = 5 \/ b = 6
                \/ b = 7 \/ b = 8 \/ b = 9) by lia.
  repeat (destruct Ha' as [->|Ha']; [|]); subst;
    repeat (destruct Hb' as [->|Hb']; [|]); subst;
    intros H; first [reflexivity|discriminate H].
Qed.

Lemma append_last_injective (a b : string) (x y : ascii) :
  a ++ String x EmptyString = b ++ String y EmptyString -> a = b /\ x = y.
Proof.
  revert b. induction a as [|c a IH]; intros [|d b] H; cbn in H.
  - inversion H. auto.
  - inversion H as [[Hc Hr]]. destruct b; discriminate.
  - inversion H as [[Hc Hr]]. destruct a; discriminate.
  - inversion H as [[Hc Hr]]. destruct (IH _ Hr) as [-> ->]. auto.
Qed.

(** Two numbers have the same last [k] digits when, and only when, they
    are congruent modulo [10^k]. *)
Lemma last_digits_congruent (k : nat) (a b : Z) :
  last_digits k a = last_digits k b <->
  a mod 10 ^ Z.of_nat k = b mod 10 ^ Z.of_nat k.
Proof.
  revert a b. induction k as [|k IH]; intros a b.
  - change (10 ^ Z.of_nat 0) with 1. rewrite !Z.mod_1_r. split; reflexivity.
  - rewrite Nat2Z.inj_succ, Z.pow_succ_r by lia.
    assert (H10 : 0 < 10 ^ Z.of_nat k) by (apply Z.pow_pos_nonneg; lia).
    rewrite !(Z.rem_mul_r _ 10) by lia.
    pose proof (Z.mod_pos_bound a 10 ltac:(lia)) as Ha.
    pose proof (Z.mod_pos_bound b 10 ltac:(lia)) as Hb.
    pose proof (Z.mod_pos_bound (a / 10) (10 ^ Z.of_nat k) H10) as Ha'.
    pose proof (Z.mod_pos_bound (b / 10) (10 ^ Z.of_nat k) H10) as Hb'.
    cbn [last_digits]. split.
    + intros H. apply append_last_injective in H. destruct H as [Hl Hd].
      apply IH in Hl. apply digit_char_injective in Hd; lia.
    + intros H.
      assert (Hd : a mod 10 = b mod 10) by lia.
      assert (Hl : (a / 10) mod 10 ^ Z.of_nat k
                   = (b / 10) mod 10 ^ Z.of_nat k) by lia.
      apply IH in Hl. now rewrite Hl, Hd.
Qed.

(** X1. The id of a new workout is the last ten decimal digits of
    [Date.now()] plus the random number, whenever that sum has at least ten
    digits (so from 12 January 1970 on): a string of exactly ten digits. *)
Theorem workout_id_is_last_ten_digits
    (env : Env) (latlng : Number * Number) (d t k : Number) :
  10 ^ 9 <= env_now env + env_random env ->
  id (new_Running env latlng d t k)
  = last_digits 10 (env_now env + env_random env) /\
  id (new_Cycling env latlng d t k)
  = last_digits 10 (env_now env + env_random env) /\
  String.length (id (new_Running env latlng d t k)) = 10%nat /\
  String.length (id (new_Cycling env latlng d t k)) = 10%nat.
Proof.
  intros H. pose proof (fresh_id_last_digits env H) as Hid.
  change (id (new_Running env latlng d t k)) with (fresh_id env).
  change (id (new_Cycling env latlng d t k)) with (fresh_id env).
  rewrite Hid, length_last_digits. auto.
Qed.

Lemma workout_id_is_last_ten_digits_witness :
  id Sample.a_run = "3698204690" /\ String.length (id Sample.a_run) = 10%nat.
Proof.
  destruct (workout_id_is_last_ten_digits Sample.env Sample.lisbon
              Sample.n5_2 (of_Z 24) (of_Z 178))
    as (H1 & _ & H3 & _).
  - vm_compute. discriminate.
  - split; [exact H1|exact H3].
Defined.

(** X2. Two workouts get the same id exactly when the sums of [Date.now()]
    and the random number from which their ids are made agree in their
    last ten digits, that is modulo 10^10, whatever their kinds and their
    data. *)
Theorem workout_ids_collide_iff
    (env env' : Env) (latlng latlng' : Number * Number)
    (d t k d' t' k' : Number) :
  10 ^ 9 <= env_now env + env_random env ->
  10 ^ 9 <= env_now env' + env_random env' ->
  (id (new_Running env latlng d t k) = id (new_Running env' latlng' d' t' k')
   <-> (env_now env + env_random env) mod 10 ^ 10
       = (env_now env' + env_random env') mod 10 ^ 10) /\
  (id (new_Running env latlng d t k) = id (new_Cycling env' latlng' d' t' k')
   <-> (env_now env + env_random env) mod 10 ^ 10
       = (env_now env' + env_random env') mod 10 ^ 10) /\
  (id (new_Cycling env latlng d t k) = id (new_Cycling env' latlng' d' t' k')
   <-> (env_now env + env_random env) mod 10 ^ 10
       = (env_now env' + env_random env') mod 10 ^ 10).
Proof.
  intros H H'.
  change (id (new_Running env latlng d t k)) with (fresh_id env).
  change (id (new_Cycling env latlng d t k)) with (fresh_id env).
  change (id (new_Running env' latlng' d' t' k')) with (fresh_id env').
  change (id (new_Cycling env' latlng' d' t' k')) with (fresh_id env').
  rewrite (fresh_id_last_digits env H), (fresh_id_last_digits env' H').
  pose proof (last_digits_congruent 10 (env_now env + env_random env)
                (env_now env' + env_random env')) as Hc.
  change (Z.of_nat 10) with 10 in Hc. auto.
Qed.

(** Two workouts made 2 ms apart collide when the random numbers differ by
    2 the other way; a millisecond apart with the same random number they
    do not. *)
Lemma workout_ids_collide_iff_witness :
  id (new_Running {| env_date := Sample.today; env_now := 1793698200123;
                     env_random := 4567 |}
        Sample.lisbon (of_Z 5) (of_Z 30) (of_Z 170))
  = id (new_Cycling {| env_date := Sample.today; env_now := 1793698200125;
                       env_random := 4565 |}
          Sample.lisbon (of_Z 20) (of_Z 60) (of_Z 100)).
Proof.
  apply (proj1 (proj2 (workout_ids_collide_iff
           {| env_date := Sample.today; env_now := 1793698200123;
              env_random := 4567 |}
           {| env_date := Sample.today; env_now := 1793698200125;
              env_random := 4565 |}
           Sample.lisbon Sample.lisbon (of_Z 5) (of_Z 30) (of_Z 170)
           (of_Z 20) (of_Z 60) (of_Z 100)
           ltac:(vm_compute; discriminate)
           ltac:(vm_compute; discriminate)))).
  reflexivity.
Defined.

(** ** Rendering a record *)

(** The list element and the marker of an instance. *)
Lemma render_inst_fields (w : Workout) (st : State) :
  _renderWorkout (Inst w) st
  = Normal
      (add_item
         {| item_type := Str (type w); item_id := Str (id w);
            item_title := optional Str (description w);
            item_running := isRunning w;
            item_distance := Num (distance w);
            item_duration := Num (duration w);
            item_metric := if isRunning w then optional Str (pace w)
                           else optional Str (speed w);
            item_detail := if isRunning w then optional Num (cadence w)
                           else optional Num (elevationGain w) |} st).
Proof.
  destruct w as [cls dt i n ll dist dur ty run cad elev pc sp descr].
  destruct cad, elev, pc, sp, descr, run; reflexivity.
Qed.

Lemma render_marker_inst_fields (w : Workout) (st : State) (m : LeafletMap) :
  map st = Some m ->
  _renderWorkoutMarker (Inst w) st
  = Normal
      (set_map
         {| view := (Arr [Num (fst (coords w)); Num (snd (coords w))],
                     mapZoomLevel);
            markers :=
              (markers m
               ++ [{| marker_at := Arr [Num (fst (coords w));
                                        Num (snd (coords w))];
                      popup := Opened (Str (type w)) (isRunning w)
                                 (optional Str (description w)) |}])%list |}
         st).
Proof.
  intros Hm. unfold _renderWorkoutMarker. rewrite Hm, get_inst_coords.
  destruct w as [cls dt i n ll dist dur ty run cad elev pc sp descr].
  destruct cad, elev, pc, sp, descr, run; reflexivity.
Qed.

Lemma template_storable (e : Entry) (key : string) :
  storable e = true -> template e key = get e key.
Proof.
  destruct e as [w|[]]; cbn [storable]; try discriminate; intros H.
  - apply template_inst.
  - apply template_object. apply andb_prop in H. destruct H as [_ H].
    apply Forall_forall. rewrite forallb_forall in H. exact H.
Qed.

Lemma get_entry_id (e : Entry) :
  is_record e = true -> get e "id" = Ok (entry_id e).
Proof.
  destruct e as [w|[]]; cbn [is_record]; try discriminate; intros _;
    [reflexivity|].
  cbn [get entry_id]. destruct (lookup "id" props); reflexivity.
Qed.

Lemma get_entry_coords (e : Entry) :
  is_record e = true -> get e "coords" = Ok (entry_coords e).
Proof.
  destruct e as [w|[]]; cbn [is_record]; try discriminate; intros _;
    [reflexivity|].
  cbn [get entry_coords]. destruct (lookup "coords" props); reflexivity.
Qed.

Lemma storable_is_record (e : Entry) :
  storable e = true -> is_record e = true.
Proof. destruct e as [w|[]]; cbn; congruence. Qed.

Lemma get_record (e : Entry) (key : string) :
  is_record e = true -> exists v, get e key = Ok v.
Proof.
  destruct e as [w|[]]; cbn [is_record]; try discriminate; intros _;
    cbn [get]; eauto.
Qed.

(** A storable record is rendered: its element shows its id. *)
Lemma render_storable (e : Entry) (st : State) :
  storable e = true ->
  exists it,
    _renderWorkout e st = Normal (add_item it st) /\
    item_id it = entry_id e.
Proof.
  intros He. pose proof (storable_is_record e He) as Hrec.
  unfold _renderWorkout.
  rewrite (template_storable e _ He).
  destruct (get_record e "type" Hrec) as [ty ->]. cbn [bind].
  rewrite (template_storable e _ He), (get_entry_id e Hrec). cbn [bind].
  rewrite (template_storable e _ He).
  destruct (get_record e "description" Hrec) as [title ->]. cbn [bind].
  destruct (get_record e "isRunning" Hrec) as [run ->]. cbn [bind].
  rewrite (template_storable e _ He).
  destruct (get_record e "distance" Hrec) as [dist ->]. cbn [bind].
  rewrite (template_storable e _ He).
  destruct (get_record e "duration" Hrec) as [dur ->]. cbn [bind].
  rewrite (template_storable e _ He).
  destruct (get_record e (if truthy run then "pace" else "speed") Hrec)
    as [metric ->]. cbn [bind].
  rewrite (template_storable e _ He).
  destruct (get_record e (if truthy run then "cadence" else "elevationGain")
              Hrec) as [detail ->].
  cbn [bind]. eexists. split; reflexivity.
Qed.

(** A storable record gets its marker, with an opened popup, and the view
    moves to it. *)
Lemma render_marker_storable (e : Entry) (st : State) (m : LeafletMap) :
  storable e = true -> map st = Some m ->
  exists mk,
    _renderWorkoutMarker e st
    = Normal (set_map {| view := (entry_coords e, mapZoomLevel);
                         markers := (markers m ++ [mk])%list |} st) /\
    marker_at mk = entry_coords e /\ opened mk = true.
Proof.
  intros He Hm. pose proof (storable_is_record e He) as Hrec.
  unfold _renderWorkoutMarker.
  rewrite (get_entry_coords e Hrec), Hm, (template_storable e "type" He).
  destruct (get_record e "type" Hrec) as [ty ->].
  destruct (get_record e "isRunning" Hrec) as [run ->]. cbn [bind].
  rewrite (template_storable e _ He).
  destruct (get_record e "description" Hrec) as [text ->]. cbn [bind].
  eexists. split; [reflexivity|]. split; reflexivity.
Qed.

Lemma forEach_render_storable (l : list Entry) (st : State) :
  forallb storable l = true ->
  exists st',
    forEach _renderWorkout l st = Normal st' /\
    List.map item_id (items st')
    = (rev (List.map entry_id l) ++ List.map item_id (items st))%list /\
    workouts st' = workouts st /\ map st' = map st /\
    mapEvnt st' = mapEvnt st /\ storage st' = storage st /\
    alerts st' = alerts st /\ form_hidden st' = form_hidden st.
Proof.
  revert st. induction l as [|e l IH]; intros st Hl.
  - exists st. repeat split.
  - cbn [forallb] in Hl. apply andb_prop in Hl. destruct Hl as [He Hl].
    destruct (render_storable e st He) as (it & Hrun & Hid).
    destruct (IH (add_item it st) Hl)
      as (st' & Hrest & Hitems & H1 & H2 & H3 & H4 & H5 & H6).
    exists st'. cbn [forEach]. rewrite Hrun. cbn [then_].
    split; [exact Hrest|]. split; [|repeat split; assumption].
    rewrite Hitems. cbn [add_item items List.map rev].
    rewrite Hid, <- app_assoc. reflexivity.
Qed.

Lemma last_skips_default {A : Type} (l : list A) (x a b : A) :
  last (a :: x :: l) b = last (x :: l) a.
Proof.
  change (last (a :: x :: l) b) with (last (x :: l) b).
  revert x. induction l as [|y l IH]; intros x; [reflexivity|].
  change (last (x :: y :: l) b) with (last (y :: l) b).
  change (last (x :: y :: l) a) with (last (y :: l) a).
  apply IH.
Qed.

Lemma forEach_marker_storable (l : list Entry) (st : State)
    (m : LeafletMap) :
  forallb storable l = true -> map st = Some m ->
  exists st' m',
    forEach _renderWorkoutMarker l st = Normal st' /\
    map st' = Some m' /\
    List.map marker_at (markers m')
    = (List.map marker_at (markers m) ++ List.map entry_coords l)%list /\
    forallb opened (markers m')
    = forallb opened (markers m) /\
    view m' = last (List.map (fun e => (entry_coords e, mapZoomLevel)) l)
                (view m) /\
    workouts st' = workouts st /\ items st' = items st /\
    mapEvnt st' = mapEvnt st /\ storage st' = storage st /\
    alerts st' = alerts st /\ form_hidden st' = form_hidden st.
Proof.
  revert st m. induction l as [|e l IH]; intros st m Hl Hm.
  - exists st, m. cbn [forEach List.map last]. rewrite app_nil_r.
    repeat split. exact Hm.
  - cbn [forallb] in Hl. apply andb_prop in Hl. destruct Hl as [He Hl].
    destruct (render_marker_storable e st m He Hm) as (mk & Hrun & Hat & Hop).
    destruct (IH (set_map {| view := (entry_coords e, mapZoomLevel);
                             markers := (markers m ++ [mk])%list |} st)
                {| view := (entry_coords e, mapZoomLevel);
                   markers := (markers m ++ [mk])%list |} Hl eq_refl)
      as (st' & m' & Hrest & Hm' & Hmk & Hopen & Hview & H1 & H2 & H3 & H4
          & H5 & H6).
    exists st', m'. cbn [forEach]. rewrite Hrun. cbn [then_].
    split; [exact Hrest|]. split; [exact Hm'|].
    cbn [markers view] in Hmk, Hopen, Hview.
    split; [|split; [|split; [|repeat split; assumption]]].
    + rewrite Hmk, List.map_app. cbn [List.map]. rewrite Hat.
      rewrite <- app_assoc. reflexivity.
    + rewrite Hopen, forallb_app. cbn [forallb]. rewrite Hop.
      now rewrite !andb_true_r.
    + rewrite Hview. cbn [List.map].
      destruct l as [|e' l]; [reflexivity|]. cbn [List.map].
      symmetry. apply last_skips_default.
Qed.

(** ** The steps of the handlers *)

Lemma find_id_nth (target : string) (l : list Entry) (pos p : nat)
    (e : Entry) :
  find_id target l pos = Ok (Some (p, e)) ->
  exists n, p = (pos + n)%nat /\ nth_error l n = Some e.
Proof.
  revert pos. induction l as [|x l IH]; intros pos H; [discriminate|].
  cbn [find_id] in H. destruct (get x "id") as [v|]; [|discriminate].
  cbn [bind] in H. destruct (strict_eq_string v target).
  - inversion H; subst. exists 0%nat. split; [lia|reflexivity].
  - destruct (IH _ H) as (n & -> & Hn). exists (S n). split; [lia|exact Hn].
Qed.

Lemma map_replace_nth {B : Type} (f : Entry -> B) (n : nat) (x y : Entry)
    (l : list Entry) :
  nth_error l n = Some y -> f x = f y ->
  List.map f (replace_nth n x l) = List.map f l.
Proof.
  intros Hn Hf. revert n Hn. induction l as [|z l IH]; intros n Hn.
  - destruct n; discriminate.
  - destruct n as [|n]; cbn [nth_error] in Hn; cbn [replace_nth List.map].
    + inversion Hn; subst. now rewrite Hf.
    + now rewrite (IH n Hn).
Qed.

Lemma forEach_preserves {A : Type} (g : State -> A)
    (f : Entry -> State -> Completion) (l : list Entry) :
  (forall e st, g (final (f e st)) = g st) ->
  forall st, g (final (forEach f l st)) = g st.
Proof.
  intros Hf. induction l as [|e l IH]; intros st; [reflexivity|].
  cbn [forEach]. pose proof (Hf e st) as H.
  destruct (f e st) as [st1|err st1]; cbn [then_ final] in *.
  - now rewrite IH.
  - exact H.
Qed.

Lemma render_preserves {A : Type} (g : State -> A) :
  (forall it st, g (add_item it st) = g st) ->
  forall e st, g (final (_renderWorkout e st)) = g st.
Proof.
  intros Hg e st. unfold _renderWorkout.
  match goal with |- context [match ?r with Ok _ => _ | Throws _ => _ end] =>
    destruct r end; cbn [final]; [apply Hg|reflexivity].
Qed.

Lemma render_marker_preserves {A : Type} (g : State -> A) :
  (forall m st, g (set_map m st) = g st) ->
  forall e st, g (final (_renderWorkoutMarker e st)) = g st.
Proof.
  intros Hg e st. unfold _renderWorkoutMarker.
  destruct (get e "coords"); [|reflexivity].
  destruct (map st); [|reflexivity].
  destruct (template e "type"); cbn [final]; [|apply Hg].
  destruct (get e "isRunning"); cbn [bind final]; [|apply Hg].
  destruct (template e "description"); cbn [bind final]; apply Hg.
Qed.

(** The steps of [_newWorkout] for the two kinds of the form: it throws
    before anything else when the map was not clicked; or it rejects the
    inputs; or it appends the new instance, renders it and saves. *)
Lemma newWorkout_cases (env : Env) (form : Form) (st : State) :
  inputType form = "running" \/ inputType form = "cycling" ->
  (mapEvnt st = None /\ _newWorkout env form st = Abrupt TypeError st) \/
  _newWorkout env form st = Normal (alert rejection st) \/
  exists latlng w,
    mapEvnt st = Some latlng /\
    (w = new_Running env latlng (inputDistance form) (inputDuration form)
           (inputCadence form)
     /\ validInputs [inputDistance form; inputDuration form;
                     inputCadence form] = true
     \/
     w = new_Cycling env latlng (inputDistance form) (inputDuration form)
           (inputElevation form)
     /\ validInputs [inputDistance form; inputDuration form;
                     inputElevation form] = true) /\
    _newWorkout env form st
    = then_ (_renderWorkout (Inst w)
               (set_workouts (workouts st ++ [Inst w])%list st))
        (fun st => then_ (_renderWorkoutMarker (Inst w) st)
           (fun st => Normal (_setLocalStorage (_hideForm st)))).
Proof.
  intros Hty. unfold _newWorkout.
  destruct (mapEvnt st) as [latlng|]; [|left; split; reflexivity].
  right.
  destruct Hty as [Hty|Hty]; rewrite Hty; cbn [String.eqb Ascii.eqb Bool.eqb].
  - destruct (validInputs _) eqn:Hv; cbn [negb orb]; [|left; reflexivity].
    destruct (negb (allPositive _)); [left; reflexivity|].
    right. eexists _, _. split; [reflexivity|]. split; [|reflexivity].
    left. split; reflexivity.
  - destruct (validInputs _) eqn:Hv; cbn [negb orb]; [|left; reflexivity].
    destruct (negb (allPositive _)); [left; reflexivity|].
    right. eexists _, _. split; [reflexivity|]. split; [|reflexivity].
    right. split; reflexivity.
Qed.

(** What follows the validation of an accepted submission, with and
    without a map. *)
Lemma submission_effect (w : Workout) (st : State) :
  let st0 := set_workouts (workouts st ++ [Inst w])%list st in
  let it :=
    {| item_type := Str (type w); item_id := Str (id w);
       item_title := optional Str (description w);
       item_running := isRunning w;
       item_distance := Num (distance w);
       item_duration := Num (duration w);
       item_metric := if isRunning w then optional Str (pace w)
                      else optional Str (speed w);
       item_detail := if isRunning w then optional Num (cadence w)
                      else optional Num (elevationGain w) |} in
  let c := then_ (_renderWorkout (Inst w) st0) (fun st =>
           then_ (_renderWorkoutMarker (Inst w) st) (fun st =>
           Normal (_setLocalStorage (_hideForm st)))) in
  match map st with
  | Some m =>
      c = Normal
            {| workouts := (workouts st ++ [Inst w])%list;
               map := Some
                 {| view := (Arr [Num (fst (coords w)); Num (snd (coords w))],
                             mapZoomLevel);
                    markers :=
                      (markers m
                       ++ [{| marker_at := Arr [Num (fst (coords w));
                                                Num (snd (coords w))];
                              popup := Opened (Str (type w)) (isRunning w)
                                         (optional Str (description w)) |}])%list
                 |};
               mapEvnt := mapEvnt st;
               storage := Some (stringify_workouts (workouts st ++ [Inst w]));
               items := it :: items st;
               form_hidden := true;
               alerts := alerts st |}
  | None => c = Abrupt TypeError (add_item it st0)
  end.
Proof.
  intros st0 it c. subst c. rewrite render_inst_fields. cbn [then_].
  fold it. destruct (map st) as [m|] eqn:Hm.
  - rewrite (render_marker_inst_fields w (add_item it st0) m) by exact Hm.
    reflexivity.
  - unfold _renderWorkoutMarker. rewrite get_inst_coords.
    cbn [add_item map st0 set_workouts]. rewrite Hm. reflexivity.
Qed.

(** The steps of [_moveToPopup]: it stops with the state untouched, or it
    moves the view and then counts a click on an instance. *)
Lemma moveToPopup_cases (target : option string) (st : State) :
  final (_moveToPopup target st) = st \/
  exists m n e c,
    map st = Some m /\ nth_error (workouts st) n = Some e /\
    get e "coords" = Ok c /\
    let st1 := set_map {| view := (c, mapZoomLevel);
                          markers := markers m |} st in
    match e with
    | Inst w =>
        _moveToPopup target st
        = Normal (set_workouts (replace_nth n (Inst (click w)) (workouts st))
                    st1)
    | Data _ => _moveToPopup target st = Abrupt TypeError st1
    end.
Proof.
  unfold _moveToPopup. destruct target as [target|]; [|left; reflexivity].
  destruct (find_id target (workouts st) 0) as [found|err] eqn:Hfind;
    [|left; reflexivity].
  destruct (map st) as [m|]; [|left; reflexivity].
  destruct found as [[pos e]|]; [|left; reflexivity].
  destruct (get e "coords") as [c|err] eqn:Hc; [|left; reflexivity].
  right. destruct (find_id_nth _ _ _ _ _ Hfind) as (n & -> & Hn).
  exists m, n, e, c. split; [reflexivity|]. split; [exact Hn|].
  split; [exact Hc|]. destruct e as [w|v]; reflexivity.
Qed.

(** ** The list and the markers show the store *)

(** X3. In every reachable state the list shows one element for each
    record of the store, the newest first, each with the id of its
    record. *)
Theorem list_shows_store (st : State) :
  reachable st ->
  List.map item_id (items st) = rev (List.map entry_id (workouts st)).
Proof.
  induction 1 as [|st Hr IH|st Hr IH|st position Hr IH|st latlng Hr IH Hll
                  |st env form Hr IH Hty|st target Hr IH].
  - reflexivity.
  - destruct (reachable_invariant _ Hr) as (_ & I2 & _).
    unfold _getLocalStorage. cbn [initial storage].
    destruct (storage st) as [elems|]; [|reflexivity].
    destruct I2 as (ws & Hws & ->).
    set (data := List.map (fun j => Data (parse j)) (stringify_workouts ws)).
    set (st0 := set_workouts _ _).
    assert (Hdata : forallb storable data = true).
    { apply forallb_forall. intros e He. subst data.
      rewrite stringify_workouts_map, List.map_map in He.
      apply in_map_iff in He. destruct He as (e0 & <- & He0).
      apply reload_is_storable. rewrite forallb_forall in Hws.
      apply Hws, He0. }
    change (workouts st0) with data.
    destruct (forEach_render_storable data st0 Hdata)
      as (st' & Hrun & Hitems & Hstore & _).
    rewrite Hrun. cbn [final]. rewrite Hitems, Hstore.
    cbn [st0 set_workouts workouts items initial List.map].
    now rewrite app_nil_r.
  - exact IH.
  - unfold _loadMap. set (st0 := set_map _ st).
    rewrite (forEach_preserves workouts), (forEach_preserves items);
      [exact IH| |];
      apply render_marker_preserves; reflexivity.
  - exact IH.
  - destruct (newWorkout_cases env form st Hty)
      as [[_ ->]|[->|(latlng & w & _ & _ & ->)]]; [exact IH|exact IH|].
    pose proof (submission_effect w st) as Hc. cbv zeta in Hc.
    destruct (map st); rewrite Hc; cbn [final];
      cbn [add_item set_workouts workouts items List.map];
      rewrite List.map_app, rev_app_distr, IH; reflexivity.
  - destruct (moveToPopup_cases target st)
      as [->|(m & n & e & c & _ & Hn & _ & Hrun)]; [exact IH|].
    destruct e as [w|v]; cbv zeta in Hrun; rewrite Hrun; cbn [final];
      cbn [set_workouts set_map workouts items]; [|exact IH].
    rewrite (map_replace_nth entry_id n _ (Inst w)); [exact IH|exact Hn|].
    reflexivity.
Qed.

(** X4. In every reachable state in which the map has loaded, the map
    carries one marker for each record of the store, in the order of the
    store, at the coordinates of its record, and every popup has its
    content and is open. *)
Theorem markers_show_store (st : State) (m : LeafletMap) :
  reachable st -> map st = Some m ->
  List.map marker_at (markers m) = List.map entry_coords (workouts st) /\
  forallb opened (markers m) = true.
Proof.
  intros Hr. revert m.
  induction Hr as [|st Hr IH|st Hr IH|st position Hr IH|st latlng Hr IH Hll
                   |st env form Hr IH Hty|st target Hr IH]; intros m' Hm'.
  - discriminate.
  - unfold _getLocalStorage in Hm'. cbn [initial storage] in Hm'.
    destruct (storage st); [|discriminate].
    rewrite (forEach_preserves map) in Hm'; [discriminate|].
    apply render_preserves. reflexivity.
  - exact (IH _ Hm').
  - destruct (reachable_invariant _ Hr) as (I1 & _).
    unfold _loadMap in *. set (st0 := set_map _ st) in *.
    change (workouts st0) with (workouts st) in *.
    destruct (forEach_marker_storable (workouts st) st0 _ I1 eq_refl)
      as (st' & m1 & Hrun & Hm1 & Hmk & Hop & _ & Hstore & _).
    rewrite Hrun in *. cbn [final] in *. rewrite Hm1 in Hm'.
    inversion Hm'; subst m'. rewrite Hmk, Hop, Hstore. split; reflexivity.
  - exact (IH _ Hm').
  - destruct (newWorkout_cases env form st Hty)
      as [[_ Hc]|[Hc|(latlng & w & _ & _ & Hc)]]; rewrite Hc in *;
      [exact (IH _ Hm')|exact (IH _ Hm')|].
    pose proof (submission_effect w st) as Heff. cbv zeta in Heff.
    destruct (map st) as [m|] eqn:Hm; rewrite Heff in *; cbn [final] in *.
    + cbn [map workouts] in *. inversion Hm'; subst m'. cbn [markers].
      destruct (IH m eq_refl) as [IHat IHop].
      rewrite !List.map_app, forallb_app, IHat, IHop. split; reflexivity.
    + cbn [add_item set_workouts map] in Hm'. congruence.
  - destruct (moveToPopup_cases target st)
      as [Heq|(m & n & e & c & Hm & Hn & _ & Hrun)];
      [rewrite Heq in *; exact (IH _ Hm')|].
    destruct (IH m Hm) as [IHat IHop].
    destruct e as [w|v]; cbv zeta in Hrun; rewrite Hrun in *;
      cbn [final set_workouts set_map workouts map] in *;
      inversion Hm'; subst m'; cbn [markers]; (split; [|exact IHop]).
    + rewrite (map_replace_nth entry_coords n _ (Inst w));
        [exact IHat|exact Hn|reflexivity].
    + exact IHat.
Qed.

(** ** An accepted submission *)

Lemma json_number_positive (x : Number) :
  isFinite x = true -> gt x (of_Z 0) = true -> json_number x = JNumber x.
Proof.
  intros Hf Hp. destruct (positive_finite x Hf Hp) as (m & e & ->).
  reflexivity.
Qed.

Lemma saved_members_of_run (env : Env) (latlng : Number * Number)
    (d t c : Number) :
  let w := new_Running env latlng d t c in
  exists members,
    stringify (entry_value (Inst w)) = Some (JObject members) /\
    member "id" members = Some (JString (id w)) /\
    member "type" members = Some (JString "running") /\
    member "distance" members = Some (json_number d) /\
    member "duration" members = Some (json_number t) /\
    member "clicks" members = Some (JNumber (of_Z 0)) /\
    member "pace" members = option_map JString (pace w) /\
    member "speed" members = None /\
    member "description" members = option_map JString (description w).
Proof.
  intros w. eexists. split; [reflexivity|]. repeat split.
Qed.

Lemma saved_members_of_ride (env : Env) (latlng : Number * Number)
    (d t c : Number) :
  let w := new_Cycling env latlng d t c in
  exists members,
    stringify (entry_value (Inst w)) = Some (JObject members) /\
    member "id" members = Some (JString (id w)) /\
    member "type" members = Some (JString "cycling") /\
    member "distance" members = Some (json_number d) /\
    member "duration" members = Some (json_number t) /\
    member "clicks" members = Some (JNumber (of_Z 0)) /\
    member "pace" members = None /\
    member "speed" members = option_map JString (speed w) /\
    member "description" members = option_map JString (description w).
Proof.
  intros w. eexists. split; [reflexivity|]. repeat split.
Qed.

Lemma valid_positive_three (a b c : Number) :
  validInputs [a; b; c] = true ->
  isFinite a = true /\ isFinite b = true /\ isFinite c = true.
Proof.
  unfold validInputs. cbn [forallb]. rewrite !andb_true_iff. tauto.
Qed.

Lemma all_positive_two (a b : Number) (rest : list Number) :
  allPositive (a :: b :: rest) = true ->
  gt a (of_Z 0) = true /\ gt b (of_Z 0) = true.
Proof.
  unfold allPositive. cbn [forallb]. rewrite !andb_true_iff. tauto.
Qed.

(** X5. An accepted submission, once the map has loaded and was clicked:
    the new record goes to the end of the store; its element, with its id,
    description, distance, duration, pace or speed and cadence or
    elevation gain, goes to the top of the list; its marker, with an open
    popup that shows the description, goes to the map, which is centred on
    it; the form is hidden; and the saved data has one element for each
    record of the store, the last one being the new record with its id,
    type, distance, duration, pace or speed, description and zero
    clicks. *)
Theorem accepted_submission_effects
    (env : Env) (form : Form) (st : State)
    (latlng : Number * Number) (m : LeafletMap) (w : Workout) :
  mapEvnt st = Some latlng ->
  map st = Some m ->
  (inputType form = "running" /\
     validInputs [inputDistance form; inputDuration form; inputCadence form]
       = true /\
     allPositive [inputDistance form; inputDuration form; inputCadence form]
       = true /\
     w = new_Running env latlng (inputDistance form) (inputDuration form)
           (inputCadence form))
  \/
  (inputType form = "cycling" /\
     validInputs [inputDistance form; inputDuration form; inputElevation form]
       = true /\
     allPositive [inputDistance form; inputDuration form] = true /\
     w = new_Cycling env latlng (inputDistance form) (inputDuration form)
           (inputElevation form)) ->
  exists st' it mk saved members,
    _newWorkout env form st = Normal st' /\
    workouts st' = (workouts st ++ [Inst w])%list /\
    items st' = it :: items st /\
    item_id it = Str (id w) /\
    item_title it = optional Str (description w) /\
    item_distance it = Num (inputDistance form) /\
    item_duration it = Num (inputDuration form) /\
    item_metric it = optional Str (if isRunning w then pace w else speed w) /\
    item_detail it
    = Num (if isRunning w then inputCadence form else inputElevation form) /\
    map st'
    = Some {| view := (Arr [Num (fst latlng); Num (snd latlng)],
                       mapZoomLevel);
              markers := (markers m ++ [mk])%list |} /\
    marker_at mk = Arr [Num (fst latlng); Num (snd latlng)] /\
    popup mk
    = Opened (Str (type w)) (isRunning w) (optional Str (description w)) /\
    form_hidden st' = true /\ alerts st' = alerts st /\
    storage st' = Some saved /\
    List.length saved = S (List.length (workouts st)) /\
    nth_error saved (List.length (workouts st)) = Some (JObject members) /\
    member "id" members = Some (JString (id w)) /\
    member "type" members = Some (JString (type w)) /\
    member "distance" members = Some (JNumber (inputDistance form)) /\
    member "duration" members = Some (JNumber (inputDuration form)) /\
    member "clicks" members = Some (JNumber (of_Z 0)) /\
    member "pace" members = option_map JString (pace w) /\
    member "speed" members = option_map JString (speed w) /\
    member "description" members = option_map JString (description w).
Proof.
  intros Hev Hm Hform.
  pose proof (submission_effect w st) as Hc. cbv zeta in Hc.
  rewrite Hm in Hc.
  assert (Hrun : _newWorkout env form st
                 = then_ (_renderWorkout (Inst w)
                            (set_workouts (workouts st ++ [Inst w])%list st))
                     (fun st => then_ (_renderWorkoutMarker (Inst w) st)
                        (fun st => Normal (_setLocalStorage (_hideForm st))))).
  { unfold _newWorkout. rewrite Hev.
    destruct Hform as [(Hty & Hv & Hp & ->)|(Hty & Hv & Hp & ->)];
      rewrite Hty; cbn [String.eqb Ascii.eqb Bool.eqb];
      rewrite Hv, Hp; reflexivity. }
  rewrite Hc in Hrun. clear Hc.
  assert (Hsaved : exists members,
             stringify (entry_value (Inst w)) = Some (JObject members) /\
             member "id" members = Some (JString (id w)) /\
             member "type" members = Some (JString (type w)) /\
             member "distance" members = Some (JNumber (inputDistance form))
             /\
             member "duration" members = Some (JNumber (inputDuration form))
             /\
             member "clicks" members = Some (JNumber (of_Z 0)) /\
             member "pace" members = option_map JString (pace w) /\
             member "speed" members = option_map JString (speed w) /\
             member "description" members
             = option_map JString (description w)).
  { destruct Hform as [(_ & Hv & Hp & ->)|(_ & Hv & Hp & ->)];
      destruct (valid_positive_three _ _ _ Hv) as (Hd & Ht & _);
      destruct (all_positive_two _ _ _ Hp) as (Hdp & Htp).
    - destruct (saved_members_of_run env latlng (inputDistance form)
                  (inputDuration form) (inputCadence form))
        as (ms & H0 & H1 & H2 & H3 & H4 & H5 & H6 & H7 & H8).
      rewrite (json_number_positive _ Hd Hdp) in H3.
      rewrite (json_number_positive _ Ht Htp) in H4.
      exists ms. repeat split; assumption.
    - destruct (saved_members_of_ride env latlng (inputDistance form)
                  (inputDuration form) (inputElevation form))
        as (ms & H0 & H1 & H2 & H3 & H4 & H5 & H6 & H7 & H8).
      rewrite (json_number_positive _ Hd Hdp) in H3.
      rewrite (json_number_positive _ Ht Htp) in H4.
      exists ms. repeat split; assumption. }
  destruct Hsaved as (members & Hj & Hmembers).
  eexists. eexists. eexists. exists (stringify_workouts (workouts st ++ [Inst w])).
  exists members.
  split; [exact Hrun|]. cbn [workouts items map form_hidden alerts storage].
  assert (Hfields :
    coords w = latlng /\ distance w = inputDistance form /\
    duration w = inputDuration form /\
    (if isRunning w then optional Num (cadence w)
     else optional Num (elevationGain w))
    = Num (if isRunning w then inputCadence form else inputElevation form) /\
    (if isRunning w then optional Str (pace w) else optional Str (speed w))
    = optional Str (if isRunning w then pace w else speed w)).
  { destruct Hform as [(_ & _ & _ & ->)|(_ & _ & _ & ->)];
      repeat split. }
  destruct Hfields as (Hco & Hdi & Hdu & Hde & Hme).
  cbn [item_id item_title item_distance item_duration item_metric
       item_detail marker_at popup].
  rewrite Hco, Hdi, Hdu, Hde, Hme.
  repeat (split; [reflexivity|]).
  rewrite stringify_workouts_map, List.map_app, length_app, length_map.
  cbn [List.map List.length]. split; [lia|].
  split; [|exact Hmembers].
  rewrite nth_error_app2 by (rewrite length_map; lia).
  rewrite length_map, Nat.sub_diag. cbn [nth_error]. now rewrite Hj.
Qed.

Lemma accepted_submission_effects_witness :
  exists st' it saved,
    _newWorkout Sample.env Sample.run_form Sample.ready = Normal st' /\
    items st' = [it] /\ item_metric it = Str "4.6" /\
    storage st' = Some saved /\ List.length saved = 1%nat.
Proof.
  destruct (accepted_submission_effects Sample.env Sample.run_form
              Sample.ready Sample.lisbon Sample.the_map Sample.a_run
              eq_refl eq_refl
              (or_introl (conj eq_refl (conj eq_refl (conj eq_refl eq_refl)))))
    as (st' & it & mk & saved & members & Hrun & _ & Hitems & _ & _ & _ & _
        & Hmetric & _ & _ & _ & _ & _ & _ & Hsaved & Hlen & _).
  exists st', it, saved. split; [exact Hrun|]. split; [exact Hitems|].
  split; [exact Hmetric|]. split; [exact Hsaved|exact Hlen].
Defined.

(** ** An undefined entry and the next page load *)

Lemma forEach_app (f : Entry -> State -> Completion) (l l' : list Entry)
    (st : State) :
  forEach f (l ++ l')%list st = then_ (forEach f l st) (forEach f l').
Proof.
  revert st. induction l as [|e l IH]; intros st; [reflexivity|].
  cbn [app forEach]. destruct (f e st) as [st1|err st1]; cbn [then_];
    [apply IH|reflexivity].
Qed.

(** X6. Once [undefined] is in the store (C9), the next accepted submission
    saves it as [null], and from then on every page load throws a
    TypeError when it comes to that entry: the store is assigned, the
    entries before the [null] are listed, the others are not. *)
Theorem undefined_entry_breaks_reload
    (env : Env) (form : Form) (st : State)
    (latlng : Number * Number) (m : LeafletMap) (w : Workout)
    (l1 l2 : list Entry) :
  mapEvnt st = Some latlng ->
  map st = Some m ->
  workouts st = (l1 ++ Data Undefined :: l2)%list ->
  forallb storable l1 = true ->
  (inputType form = "running" /\
     validInputs [inputDistance form; inputDuration form; inputCadence form]
       = true /\
     allPositive [inputDistance form; inputDuration form; inputCadence form]
       = true /\
     w = new_Running env latlng (inputDistance form) (inputDuration form)
           (inputCadence form))
  \/
  (inputType form = "cycling" /\
     validInputs [inputDistance form; inputDuration form; inputElevation form]
       = true /\
     allPositive [inputDistance form; inputDuration form] = true /\
     w = new_Cycling env latlng (inputDistance form) (inputDuration form)
           (inputElevation form)) ->
  exists st' st'',
    _newWorkout env form st = Normal st' /\
    _getLocalStorage (initial (storage st')) = Abrupt TypeError st'' /\
    List.length (workouts st'') = S (List.length (workouts st)) /\
    nth_error (workouts st'') (List.length l1) = Some (Data Null) /\
    List.length (items st'') = List.length l1.
Proof.
  intros Hev Hm Hws Hl1 Hform.
  pose proof (submission_effect w st) as Hc. cbv zeta in Hc.
  rewrite Hm in Hc.
  assert (Hrun : _newWorkout env form st
                 = then_ (_renderWorkout (Inst w)
                            (set_workouts (workouts st ++ [Inst w])%list st))
                     (fun st => then_ (_renderWorkoutMarker (Inst w) st)
                        (fun st => Normal (_setLocalStorage (_hideForm st))))).
  { unfold _newWorkout. rewrite Hev.
    destruct Hform as [(Hty & Hv & Hp & ->)|(Hty & Hv & Hp & ->)];
      rewrite Hty; cbn [String.eqb Ascii.eqb Bool.eqb];
      rewrite Hv, Hp; reflexivity. }
  rewrite Hc in Hrun. clear Hc.
  match type of Hrun with _ = Normal ?s => exists s end.
  cbn [storage]. unfold _getLocalStorage. cbn [initial storage].
  set (load := fun e => Data (parse match stringify (entry_value e) with
                                    | Some j => j
                                    | None => JNull
                                    end)).
  assert (Hdata :
    List.map (fun j => Data (parse j))
      (stringify_workouts (workouts st ++ [Inst w]))
    = (List.map load l1 ++ Data Null :: List.map load (l2 ++ [Inst w]))%list).
  { rewrite stringify_workouts_map, List.map_map, Hws.
    rewrite <- app_assoc, List.map_app. reflexivity. }
  rewrite Hdata. set (st0 := set_workouts _ _).
  cbn [st0 set_workouts workouts]. fold st0.
  rewrite forEach_app.
  assert (Hl1' : forallb storable (List.map load l1) = true).
  { apply forallb_forall. intros e He. apply in_map_iff in He.
    destruct He as (e0 & <- & He0). apply reload_is_storable.
    rewrite forallb_forall in Hl1. apply Hl1, He0. }
  destruct (forEach_render_storable (List.map load l1) st0 Hl1')
    as (st1 & Hst1 & Hitems & Hstore & _).
  exists st1. split; [exact Hrun|].
  rewrite Hst1. cbn [then_ forEach].
  change (_renderWorkout (Data Null) st1) with (Abrupt TypeError st1).
  cbn [then_]. split; [reflexivity|].
  apply (f_equal (@List.length Value)) in Hitems.
  rewrite !length_app, !length_map, length_rev, !length_map in Hitems.
  rewrite Hstore. cbn [st0 set_workouts workouts items initial] in *.
  rewrite Hws. split; [|split].
  - rewrite !length_app. cbn [List.length].
    rewrite !length_map, length_app. cbn [List.length]. lia.
  - rewrite nth_error_app2 by (rewrite length_map; lia).
    rewrite length_map, Nat.sub_diag. reflexivity.
  - cbn [List.length] in Hitems. lia.
Qed.

Lemma undefined_entry_breaks_reload_witness :
  exists st' st'',
    _newWorkout Sample.env Sample.ride_form
      (set_workouts [Inst Sample.earlier_run; Data Undefined] Sample.ready)
    = Normal st' /\
    _getLocalStorage (initial (storage st')) = Abrupt TypeError st'' /\
    List.length (workouts st'') = 3%nat /\
    List.length (items st'') = 1%nat.
Proof.
  destruct (undefined_entry_breaks_reload Sample.env Sample.ride_form
              (set_workouts [Inst Sample.earlier_run; Data Undefined]
                 Sample.ready)
              Sample.lisbon Sample.the_map Sample.a_ride
              [Inst Sample.earlier_run] [] eq_refl eq_refl eq_refl eq_refl
              (or_intror (conj eq_refl (conj eq_refl (conj eq_refl eq_refl)))))
    as (st' & st'' & H1 & H2 & H3 & _ & H5).
  exists st', st''. auto.
Defined.

(** ** The store only grows *)

Lemma kept_all (l : list Entry) : Forall2 kept l l.
Proof. induction l; constructor; [left; reflexivity|assumption]. Qed.

Lemma extends_same (l : list Entry) : extends l l.
Proof.
  exists l, []. rewrite app_nil_r. split; [reflexivity|].
  split; [apply kept_all|cbn; lia].
Qed.

Lemma extends_one (l : list Entry) (x : Entry) : extends l (l ++ [x])%list.
Proof.
  exists l, [x]. split; [reflexivity|]. split; [apply kept_all|cbn; lia].
Qed.

Lemma kept_click (w : Workout) : kept (Inst w) (Inst (click w)).
Proof.
  destruct (Z.ltb_spec (clicks w) (2 ^ 53)) as [Hlt|Hge].
  - right. exists w, (click w). split; [reflexivity|]. split; [reflexivity|].
    split; [|repeat split].
    cbn [click clicks]. unfold increment.
    destruct (Z.ltb_spec (clicks w) (2 ^ 53)); [reflexivity|lia].
  - left. f_equal.
    destruct w as [cls dt i n ll dist dur ty run cad elev pc sp descr].
    unfold click, increment. cbn [clicks] in *.
    destruct (Z.ltb_spec n (2 ^ 53)); [lia|reflexivity].
Qed.

Lemma kept_replace_nth (n : nat) (w : Workout) (l : list Entry) :
  nth_error l n = Some (Inst w) ->
  Forall2 kept l (replace_nth n (Inst (click w)) l).
Proof.
  revert n. induction l as [|x l IH]; intros n Hn.
  - destruct n; discriminate.
  - destruct n as [|n]; cbn [nth_error] in Hn; cbn [replace_nth].
    + inversion Hn; subst. constructor; [apply kept_click|apply kept_all].
    + constructor; [left; reflexivity|apply IH, Hn].
Qed.

Lemma submission_keeps_store (x : Entry) (st0 : State) :
  workouts
    (final (then_ (_renderWorkout x st0) (fun st =>
            then_ (_renderWorkoutMarker x st) (fun st =>
            Normal (_setLocalStorage (_hideForm st))))))
  = workouts st0.
Proof.
  pose proof (render_preserves workouts (fun _ _ => eq_refl) x st0) as H1.
  destruct (_renderWorkout x st0) as [st1|err st1]; cbn [then_ final] in *;
    [|exact H1].
  pose proof (render_marker_preserves workouts (fun _ _ => eq_refl) x st1)
    as H2.
  destruct (_renderWorkoutMarker x st1) as [st2|err st2];
    cbn [then_ final] in *; [|congruence].
  cbn [_setLocalStorage _hideForm workouts]. congruence.
Qed.

(** X7. No handler of a session removes, reorders or edits a record: after
    a submission, a click on the list or on the map, or the answer of the
    geolocation service, every entry of the store is where it was, the
    same entry or the same instance with one more click, and at most one
    entry was added at the end. *)
Theorem store_only_grows (st : State) :
  (forall env form,
     extends (workouts st) (workouts (final (_newWorkout env form st)))) /\
  (forall target,
     extends (workouts st) (workouts (final (_moveToPopup target st)))) /\
  (forall position,
     extends (workouts st) (workouts (final (_loadMap position st)))) /\
  (forall latlng, extends (workouts st) (workouts (_showForm latlng st))) /\
  (forall geo,
     extends (workouts st) (workouts (final (_getPosition geo st)))).
Proof.
  assert (Hload : forall position,
             workouts (final (_loadMap position st)) = workouts st).
  { intros position. unfold _loadMap.
    rewrite (forEach_preserves workouts); [reflexivity|].
    apply render_marker_preserves. reflexivity. }
  split; [|split; [|split; [|split]]].
  - intros env form. unfold _newWorkout.
    destruct (mapEvnt st) as [latlng|]; [|apply extends_same].
    destruct (String.eqb (inputType form) "running").
    + destruct (negb _ || negb _); [apply extends_same|].
      destruct (String.eqb (inputType form) "cycling").
      * destruct (negb _ || negb _); [apply extends_same|].
        rewrite submission_keeps_store. apply extends_one.
      * rewrite submission_keeps_store. apply extends_one.
    + destruct (String.eqb (inputType form) "cycling").
      * destruct (negb _ || negb _); [apply extends_same|].
        rewrite submission_keeps_store. apply extends_one.
      * rewrite submission_keeps_store. apply extends_one.
  - intros target.
    destruct (moveToPopup_cases target st)
      as [->|(m & n & e & c & _ & Hn & _ & Hrun)]; [apply extends_same|].
    destruct e as [w|v]; cbv zeta in Hrun; rewrite Hrun; cbn [final];
      cbn [set_workouts set_map workouts]; [|apply extends_same].
    exists (replace_nth n (Inst (click w)) (workouts st)), [].
    rewrite app_nil_r. split; [reflexivity|].
    split; [apply kept_replace_nth, Hn|cbn; lia].
  - intros position. rewrite Hload. apply extends_same.
  - intros latlng. apply extends_same.
  - intros [| |position]; cbn [_getPosition final];
      [apply extends_same|apply extends_same|].
    rewrite Hload. apply extends_same.
Qed.

(** ** The rows of the form *)

(** X8. After [n] changes of the type, each of the two rows is hidden or
    shown as it was when [n] is even, and the other way round when [n] is
    odd; so the two rows are never in the same state if they were not at
    the start. *)
Theorem toggled_rows (n : nat) (rows : Rows) :
  elevation_hidden (Nat.iter n _toggleElevationField rows)
  = xorb (Nat.odd n) (elevation_hidden rows) /\
  cadence_hidden (Nat.iter n _toggleElevationField rows)
  = xorb (Nat.odd n) (cadence_hidden rows) /\
  xorb (elevation_hidden (Nat.iter n _toggleElevationField rows))
       (cadence_hidden (Nat.iter n _toggleElevationField rows))
  = xorb (elevation_hidden rows) (cadence_hidden rows).
Proof.
  induction n as [|n (IH1 & IH2 & IH3)]; [destruct rows as [[] []]; auto|].
  rewrite Nat.odd_succ, <- Nat.negb_odd, Nat.iter_succ.
  cbn [_toggleElevationField elevation_hidden cadence_hidden].
  rewrite IH1, IH2.
  destruct (Nat.odd n), (elevation_hidden rows), (cadence_hidden rows); auto.
Qed.

(** ** Without a position *)

(** X9. When the browser refuses the position, the message is shown and
    the map never loads; the saved workouts stay listed, but from then on
    a submission and a click on the list only throw a TypeError: nothing
    can be added or activated. *)
Theorem without_position_nothing_changes (st : State) :
  map st = None -> mapEvnt st = None ->
  exists st1,
    _getPosition Refused st = Normal st1 /\
    alerts st1 = (alerts st ++ ["Could not get your location"])%list /\
    workouts st1 = workouts st /\ items st1 = items st /\
    storage st1 = storage st /\ map st1 = None /\
    (forall env form, _newWorkout env form st1 = Abrupt TypeError st1) /\
    (forall target, _moveToPopup (Some target) st1 = Abrupt TypeError st1).
Proof.
  intros Hm Hev. eexists. split; [reflexivity|].
  cbn [alert alerts workouts items storage map].
  repeat (split; [reflexivity|]). split; [exact Hm|]. split.
  - intros env form. unfold _newWorkout. cbn [alert mapEvnt]. rewrite Hev.
    reflexivity.
  - intros target. unfold _moveToPopup. cbn [alert workouts map].
    rewrite Hm. destruct (find_id target (workouts st) 0) as [found|[]];
      reflexivity.
Qed.

Lemma without_position_nothing_changes_witness :
  exists st st1,
    _getLocalStorage (initial (Some (stringify_workouts [Inst Sample.a_run])))
    = Normal st /\
    _getPosition Refused st = Normal st1 /\
    alerts st1 = ["Could not get your location"] /\
    _newWorkout Sample.env Sample.run_form st1 = Abrupt TypeError st1.
Proof.
  eexists. 
  destruct (without_position_nothing_changes
              (final (_getLocalStorage
                        (initial (Some (stringify_workouts
                                          [Inst Sample.a_run]))))))
    as (st1 & H1 & H2 & _ & _ & _ & _ & H3 & _);
    [vm_compute; reflexivity|vm_compute; reflexivity|].
  exists st1. split; [vm_compute; reflexivity|]. split; [exact H1|].
  split; [exact H2|apply H3].
Defined.

(** ** The metric is a numeral *)

Lemma digit_first (d : Z) :
  d <= 9 -> exists c, digit d = String c EmptyString /\ is_digit c = true.
Proof.
  intros H. unfold digit. eexists. split; [reflexivity|].
  unfold is_digit. rewrite nat_ascii_embedding by lia.
  apply andb_true_intro. split; apply Nat.leb_le; lia.
Qed.

Lemma decimal_fuel_first (fuel : nat) (n : Z) :
  decimal_fuel fuel n = EmptyString \/
  exists c rest, decimal_fuel fuel n = String c rest /\ is_digit c = true.
Proof.
  revert n. induction fuel as [|fuel IH]; intros n; [left; reflexivity|].
  right. cbn [decimal_fuel]. destruct (Z.ltb_spec n 10) as [Hlt|Hge].
  - destruct (digit_first n ltac:(lia)) as (c & -> & Hc). eauto.
  - destruct (digit_first (n mod 10)) as (c & -> & Hc).
    { pose proof (Z.mod_pos_bound n 10). lia. }
    destruct (IH (n / 10)) as [->|(c' & rest & -> & Hc')]; cbn [append];
      eauto.
Qed.

Lemma decimal_first (n : Z) :
  exists c rest, decimal n = String c rest /\ is_digit c = true.
Proof.
  unfold decimal.
  destruct (decimal_fuel_first (S (Z.to_nat (Z.log2 n))) n)
    as [H|H]; [|exact H].
  cbn [decimal_fuel] in H. destruct (n <? 10); [discriminate|].
  destruct (decimal_fuel _ _); discriminate.
Qed.

Lemma toFixed_unsigned_first (x : Number) :
  unsigned x ->
  exists c rest,
    toFixed x 1 = String c rest /\
    (is_digit c = true \/ String c rest = "Infinity").
Proof.
  destruct x as [[|]|[|]| |[|] m e]; cbn [unsigned]; try contradiction;
    intros _.
  - exists "0"%char, ".0". split; [reflexivity|]. left. reflexivity.
  - exists "I"%char, "nfinity". split; [reflexivity|]. right. reflexivity.
  - unfold toFixed. cbn [append].
    destruct (at_least_1e21 m e).
    + unfold toString_large.
      destruct (round_interval m e) as [[lo hi] closed].
      destruct (shortest _ _ _ _ _ _) as [s e10].
      destruct (decimal_first s) as (c & rest & -> & Hc).
      destruct rest; cbn [append]; eauto.
    + destruct (nearest_tenths m e) as [Hn _].
      rewrite place_point_one by exact Hn. unfold one_decimal.
      cbn [append].
      destruct (decimal_first (nearest_scaled m e 1 / 10))
        as (c & rest & -> & Hc).
      cbn [append]. eauto.
Qed.

(** X10. For positive finite distance and duration the pace and the speed
    are never "NaN", never empty and never carry a sign: each starts with a
    decimal digit, or is "Infinity". *)
Theorem metric_is_a_numeral
    (env : Env) (latlng : Number * Number) (d t k : Number) :
  isFinite d = true -> gt d (of_Z 0) = true ->
  isFinite t = true -> gt t (of_Z 0) = true ->
  (exists c rest,
     pace (new_Running env latlng d t k) = Some (String c rest) /\
     (is_digit c = true \/ String c rest = "Infinity")) /\
  (exists c rest,
     speed (new_Cycling env latlng d t k) = Some (String c rest) /\
     (is_digit c = true \/ String c rest = "Infinity")).
Proof.
  intros Hd Hdp Ht Htp.
  destruct (positive_finite d Hd Hdp) as (md & ed & ->).
  destruct (positive_finite t Ht Htp) as (mt & et & ->).
  split.
  - destruct (toFixed_unsigned_first
                (div (S754_finite false mt et) (S754_finite false md ed)))
      as (c & rest & Heq & Hc); [apply div_unsigned; exact I|].
    exists c, rest. split; [|exact Hc].
    cbn [new_Running calcPace _setDescription pace type duration distance].
    now rewrite Heq.
  - destruct (toFixed_unsigned_first
                (div (S754_finite false md ed)
                   (div (S754_finite false mt et) (of_Z 60))))
      as (c & rest & Heq & Hc);
      [apply div_unsigned, div_unsigned; exact I|].
    exists c, rest. split; [|exact Hc].
    cbn [new_Cycling calcSpeed _setDescription speed type duration distance].
    now rewrite Heq.
Qed.

Lemma metric_is_a_numeral_witness :
  pace (new_Running Sample.env Sample.lisbon Sample.half
          Sample.two_pow_1023 (of_Z 178)) = Some "Infinity" /\
  exists c rest,
    speed Sample.a_ride = Some (String c rest) /\
    (is_digit c = true \/ String c rest = "Infinity").
Proof.
  split; [reflexivity|].
  exact (proj2 (metric_is_a_numeral Sample.env Sample.lisbon (of_Z 20)
                  (of_Z 60) (of_Z (-300)) eq_refl eq_refl eq_refl eq_refl)).
Defined.

(** ** Witnesses of the invariants *)

Lemma list_shows_store_witness :
  List.map item_id
    (items (final (_newWorkout Sample.env Sample.run_form
                     (_showForm Sample.lisbon
                        (final (_loadMap Sample.lisbon (initial None)))))))
  = rev (List.map entry_id
           (workouts (final (_newWorkout Sample.env Sample.run_form
                               (_showForm Sample.lisbon
                                  (final (_loadMap Sample.lisbon
                                            (initial None)))))))).
Proof.
  apply list_shows_store.
  apply reach_submit; [|left; reflexivity].
  apply reach_map_click; [|reflexivity].
  apply reach_map, reach_first_visit.
Defined.

Lemma markers_show_store_witness :
  exists m,
    map (final (_newWorkout Sample.env Sample.run_form
                  (_showForm Sample.lisbon
                     (final (_loadMap Sample.lisbon (initial None))))))
    = Some m /\
    List.map marker_at (markers m)
    = [Arr [Num Sample.n38_7; Num Sample.n_9_1]] /\
    forallb opened (markers m) = true.
Proof.
  eexists. split; [vm_compute; reflexivity|].
  apply (markers_show_store
           (final (_newWorkout Sample.env Sample.run_form
                     (_showForm Sample.lisbon
                        (final (_loadMap Sample.lisbon (initial None))))))).
  - apply reach_submit; [|left; reflexivity].
    apply reach_map_click; [|reflexivity].
    apply reach_map, reach_first_visit.
  - vm_compute. reflexivity.
Defined.

(** ** A property that does not convert to a string *)

(** X11. A record one of whose listed properties (type, id, description,
    distance or duration) does not convert to a string, as an object with
    an own property [toString] does not, is not rendered: building the
    markup throws a TypeError and nothing is added to the list. *)
Theorem unconvertible_property_aborts_render
    (e : Entry) (st : State) (key : string) (v : Value) :
  In key ["type"; "id"; "description"; "distance"; "duration"] ->
  get e key = Ok v -> converts v = false ->
  _renderWorkout e st = Abrupt TypeError st.
Proof.
  intros Hkey Hget Hconv.
  assert (Hthrow : template e key = Throws TypeError).
  { unfold template. rewrite Hget. cbn [bind]. unfold ToString.
    now rewrite Hconv. }
  assert (Hrec : forall k, exists x, get e k = Ok x).
  { intros k. destruct e as [w|[]]; cbn [get] in *; try discriminate; eauto. }
  unfold _renderWorkout.
  destruct (template e "type") as [ty|[]] eqn:H1; cbn [bind];
    [|reflexivity].
  destruct (template e "id") as [i|[]] eqn:H2; cbn [bind]; [|reflexivity].
  destruct (template e "description") as [title|[]] eqn:H3; cbn [bind];
    [|reflexivity].
  destruct (Hrec "isRunning") as [run ->]. cbn [bind].
  destruct (template e "distance") as [dist|[]] eqn:H4; cbn [bind];
    [|reflexivity].
  destruct (template e "duration") as [dur|[]] eqn:H5; cbn [bind];
    [|reflexivity].
  exfalso. cbn [In] in Hkey.
  repeat (destruct Hkey as [<-|Hkey]; [congruence|]). exact Hkey.
Qed.

Lemma unconvertible_property_aborts_render_witness :
  _getLocalStorage
    (initial
       (Some [JObject [("id", JString "0000000001");
                       ("description",
                        JObject [("toString", JNumber (of_Z 1))])]]))
  = Abrupt TypeError
      (set_workouts
         [Data (Obj [("id", Str "0000000001");
                     ("description", Obj [("toString", Num (of_Z 1))])])]
         (initial
            (Some [JObject [("id", JString "0000000001");
                            ("description",
                             JObject [("toString", JNumber (of_Z 1))])]]))).
Proof.
  unfold _getLocalStorage. cbn [initial storage List.map].
  change (parse (JObject [("id", JString "0000000001");
                          ("description",
                           JObject [("toString", JNumber (of_Z 1))])]))
    with (Obj [("id", Str "0000000001");
               ("description", Obj [("toString", Num (of_Z 1))])]).
  cbn [set_workouts workouts forEach].
  rewrite (unconvertible_property_aborts_render _ _ "description"
             (Obj [("toString", Num (of_Z 1))]));
    [reflexivity|cbn; auto|reflexivity|reflexivity].
Defined.
